(** * The DTLS record layer of ssl/record/methods/dtls_meth.c

    A shallow embedding of the read path (sequence arithmetic, replay
    window, epoch routing, record processing, deferred queues, teardown)
    and of the write path (the record built by [dtls_write_records] and
    the pending write with its retry guard), followed by the properties
    proved about them. *)

From Stdlib Require Import ZArith List Bool Lia Sorted.
From Stdlib.Strings Require Import Byte.
Import ListNotations.
Local Open Scope Z_scope.

(** ** Machine integers *)

(** Conversion of a value to [uint64_t]. *)
Definition to_uint64 (x : Z) : Z := x mod 2 ^ 64.

(** Conversion of a value to [int64_t] (two's complement). *)
Definition to_int64 (x : Z) : Z :=
  let m := x mod 2 ^ 64 in if m <? 2 ^ 63 then m else m - 2 ^ 64.

(** Conversion of a value to [int]. *)
Definition to_int (x : Z) : Z :=
  let m := x mod 2 ^ 32 in if m <? 2 ^ 31 then m else m - 2 ^ 32.

(** Conversion of a value to [unsigned int]. *)
Definition to_uint (x : Z) : Z := x mod 2 ^ 32.

(** Conversion of a value to [unsigned short]. *)
Definition to_ushort (x : Z) : Z := x mod 2 ^ 16.

(** The value of an [unsigned char]. *)
Definition byte_val (b : byte) : Z := Z.of_N (Byte.to_N b).

(** [c[i]] for a byte buffer [c]. *)
Definition byte_at (c : list byte) (i : nat) : Z := byte_val (nth i c x00).

(** ** Constants of the headers

    The values below are those of the OpenSSL headers this file includes
    (ssl3.h, dtls1.h, record.h, ssl_local.h); the headers are not part of
    the sources at hand. *)

Definition SEQ_NUM_SIZE : nat := 8.
Definition DTLS1_RT_HEADER_LENGTH : Z := 13.

Definition SSL3_RT_CHANGE_CIPHER_SPEC : Z := 20.
Definition SSL3_RT_ALERT : Z := 21.
Definition SSL3_RT_HANDSHAKE : Z := 22.
Definition SSL3_RT_APPLICATION_DATA : Z := 23.

Definition SSL_ST_READ_HEADER : Z := 240.
Definition SSL_ST_READ_BODY : Z := 241.

Definition OSSL_RECORD_RETURN_SUCCESS : Z := 1.
Definition OSSL_RECORD_RETURN_RETRY : Z := 0.
Definition OSSL_RECORD_RETURN_NON_FATAL_ERR : Z := -1.
Definition OSSL_RECORD_RETURN_FATAL : Z := -2.
Definition OSSL_RECORD_RETURN_EOF : Z := -3.

Definition DTLS_ANY_VERSION : Z := 131071.
Definition DTLS1_VERSION_MAJOR : Z := 254.

Definition SSL_MODE_ACCEPT_MOVING_WRITE_BUFFER : Z := 2.

(** Alert descriptions handed to [RLAYERfatal] and [SSLfatal]. *)
Inductive alert_code : Type :=
| SSL_AD_NO_ALERT
| SSL_AD_BAD_RECORD_MAC
| SSL_AD_RECORD_OVERFLOW
| SSL_AD_DECOMPRESSION_FAILURE
| SSL_AD_DECODE_ERROR
| SSL_AD_INTERNAL_ERROR.

(** Reason codes handed to [RLAYERfatal] and [SSLfatal]. *)
Inductive reason_code : Type :=
| R_NONE
| SSL_R_ENCRYPTED_LENGTH_TOO_LONG
| ERR_R_EVP_LIB
| SSL_R_LENGTH_TOO_SHORT
| SSL_R_DECRYPTION_FAILED_OR_BAD_RECORD_MAC
| SSL_R_COMPRESSED_LENGTH_TOO_LONG
| SSL_R_BAD_DECOMPRESSION
| SSL_R_DATA_LENGTH_TOO_LONG
| ERR_R_INTERNAL_ERROR
| SSL_R_BAD_WRITE_RETRY
| SSL_R_BIO_NOT_SET
| R_OTHER.

Definition alert_eqb (a b : alert_code) : bool :=
  match a, b with
  | SSL_AD_NO_ALERT, SSL_AD_NO_ALERT
  | SSL_AD_BAD_RECORD_MAC, SSL_AD_BAD_RECORD_MAC
  | SSL_AD_RECORD_OVERFLOW, SSL_AD_RECORD_OVERFLOW
  | SSL_AD_DECOMPRESSION_FAILURE, SSL_AD_DECOMPRESSION_FAILURE
  | SSL_AD_DECODE_ERROR, SSL_AD_DECODE_ERROR
  | SSL_AD_INTERNAL_ERROR, SSL_AD_INTERNAL_ERROR => true
  | _, _ => false
  end.

(** ** SequenceArithmetic *)

(** Modelled from the spec: the macro [n2l8] of ssl_local.h, which is not
    among the sources; it reads eight bytes in big-endian (network) order
    into a 64-bit value, most significant byte first. *)
Definition n2l8 (c : list byte) : Z :=
  let l := Z.shiftl (byte_at c 0) 56 in
  let l := Z.lor l (Z.shiftl (byte_at c 1) 48) in
  let l := Z.lor l (Z.shiftl (byte_at c 2) 40) in
  let l := Z.lor l (Z.shiftl (byte_at c 3) 32) in
  let l := Z.lor l (Z.shiftl (byte_at c 4) 24) in
  let l := Z.lor l (Z.shiftl (byte_at c 5) 16) in
  let l := Z.lor l (Z.shiftl (byte_at c 6) 8) in
  Z.lor l (byte_at c 7).

(** Modelled from the spec: the macro [n2s] of ssl_local.h (not among the
    sources): two bytes in network order. *)
Definition n2s (c : list byte) : Z :=
  Z.lor (Z.shiftl (byte_at c 0) 8) (byte_at c 1).

(** mod 128 saturating subtract of two 64-bit values in big-endian order *)
Definition satsub64be (v1 v2 : list byte) : Z :=
  let l1 := n2l8 v1 in
  let l2 := n2l8 v2 in
  let ret := to_int64 (to_uint64 (l1 - l2)) in
  (* We do not permit wrap-around *)
  if (l2 <? l1) && (ret <? 0) then 128
  else if (l1 <? l2) && (0 <? ret) then -128
  else if 128 <? ret then 128
  else if ret <? -128 then -128
  else to_int ret.

(** The mathematical value of a byte string read most significant byte
    first; the reading of "8-byte big-endian" the properties are stated
    with. *)
Definition be_value (v : list byte) : Z :=
  fold_left (fun acc b => acc * 256 + byte_val b) v 0.

(** The signed difference clamped to [-128, 128], in the words of the
    specification. *)
Definition clamp128 (d : Z) : Z :=
  if 128 <? d then 128 else if d <? -128 then -128 else d.

(** ** ReplayWindow *)

(** [DTLS_BITMAP]: [map] is a [uint64_t], [max_seq_num] has
    [SEQ_NUM_SIZE] bytes. *)
Record DTLS_BITMAP : Type := mkBitmap {
  bm_map : Z;
  bm_max_seq_num : list byte
}.

(** [sizeof(bitmap->map) * 8] *)
Definition map_bits : Z := 64.

(** A 64-bit mask with only bit [shift] set: [(uint64_t)1 << shift]. *)
Definition bit64 (shift : Z) : Z := to_uint64 (Z.shiftl 1 shift).

(** ** Buffers, records and the deferred queues

    The structs of the source share field names ([epoch], [length],
    [packet], ...); each field carries the prefix of its struct here:
    [bm_] for [DTLS_BITMAP], [sb_] for [SSL3_BUFFER], [rr_] for
    [SSL3_RECORD], [rd_] for [DTLS_RLAYER_RECORD_DATA], [rq_] for
    [record_pqueue] and [rl_] for [OSSL_RECORD_LAYER]. *)

(** [SSL3_BUFFER]: [sb_buf] is [None] for a NULL buffer, else the bytes it
    holds; [len], [offset] and [left] as in the source. *)
Record SSL3_BUFFER : Type := mkBuffer {
  sb_buf : option (list byte);
  sb_len : Z;
  sb_offset : Z;
  sb_left : Z
}.

Definition set_sb_buf (v : option (list byte)) (r : SSL3_BUFFER)
  : SSL3_BUFFER :=
  mkBuffer v (sb_len r) (sb_offset r) (sb_left r).

Definition set_sb_left (v : Z) (r : SSL3_BUFFER) : SSL3_BUFFER :=
  mkBuffer (sb_buf r) (sb_len r) (sb_offset r) v.

Definition set_sb_offset (v : Z) (r : SSL3_BUFFER) : SSL3_BUFFER :=
  mkBuffer (sb_buf r) (sb_len r) v (sb_left r).

(** [SSL3_RECORD]: [data] and [input] point into the packet; they are
    modelled by the bytes found from the pointer on. [epoch] is an
    [unsigned long], [seq_num] has [SEQ_NUM_SIZE] bytes. *)
Record SSL3_RECORD : Type := mkRecord {
  rr_type : Z;
  rr_length : Z;
  rr_orig_len : Z;
  rr_off : Z;
  rr_data : list byte;
  rr_input : list byte;
  rr_epoch : Z;
  rr_seq_num : list byte
}.

Definition set_rr_type (v : Z) (r : SSL3_RECORD) : SSL3_RECORD :=
  mkRecord v (rr_length r) (rr_orig_len r) (rr_off r) (rr_data r) (rr_input r)
           (rr_epoch r) (rr_seq_num r).

Definition set_rr_length (v : Z) (r : SSL3_RECORD) : SSL3_RECORD :=
  mkRecord (rr_type r) v (rr_orig_len r) (rr_off r) (rr_data r) (rr_input r)
           (rr_epoch r) (rr_seq_num r).

Definition set_rr_orig_len (v : Z) (r : SSL3_RECORD) : SSL3_RECORD :=
  mkRecord (rr_type r) (rr_length r) v (rr_off r) (rr_data r) (rr_input r)
           (rr_epoch r) (rr_seq_num r).

Definition set_rr_off (v : Z) (r : SSL3_RECORD) : SSL3_RECORD :=
  mkRecord (rr_type r) (rr_length r) (rr_orig_len r) v (rr_data r)
           (rr_input r) (rr_epoch r) (rr_seq_num r).

Definition set_rr_data (v : list byte) (r : SSL3_RECORD) : SSL3_RECORD :=
  mkRecord (rr_type r) (rr_length r) (rr_orig_len r) (rr_off r) v (rr_input r)
           (rr_epoch r) (rr_seq_num r).

Definition set_rr_input (v : list byte) (r : SSL3_RECORD) : SSL3_RECORD :=
  mkRecord (rr_type r) (rr_length r) (rr_orig_len r) (rr_off r) (rr_data r) v
           (rr_epoch r) (rr_seq_num r).

Definition set_rr_epoch (v : Z) (r : SSL3_RECORD) : SSL3_RECORD :=
  mkRecord (rr_type r) (rr_length r) (rr_orig_len r) (rr_off r) (rr_data r)
           (rr_input r) v (rr_seq_num r).

Definition set_rr_seq_num (v : list byte) (r : SSL3_RECORD) : SSL3_RECORD :=
  mkRecord (rr_type r) (rr_length r) (rr_orig_len r) (rr_off r) (rr_data r)
           (rr_input r) (rr_epoch r) v.

(** [DTLS_RLAYER_RECORD_DATA]: a buffered record with the packet and the
    read buffer it owns. *)
Record DTLS_RLAYER_RECORD_DATA : Type := mkRecordData {
  rd_packet : list byte;
  rd_packet_length : Z;
  rd_rbuf : SSL3_BUFFER;
  rd_rrec : SSL3_RECORD
}.

(** [pitem]: an 8-byte priority and the buffered record; the [next] link
    is the tail of the list that models the queue. *)
Record pitem : Type := mkPitem {
  priority : list byte;
  pi_data : DTLS_RLAYER_RECORD_DATA
}.

(** [memset(&rbuf, 0, sizeof(SSL3_BUFFER))] *)
Definition zero_buffer : SSL3_BUFFER := mkBuffer None 0 0 0.

(** [memset(&rrec[0], 0, sizeof(rrec[0]))] *)
Definition zero_record : SSL3_RECORD :=
  mkRecord 0 0 0 0 [] [] 0 (repeat x00 SEQ_NUM_SIZE).

(** Modelled from the spec: the priority queue of ssl/pqueue.c, which is
    not among the sources. It is a list kept in increasing order of the
    8-byte big-endian priority; [pqueue_insert] refuses an item whose
    priority is already present (it returns NULL, here [None]),
    [pqueue_pop] removes the item of smallest priority, [pqueue_size]
    counts the items. *)
Definition pqueue : Type := list pitem.

Definition pqueue_new : pqueue := [].

Definition pqueue_size (pq : pqueue) : Z := Z.of_nat (List.length pq).

Fixpoint pqueue_insert (pq : pqueue) (item : pitem) : option pqueue :=
  match pq with
  | [] => Some [item]
  | next :: rest =>
      if n2l8 (priority item) <? n2l8 (priority next) then Some (item :: pq)
      else if n2l8 (priority next) =? n2l8 (priority item) then None
      else match pqueue_insert rest item with
           | Some rest' => Some (next :: rest')
           | None => None
           end
  end.

Definition pqueue_pop (pq : pqueue) : option (pitem * pqueue) :=
  match pq with
  | [] => None
  | item :: rest => Some (item, rest)
  end.

(** The queues the layer can hold: built from [pqueue_new] by
    [pqueue_insert] and [pqueue_pop]. *)
Inductive pqueue_built : pqueue -> Prop :=
| built_new : pqueue_built pqueue_new
| built_insert (pq pq' : pqueue) (item : pitem) :
    pqueue_built pq -> pqueue_insert pq item = Some pq' -> pqueue_built pq'
| built_pop (pq pq' : pqueue) (item : pitem) :
    pqueue_built pq -> pqueue_pop pq = Some (item, pq') -> pqueue_built pq'.

(** The priority of an item as a number: the 8 bytes read big-endian. *)
Definition priority_value (item : pitem) : Z := n2l8 (priority item).

(** The raw packet of a buffered record: [packet_length] bytes at
    [packet]. *)
Definition raw_packet (item : pitem) : list byte :=
  firstn (Z.to_nat (rd_packet_length (pi_data item)))
         (rd_packet (pi_data item)).

(** [pitem_new(prio64be, data)] copies the eight bytes of the priority. *)
Definition pitem_new (prio64be : list byte) (data : DTLS_RLAYER_RECORD_DATA)
  : pitem :=
  mkPitem (firstn 8 prio64be) data.

(** [record_pqueue]: [rq_q] is [None] for a NULL queue pointer. *)
Record record_pqueue : Type := mkRecordPqueue {
  rq_epoch : Z;
  rq_q : option pqueue
}.

(** [queue->q] on the read path. [dtls_new_record_layer] allocates both
    queues before any other method can run and fails otherwise, so the
    read path never sees a NULL queue; only [dtls_free] tests for it. *)
Definition rq_items (queue : record_pqueue) : pqueue :=
  match rq_q queue with
  | Some pq => pq
  | None => []
  end.

Definition set_rq_items (pq : pqueue) (queue : record_pqueue) : record_pqueue :=
  mkRecordPqueue (rq_epoch queue) (Some pq).

(** [OSSL_RECORD_LAYER], the fields this file reads or writes.
    - [rl_md_ctx]: [None] for a NULL [md_ctx]; [Some None] for a context
      whose [EVP_MD_CTX_get0_md] is NULL; [Some (Some n)] for a digest
      whose [EVP_MD_get_size] is [n].
    - [rl_enc_ctx], [rl_compctx]: whether the pointer is non-NULL.
    - [rl_is_sctp]: [BIO_dgram_is_sctp(rl->bio)]; [false] in a build
      with OPENSSL_NO_SCTP.
    - [rl_rrec] is [rl->rrec[0]].
    - [rl_alert], [rl_reason]: what the last [RLAYERfatal] recorded.
    - [rl_bio]: the datagrams the transport still holds.
    - [rl_next]: the data handed to [BIO_write_ex] on [rl->next], oldest
      first. *)
Record OSSL_RECORD_LAYER : Type := mkRL {
  rl_version : Z;
  rl_epoch : Z;
  rl_in_init : Z;
  rl_is_first_record : bool;
  rl_use_etm : bool;
  rl_md_ctx : option (option Z);
  rl_enc_ctx : bool;
  rl_compctx : bool;
  rl_max_frag_len : Z;
  rl_is_sctp : bool;
  rl_rstate : Z;
  rl_packet : list byte;
  rl_packet_length : Z;
  rl_rbuf : SSL3_BUFFER;
  rl_rrec : SSL3_RECORD;
  rl_sequence : list byte;
  rl_bitmap : DTLS_BITMAP;
  rl_next_bitmap : DTLS_BITMAP;
  rl_unprocessed_rcds : record_pqueue;
  rl_processed_rcds : record_pqueue;
  rl_alert : alert_code;
  rl_reason : reason_code;
  rl_num_recs : Z;
  rl_curr_rec : Z;
  rl_num_released : Z;
  rl_bio : list (list byte);
  rl_next : list (list byte)
}.

Definition set_rl_epoch (v : Z) (r : OSSL_RECORD_LAYER) : OSSL_RECORD_LAYER :=
  mkRL (rl_version r) v (rl_in_init r) (rl_is_first_record r) (rl_use_etm r)
       (rl_md_ctx r) (rl_enc_ctx r) (rl_compctx r) (rl_max_frag_len r)
       (rl_is_sctp r) (rl_rstate r) (rl_packet r) (rl_packet_length r)
       (rl_rbuf r) (rl_rrec r) (rl_sequence r) (rl_bitmap r)
       (rl_next_bitmap r) (rl_unprocessed_rcds r) (rl_processed_rcds r)
       (rl_alert r) (rl_reason r) (rl_num_recs r) (rl_curr_rec r)
       (rl_num_released r) (rl_bio r) (rl_next r) .

Definition set_rl_in_init (v : Z) (r : OSSL_RECORD_LAYER) : OSSL_RECORD_LAYER :=
  mkRL (rl_version r) (rl_epoch r) v (rl_is_first_record r) (rl_use_etm r)
       (rl_md_ctx r) (rl_enc_ctx r) (rl_compctx r) (rl_max_frag_len r)
       (rl_is_sctp r) (rl_rstate r) (rl_packet r) (rl_packet_length r)
       (rl_rbuf r) (rl_rrec r) (rl_sequence r) (rl_bitmap r)
       (rl_next_bitmap r) (rl_unprocessed_rcds r) (rl_processed_rcds r)
       (rl_alert r) (rl_reason r) (rl_num_recs r) (rl_curr_rec r)
       (rl_num_released r) (rl_bio r) (rl_next r) .

Definition set_rl_rstate (v : Z) (r : OSSL_RECORD_LAYER) : OSSL_RECORD_LAYER :=
  mkRL (rl_version r) (rl_epoch r) (rl_in_init r) (rl_is_first_record r)
       (rl_use_etm r) (rl_md_ctx r) (rl_enc_ctx r) (rl_compctx r)
       (rl_max_frag_len r) (rl_is_sctp r) v (rl_packet r) (rl_packet_length r)
       (rl_rbuf r) (rl_rrec r) (rl_sequence r) (rl_bitmap r)
       (rl_next_bitmap r) (rl_unprocessed_rcds r) (rl_processed_rcds r)
       (rl_alert r) (rl_reason r) (rl_num_recs r) (rl_curr_rec r)
       (rl_num_released r) (rl_bio r) (rl_next r) .

Definition set_rl_packet (v : list byte) (r : OSSL_RECORD_LAYER)
  : OSSL_RECORD_LAYER :=
  mkRL (rl_version r) (rl_epoch r) (rl_in_init r) (rl_is_first_record r)
       (rl_use_etm r) (rl_md_ctx r) (rl_enc_ctx r) (rl_compctx r)
       (rl_max_frag_len r) (rl_is_sctp r) (rl_rstate r) v (rl_packet_length r)
       (rl_rbuf r) (rl_rrec r) (rl_sequence r) (rl_bitmap r)
       (rl_next_bitmap r) (rl_unprocessed_rcds r) (rl_processed_rcds r)
       (rl_alert r) (rl_reason r) (rl_num_recs r) (rl_curr_rec r)
       (rl_num_released r) (rl_bio r) (rl_next r) .

Definition set_rl_packet_length (v : Z) (r : OSSL_RECORD_LAYER)
  : OSSL_RECORD_LAYER :=
  mkRL (rl_version r) (rl_epoch r) (rl_in_init r) (rl_is_first_record r)
       (rl_use_etm r) (rl_md_ctx r) (rl_enc_ctx r) (rl_compctx r)
       (rl_max_frag_len r) (rl_is_sctp r) (rl_rstate r) (rl_packet r) v
       (rl_rbuf r) (rl_rrec r) (rl_sequence r) (rl_bitmap r)
       (rl_next_bitmap r) (rl_unprocessed_rcds r) (rl_processed_rcds r)
       (rl_alert r) (rl_reason r) (rl_num_recs r) (rl_curr_rec r)
       (rl_num_released r) (rl_bio r) (rl_next r) .

Definition set_rl_rbuf (v : SSL3_BUFFER) (r : OSSL_RECORD_LAYER)
  : OSSL_RECORD_LAYER :=
  mkRL (rl_version r) (rl_epoch r) (rl_in_init r) (rl_is_first_record r)
       (rl_use_etm r) (rl_md_ctx r) (rl_enc_ctx r) (rl_compctx r)
       (rl_max_frag_len r) (rl_is_sctp r) (rl_rstate r) (rl_packet r)
       (rl_packet_length r) v (rl_rrec r) (rl_sequence r) (rl_bitmap r)
       (rl_next_bitmap r) (rl_unprocessed_rcds r) (rl_processed_rcds r)
       (rl_alert r) (rl_reason r) (rl_num_recs r) (rl_curr_rec r)
       (rl_num_released r) (rl_bio r) (rl_next r) .

Definition set_rl_rrec (v : SSL3_RECORD) (r : OSSL_RECORD_LAYER)
  : OSSL_RECORD_LAYER :=
  mkRL (rl_version r) (rl_epoch r) (rl_in_init r) (rl_is_first_record r)
       (rl_use_etm r) (rl_md_ctx r) (rl_enc_ctx r) (rl_compctx r)
       (rl_max_frag_len r) (rl_is_sctp r) (rl_rstate r) (rl_packet r)
       (rl_packet_length r) (rl_rbuf r) v (rl_sequence r) (rl_bitmap r)
       (rl_next_bitmap r) (rl_unprocessed_rcds r) (rl_processed_rcds r)
       (rl_alert r) (rl_reason r) (rl_num_recs r) (rl_curr_rec r)
       (rl_num_released r) (rl_bio r) (rl_next r) .

Definition set_rl_sequence (v : list byte) (r : OSSL_RECORD_LAYER)
  : OSSL_RECORD_LAYER :=
  mkRL (rl_version r) (rl_epoch r) (rl_in_init r) (rl_is_first_record r)
       (rl_use_etm r) (rl_md_ctx r) (rl_enc_ctx r) (rl_compctx r)
       (rl_max_frag_len r) (rl_is_sctp r) (rl_rstate r) (rl_packet r)
       (rl_packet_length r) (rl_rbuf r) (rl_rrec r) v (rl_bitmap r)
       (rl_next_bitmap r) (rl_unprocessed_rcds r) (rl_processed_rcds r)
       (rl_alert r) (rl_reason r) (rl_num_recs r) (rl_curr_rec r)
       (rl_num_released r) (rl_bio r) (rl_next r) .

Definition set_rl_bitmap (v : DTLS_BITMAP) (r : OSSL_RECORD_LAYER)
  : OSSL_RECORD_LAYER :=
  mkRL (rl_version r) (rl_epoch r) (rl_in_init r) (rl_is_first_record r)
       (rl_use_etm r) (rl_md_ctx r) (rl_enc_ctx r) (rl_compctx r)
       (rl_max_frag_len r) (rl_is_sctp r) (rl_rstate r) (rl_packet r)
       (rl_packet_length r) (rl_rbuf r) (rl_rrec r) (rl_sequence r) v
       (rl_next_bitmap r) (rl_unprocessed_rcds r) (rl_processed_rcds r)
       (rl_alert r) (rl_reason r) (rl_num_recs r) (rl_curr_rec r)
       (rl_num_released r) (rl_bio r) (rl_next r) .

Definition set_rl_next_bitmap (v : DTLS_BITMAP) (r : OSSL_RECORD_LAYER)
  : OSSL_RECORD_LAYER :=
  mkRL (rl_version r) (rl_epoch r) (rl_in_init r) (rl_is_first_record r)
       (rl_use_etm r) (rl_md_ctx r) (rl_enc_ctx r) (rl_compctx r)
       (rl_max_frag_len r) (rl_is_sctp r) (rl_rstate r) (rl_packet r)
       (rl_packet_length r) (rl_rbuf r) (rl_rrec r) (rl_sequence r)
       (rl_bitmap r) v (rl_unprocessed_rcds r) (rl_processed_rcds r)
       (rl_alert r) (rl_reason r) (rl_num_recs r) (rl_curr_rec r)
       (rl_num_released r) (rl_bio r) (rl_next r) .

Definition set_rl_unprocessed_rcds (v : record_pqueue) (r : OSSL_RECORD_LAYER)
  : OSSL_RECORD_LAYER :=
  mkRL (rl_version r) (rl_epoch r) (rl_in_init r) (rl_is_first_record r)
       (rl_use_etm r) (rl_md_ctx r) (rl_enc_ctx r) (rl_compctx r)
       (rl_max_frag_len r) (rl_is_sctp r) (rl_rstate r) (rl_packet r)
       (rl_packet_length r) (rl_rbuf r) (rl_rrec r) (rl_sequence r)
       (rl_bitmap r) (rl_next_bitmap r) v (rl_processed_rcds r) (rl_alert r)
       (rl_reason r) (rl_num_recs r) (rl_curr_rec r) (rl_num_released r)
       (rl_bio r) (rl_next r) .

Definition set_rl_processed_rcds (v : record_pqueue) (r : OSSL_RECORD_LAYER)
  : OSSL_RECORD_LAYER :=
  mkRL (rl_version r) (rl_epoch r) (rl_in_init r) (rl_is_first_record r)
       (rl_use_etm r) (rl_md_ctx r) (rl_enc_ctx r) (rl_compctx r)
       (rl_max_frag_len r) (rl_is_sctp r) (rl_rstate r) (rl_packet r)
       (rl_packet_length r) (rl_rbuf r) (rl_rrec r) (rl_sequence r)
       (rl_bitmap r) (rl_next_bitmap r) (rl_unprocessed_rcds r) v (rl_alert r)
       (rl_reason r) (rl_num_recs r) (rl_curr_rec r) (rl_num_released r)
       (rl_bio r) (rl_next r) .

Definition set_rl_alert (v : alert_code) (r : OSSL_RECORD_LAYER)
  : OSSL_RECORD_LAYER :=
  mkRL (rl_version r) (rl_epoch r) (rl_in_init r) (rl_is_first_record r)
       (rl_use_etm r) (rl_md_ctx r) (rl_enc_ctx r) (rl_compctx r)
       (rl_max_frag_len r) (rl_is_sctp r) (rl_rstate r) (rl_packet r)
       (rl_packet_length r) (rl_rbuf r) (rl_rrec r) (rl_sequence r)
       (rl_bitmap r) (rl_next_bitmap r) (rl_unprocessed_rcds r)
       (rl_processed_rcds r) v (rl_reason r) (rl_num_recs r) (rl_curr_rec r)
       (rl_num_released r) (rl_bio r) (rl_next r) .

Definition set_rl_reason (v : reason_code) (r : OSSL_RECORD_LAYER)
  : OSSL_RECORD_LAYER :=
  mkRL (rl_version r) (rl_epoch r) (rl_in_init r) (rl_is_first_record r)
       (rl_use_etm r) (rl_md_ctx r) (rl_enc_ctx r) (rl_compctx r)
       (rl_max_frag_len r) (rl_is_sctp r) (rl_rstate r) (rl_packet r)
       (rl_packet_length r) (rl_rbuf r) (rl_rrec r) (rl_sequence r)
       (rl_bitmap r) (rl_next_bitmap r) (rl_unprocessed_rcds r)
       (rl_processed_rcds r) (rl_alert r) v (rl_num_recs r) (rl_curr_rec r)
       (rl_num_released r) (rl_bio r) (rl_next r) .

Definition set_rl_num_recs (v : Z) (r : OSSL_RECORD_LAYER)
  : OSSL_RECORD_LAYER :=
  mkRL (rl_version r) (rl_epoch r) (rl_in_init r) (rl_is_first_record r)
       (rl_use_etm r) (rl_md_ctx r) (rl_enc_ctx r) (rl_compctx r)
       (rl_max_frag_len r) (rl_is_sctp r) (rl_rstate r) (rl_packet r)
       (rl_packet_length r) (rl_rbuf r) (rl_rrec r) (rl_sequence r)
       (rl_bitmap r) (rl_next_bitmap r) (rl_unprocessed_rcds r)
       (rl_processed_rcds r) (rl_alert r) (rl_reason r) v (rl_curr_rec r)
       (rl_num_released r) (rl_bio r) (rl_next r) .

Definition set_rl_curr_rec (v : Z) (r : OSSL_RECORD_LAYER)
  : OSSL_RECORD_LAYER :=
  mkRL (rl_version r) (rl_epoch r) (rl_in_init r) (rl_is_first_record r)
       (rl_use_etm r) (rl_md_ctx r) (rl_enc_ctx r) (rl_compctx r)
       (rl_max_frag_len r) (rl_is_sctp r) (rl_rstate r) (rl_packet r)
       (rl_packet_length r) (rl_rbuf r) (rl_rrec r) (rl_sequence r)
       (rl_bitmap r) (rl_next_bitmap r) (rl_unprocessed_rcds r)
       (rl_processed_rcds r) (rl_alert r) (rl_reason r) (rl_num_recs r) v
       (rl_num_released r) (rl_bio r) (rl_next r) .

Definition set_rl_num_released (v : Z) (r : OSSL_RECORD_LAYER)
  : OSSL_RECORD_LAYER :=
  mkRL (rl_version r) (rl_epoch r) (rl_in_init r) (rl_is_first_record r)
       (rl_use_etm r) (rl_md_ctx r) (rl_enc_ctx r) (rl_compctx r)
       (rl_max_frag_len r) (rl_is_sctp r) (rl_rstate r) (rl_packet r)
       (rl_packet_length r) (rl_rbuf r) (rl_rrec r) (rl_sequence r)
       (rl_bitmap r) (rl_next_bitmap r) (rl_unprocessed_rcds r)
       (rl_processed_rcds r) (rl_alert r) (rl_reason r) (rl_num_recs r)
       (rl_curr_rec r) v (rl_bio r) (rl_next r) .

Definition set_rl_bio (v : list (list byte)) (r : OSSL_RECORD_LAYER)
  : OSSL_RECORD_LAYER :=
  mkRL (rl_version r) (rl_epoch r) (rl_in_init r) (rl_is_first_record r)
       (rl_use_etm r) (rl_md_ctx r) (rl_enc_ctx r) (rl_compctx r)
       (rl_max_frag_len r) (rl_is_sctp r) (rl_rstate r) (rl_packet r)
       (rl_packet_length r) (rl_rbuf r) (rl_rrec r) (rl_sequence r)
       (rl_bitmap r) (rl_next_bitmap r) (rl_unprocessed_rcds r)
       (rl_processed_rcds r) (rl_alert r) (rl_reason r) (rl_num_recs r)
       (rl_curr_rec r) (rl_num_released r) v (rl_next r) .

Definition set_rl_next (v : list (list byte)) (r : OSSL_RECORD_LAYER)
  : OSSL_RECORD_LAYER :=
  mkRL (rl_version r) (rl_epoch r) (rl_in_init r) (rl_is_first_record r)
       (rl_use_etm r) (rl_md_ctx r) (rl_enc_ctx r) (rl_compctx r)
       (rl_max_frag_len r) (rl_is_sctp r) (rl_rstate r) (rl_packet r)
       (rl_packet_length r) (rl_rbuf r) (rl_rrec r) (rl_sequence r)
       (rl_bitmap r) (rl_next_bitmap r) (rl_unprocessed_rcds r)
       (rl_processed_rcds r) (rl_alert r) (rl_reason r) (rl_num_recs r)
       (rl_curr_rec r) (rl_num_released r) (rl_bio r) v.

(** [RLAYERfatal(rl, al, reason)] records the alert and the reason. *)
Definition RLAYERfatal (rl : OSSL_RECORD_LAYER) (al : alert_code)
  (reason : reason_code) : OSSL_RECORD_LAYER :=
  set_rl_reason reason (set_rl_alert al rl).

(** A [DTLS_BITMAP *] into the record layer: [&rl->bitmap] or
    [&rl->next_bitmap]. *)
Inductive bitmap_ref : Type :=
| ref_bitmap
| ref_next_bitmap.

Definition get_bitmap_at (rl : OSSL_RECORD_LAYER) (b : bitmap_ref)
  : DTLS_BITMAP :=
  match b with
  | ref_bitmap => rl_bitmap rl
  | ref_next_bitmap => rl_next_bitmap rl
  end.

Definition set_bitmap_at (b : bitmap_ref) (v : DTLS_BITMAP)
  (rl : OSSL_RECORD_LAYER) : OSSL_RECORD_LAYER :=
  match b with
  | ref_bitmap => set_rl_bitmap v rl
  | ref_next_bitmap => set_rl_next_bitmap v rl
  end.

(** Both replay windows of [rl'] are those of [rl]. *)
Definition same_windows (rl rl' : OSSL_RECORD_LAYER) : Prop :=
  rl_bitmap rl' = rl_bitmap rl /\ rl_next_bitmap rl' = rl_next_bitmap rl.

(** [SSL3_RECORD_set_seq_num(&rl->rrec[0], seq)] copies [SEQ_NUM_SIZE]
    bytes. *)
Definition SSL3_RECORD_set_seq_num (seq : list byte) (rl : OSSL_RECORD_LAYER)
  : OSSL_RECORD_LAYER :=
  set_rl_rrec (set_rr_seq_num (firstn SEQ_NUM_SIZE seq) (rl_rrec rl)) rl.

(** The four ways out of [dtls_record_replay_check], named after the
    comments of the source. *)
Inductive replay_exit : Type :=
| record_is_new                 (* this record in new *)
| record_is_stale               (* stale, outside the window *)
| record_previously_received    (* record previously received *)
| record_in_window_unseen.      (* the final return 1 *)

Definition replay_check_exit (seq : list byte) (bitmap : DTLS_BITMAP)
  : replay_exit :=
  let cmp := satsub64be seq (bm_max_seq_num bitmap) in
  if 0 <? cmp then record_is_new
  else
    let shift := to_uint (- cmp) in
    if map_bits <=? shift then record_is_stale
    else if negb (Z.land (bm_map bitmap) (bit64 shift) =? 0)
    then record_previously_received
    else record_in_window_unseen.

(** The result is the return value and the layer afterwards. *)
Definition dtls_record_replay_check (rl : OSSL_RECORD_LAYER)
  (bitmap : bitmap_ref) : Z * OSSL_RECORD_LAYER :=
  let seq := rl_sequence rl in
  match replay_check_exit seq (get_bitmap_at rl bitmap) with
  | record_is_new => (1, SSL3_RECORD_set_seq_num seq rl)
  | record_is_stale => (0, rl)
  | record_previously_received => (0, rl)
  | record_in_window_unseen => (1, SSL3_RECORD_set_seq_num seq rl)
  end.

(** The classification of the specification: fresh, duplicate or
    stale. *)
Inductive replay_class : Type :=
| cls_fresh
| cls_duplicate
| cls_stale.

(** check(seq) in the words of the specification, with [d] the
    saturating difference of [seq] and [max_seq]. *)
Definition check_spec (d : Z) (bitmap : Z) : replay_class :=
  if 0 <? d then cls_fresh
  else if 64 <=? - d then cls_stale
  else if Z.testbit bitmap (- d) then cls_duplicate
  else cls_fresh.

(** How the specification reads the exits of the source. *)
Definition class_of_exit (e : replay_exit) : replay_class :=
  match e with
  | record_is_new => cls_fresh
  | record_is_stale => cls_stale
  | record_previously_received => cls_duplicate
  | record_in_window_unseen => cls_fresh
  end.

Definition dtls_record_bitmap_update (rl : OSSL_RECORD_LAYER)
  (bitmap : bitmap_ref) : OSSL_RECORD_LAYER :=
  let seq := rl_sequence rl in
  let bm := get_bitmap_at rl bitmap in
  let cmp := satsub64be seq (bm_max_seq_num bm) in
  if 0 <? cmp then
    let shift := to_uint cmp in
    let m := if shift <? map_bits
             then Z.lor (to_uint64 (Z.shiftl (bm_map bm) shift)) 1
             else 1 in
    set_bitmap_at bitmap (mkBitmap m (firstn SEQ_NUM_SIZE seq)) rl
  else
    let shift := to_uint (- cmp) in
    if shift <? map_bits
    then set_bitmap_at bitmap
           (mkBitmap (Z.lor (bm_map bm) (bit64 shift)) (bm_max_seq_num bm)) rl
    else rl.

(** ** EpochRouter *)

(** The result is the pointer returned ([None] for NULL) and the value
    stored in [*is_next_epoch]. [rr->epoch] is an [unsigned long] and
    [rl->epoch] a 16-bit value: [rl->epoch + 1] is computed in [int]
    and then converted. *)
Definition dtls_get_bitmap (rl : OSSL_RECORD_LAYER) (rr : SSL3_RECORD)
  : option bitmap_ref * Z :=
  (* In current epoch, accept HM, CCS, DATA, & ALERT *)
  if rr_epoch rr =? rl_epoch rl then (Some ref_bitmap, 0)
  (* Only HM and ALERT messages can be from the next epoch and only if we
     have already processed all of the unprocessed records from the last
     epoch *)
  else if (rr_epoch rr =? to_uint64 (to_int (rl_epoch rl + 1)))
          && negb (rq_epoch (rl_unprocessed_rcds rl) =? rl_epoch rl)
          && ((rr_type rr =? SSL3_RT_HANDSHAKE)
              || (rr_type rr =? SSL3_RT_ALERT))
  then (Some ref_next_bitmap, 1)
  else (None, 0).

(** The condition under which the source selects the next-epoch
    window. *)
Definition routes_to_next (rl : OSSL_RECORD_LAYER) (rr : SSL3_RECORD) : Prop :=
  rr_epoch rr = rl_epoch rl + 1
  /\ rq_epoch (rl_unprocessed_rcds rl) <> rl_epoch rl
  /\ (rr_type rr = SSL3_RT_HANDSHAKE \/ rr_type rr = SSL3_RT_ALERT).

Definition dtls_set_in_init (rl : OSSL_RECORD_LAYER) (in_init : Z)
  : OSSL_RECORD_LAYER :=
  set_rl_in_init in_init rl.

(** ** RecordPipeline *)

(** [SSL_MAC_BUF]: [mb_mac] is [None] for a NULL pointer. *)
Record SSL_MAC_BUF : Type := mkMacBuf {
  mb_mac : option (list byte);
  mb_alloced : bool
}.

(** What a call of [rl->funcs->cipher] leaves behind: its return value,
    the record it worked on, the MAC buffer it filled in, and the alert
    and reason found in the layer afterwards (unchanged unless the
    cipher called [RLAYERfatal]). *)
Record cipher_result : Type := mkCipherResult {
  c_ret : Z;
  c_rec : SSL3_RECORD;
  c_macbuf : SSL_MAC_BUF;
  c_alert : alert_code;
  c_reason : reason_code
}.

(** [CRYPTO_memcmp(a, b, len)]: zero exactly when the first [len] bytes
    agree. *)
Definition CRYPTO_memcmp (a b : list byte) (len : Z) : Z :=
  if list_eq_dec Byte.byte_eq_dec
       (firstn (Z.to_nat len) a) (firstn (Z.to_nat len) b)
  then 0 else 1.

(** How one pass over the body of [dtls_get_more_records] ends: with
    [goto again] or with a [return]. *)
Inductive pass_result : Type :=
| Again (rl : OSSL_RECORD_LAYER)
| Return (ret : Z) (rl : OSSL_RECORD_LAYER).

(** Which of the two deferred queues of the layer a [record_pqueue *]
    designates. *)
Inductive queue_ref : Type :=
| ref_unprocessed_rcds
| ref_processed_rcds.

Definition get_queue_at (rl : OSSL_RECORD_LAYER) (q : queue_ref)
  : record_pqueue :=
  match q with
  | ref_unprocessed_rcds => rl_unprocessed_rcds rl
  | ref_processed_rcds => rl_processed_rcds rl
  end.

Definition set_queue_at (q : queue_ref) (v : record_pqueue)
  (rl : OSSL_RECORD_LAYER) : OSSL_RECORD_LAYER :=
  match q with
  | ref_unprocessed_rcds => set_rl_unprocessed_rcds v rl
  | ref_processed_rcds => set_rl_processed_rcds v rl
  end.

Section RecordLayer.

(** Size limits of ssl3.h and evp.h; their values depend on the build
    (compression support) and are left open. *)
Variable SSL3_RT_MAX_ENCRYPTED_LENGTH : Z.
Variable SSL3_RT_MAX_COMPRESSED_LENGTH : Z.
Variable SSL3_RT_MAX_ENCRYPTED_OVERHEAD : Z.
Variable EVP_MAX_MD_SIZE : Z.

(** The collaborators reached through [rl->funcs] and the library; none
    of them is defined in this file.
    - [mac rl rr sending] gives the return value and the digest written
      to [md];
    - [cipher rl rr n_recs sending mac_size], see [cipher_result];
    - [tls_do_uncompress rl rr] gives success and the record;
    - [read_n rl n max extend clearold] gives the return value, the
      count stored in [*readbytes] and the layer afterwards;
    - [tls_setup_read_buffer rl] gives success and the layer afterwards
      (it calls [RLAYERfatal] itself when it fails);
    - [OPENSSL_malloc_ok rl] and [pitem_new_ok rl] tell whether the two
      allocations of [dtls_rlayer_buffer_record] succeed;
    - [BIO_write_ex_ok log data] tells whether [BIO_write_ex] on
      [rl->next] succeeds, given what was written before;
    - [tls_free rl] gives the return value of the generic teardown. *)
Variable mac : OSSL_RECORD_LAYER -> SSL3_RECORD -> Z -> Z * list byte.
Variable cipher :
  OSSL_RECORD_LAYER -> SSL3_RECORD -> Z -> Z -> Z -> cipher_result.
Variable tls_do_uncompress :
  OSSL_RECORD_LAYER -> SSL3_RECORD -> bool * SSL3_RECORD.
Variable read_n :
  OSSL_RECORD_LAYER -> Z -> Z -> Z -> Z -> Z * Z * OSSL_RECORD_LAYER.
Variable tls_setup_read_buffer :
  OSSL_RECORD_LAYER -> bool * OSSL_RECORD_LAYER.
Variable OPENSSL_malloc_ok : OSSL_RECORD_LAYER -> bool.
Variable pitem_new_ok : OSSL_RECORD_LAYER -> bool.
Variable BIO_write_ex_ok : list (list byte) -> list byte -> bool.
Variable tls_free : OSSL_RECORD_LAYER -> Z.

(** [EVP_MD_CTX_get0_md(rl->md_ctx) != NULL] *)
Definition md_present (rl : OSSL_RECORD_LAYER) : bool :=
  match rl_md_ctx rl with
  | Some (Some _) => true
  | _ => false
  end.

(** Lines 152 to 163 of [dtls_process_record]: the MAC size, or [None]
    when the assertion on [imac_size] fails. *)
Definition process_mac_size (rl : OSSL_RECORD_LAYER) : option Z :=
  match rl_md_ctx rl with
  | Some (Some imac_size) =>
      if (0 <=? imac_size) && (imac_size <=? EVP_MAX_MD_SIZE)
      then Some imac_size else None
  | _ => Some 0
  end.

(** Lines 240 to 277 of [dtls_process_record]: decompression, the
    fragment length check and the commit. *)
Definition process_finish (rl : OSSL_RECORD_LAYER) (bitmap : bitmap_ref)
  : Z * OSSL_RECORD_LAYER :=
  let rr := rl_rrec rl in
  let after_comp :=
    if rl_compctx rl then
      if SSL3_RT_MAX_COMPRESSED_LENGTH <? rr_length rr then
        inl (RLAYERfatal rl SSL_AD_RECORD_OVERFLOW
                         SSL_R_COMPRESSED_LENGTH_TOO_LONG)
      else
        let '(ok, rr') := tls_do_uncompress rl rr in
        if ok then inr (set_rl_rrec rr' rl)
        else inl (RLAYERfatal (set_rl_rrec rr' rl)
                              SSL_AD_DECOMPRESSION_FAILURE
                              SSL_R_BAD_DECOMPRESSION)
    else inr rl in
  match after_comp with
  | inl rl => (0, rl)
  | inr rl =>
      let rr := rl_rrec rl in
      (* Check if the received packet overflows the current Max Fragment
         Length setting. *)
      if rl_max_frag_len rl <? rr_length rr then
        (0, RLAYERfatal rl SSL_AD_RECORD_OVERFLOW SSL_R_DATA_LENGTH_TOO_LONG)
      else
        let rl := set_rl_rrec (set_rr_off 0 rr) rl in
        (* we have pulled in a full packet so zero things *)
        let rl := set_rl_packet_length 0 rl in
        (* Mark receipt of record. *)
        let rl := dtls_record_bitmap_update rl bitmap in
        (1, rl)
  end.

(** The layer once [rl->funcs->cipher] has returned [c]. *)
Definition after_cipher (rl : OSSL_RECORD_LAYER) (c : cipher_result)
  : OSSL_RECORD_LAYER :=
  set_rl_reason (c_reason c)
    (set_rl_alert (c_alert c) (set_rl_rrec (c_rec c) rl)).

(** The test of line 219: MAC-then-encrypt with a cipher and a digest. *)
Definition mte_active (rl : OSSL_RECORD_LAYER) : bool :=
  negb (rl_use_etm rl) && rl_enc_ctx rl && md_present rl.

(** The test of lines 225 and 226 on the MAC recomputed as [(i, md)]. *)
Definition mte_mac_bad (macbuf : SSL_MAC_BUF) (i_md : Z * list byte)
  (mac_size : Z) : bool :=
  (fst i_md =? 0)
  || match mb_mac macbuf with
     | None => true
     | Some m => negb (CRYPTO_memcmp (snd i_md) m mac_size =? 0)
     end.

(** Lines 187 to 237 of [dtls_process_record]: decryption and the MAC
    of MAC-then-encrypt, then [process_finish]. *)
Definition process_decrypt (rl : OSSL_RECORD_LAYER) (bitmap : bitmap_ref)
  (mac_size : Z) : Z * OSSL_RECORD_LAYER :=
  let c := cipher rl (rl_rrec rl) 1 0 mac_size in
  let rl := after_cipher rl c in
  let macbuf := c_macbuf c in
  let enc_err := c_ret c in
  if enc_err =? 0 then
    if negb (alert_eqb (rl_alert rl) SSL_AD_NO_ALERT) then
      (* RLAYERfatal() already called *)
      (0, rl)
    else
      (* For DTLS we simply ignore bad packets. *)
      (0, set_rl_packet_length 0
            (set_rl_rrec (set_rr_length 0 (rl_rrec rl)) rl))
  else
    let rr := rl_rrec rl in
    (* r->length is now the compressed data plus mac *)
    let enc_err :=
      if mte_active rl then
        let enc_err :=
          if mte_mac_bad macbuf (mac rl rr 0) mac_size then 0 else enc_err in
        if SSL3_RT_MAX_COMPRESSED_LENGTH + mac_size <? rr_length rr
        then 0 else enc_err
      else enc_err in
    if enc_err =? 0 then
      (* decryption failed, silently discard message *)
      (0, set_rl_packet_length 0
            (set_rl_rrec (set_rr_length 0 rr) rl))
    else process_finish rl bitmap.

(** Line 128: [rr->input] is set to the packet past its header. *)
Definition process_input (rl : OSSL_RECORD_LAYER) : OSSL_RECORD_LAYER :=
  set_rl_rrec
    (set_rr_input (skipn (Z.to_nat DTLS1_RT_HEADER_LENGTH) (rl_packet rl))
                  (rl_rrec rl)) rl.

(** Lines 149 and 150: decrypt in place in 'rr->input'. *)
Definition process_prepare (rl : OSSL_RECORD_LAYER) : OSSL_RECORD_LAYER :=
  let rr := rl_rrec rl in
  set_rl_rrec
    (set_rr_orig_len (rr_length rr) (set_rr_data (rr_input rr) rr)) rl.

(** Line 172: [rr->length -= mac_size]. *)
Definition process_strip_mac (rl : OSSL_RECORD_LAYER) (mac_size : Z)
  : OSSL_RECORD_LAYER :=
  set_rl_rrec
    (set_rr_length (rr_length (rl_rrec rl) - mac_size) (rl_rrec rl)) rl.

(** [rl->use_etm && rl->md_ctx != NULL] *)
Definition etm_active (rl : OSSL_RECORD_LAYER) : bool :=
  rl_use_etm rl && match rl_md_ctx rl with Some _ => true | None => false end.

(** The test of line 175 on the MAC recomputed as [(i, md)] against the
    one found at [mac_ptr]. *)
Definition etm_mac_bad (i_md : Z * list byte) (mac_ptr : list byte)
  (mac_size : Z) : bool :=
  (fst i_md =? 0) || negb (CRYPTO_memcmp (snd i_md) mac_ptr mac_size =? 0).

(** The result is the return value and the layer afterwards. *)
Definition dtls_process_record (rl : OSSL_RECORD_LAYER) (bitmap : bitmap_ref)
  : Z * OSSL_RECORD_LAYER :=
  let rl := process_input rl in
  (* check is not needed I believe *)
  if SSL3_RT_MAX_ENCRYPTED_LENGTH <? rr_length (rl_rrec rl) then
    (0, RLAYERfatal rl SSL_AD_RECORD_OVERFLOW SSL_R_ENCRYPTED_LENGTH_TOO_LONG)
  else
    let rl := process_prepare rl in
    match process_mac_size rl with
    | None => (0, RLAYERfatal rl SSL_AD_INTERNAL_ERROR ERR_R_EVP_LIB)
    | Some mac_size =>
        if etm_active rl then
          if rr_orig_len (rl_rrec rl) <? mac_size then
            (0, RLAYERfatal rl SSL_AD_DECODE_ERROR SSL_R_LENGTH_TOO_SHORT)
          else
            let rl := process_strip_mac rl mac_size in
            let rr := rl_rrec rl in
            let mac_ptr := skipn (Z.to_nat (rr_length rr)) (rr_data rr) in
            if etm_mac_bad (mac rl rr 0) mac_ptr mac_size then
              (0, RLAYERfatal rl SSL_AD_BAD_RECORD_MAC
                              SSL_R_DECRYPTION_FAILED_OR_BAD_RECORD_MAC)
            else
              (* We've handled the mac now - there is no MAC inside the
                 encrypted record *)
              process_decrypt rl bitmap 0
        else process_decrypt rl bitmap mac_size
    end.

(** The layer and the MAC size with which [cipher] is called on a
    prepared layer [rl] whose MAC size is [mac_size]. *)
Definition cipher_call (rl : OSSL_RECORD_LAYER) (mac_size : Z)
  : OSSL_RECORD_LAYER * Z :=
  if etm_active rl then (process_strip_mac rl mac_size, 0) else (rl, mac_size).

(** Whether the record in [rl] passes decryption and MAC verification:
    under encrypt-then-MAC the record is long enough and its MAC
    matches; the cipher reports success; under MAC-then-encrypt the MAC
    matches and the length fits. *)
Definition authenticated (rl : OSSL_RECORD_LAYER) : bool :=
  let rl0 := process_prepare (process_input rl) in
  match process_mac_size rl0 with
  | None => false
  | Some mac_size =>
      let '(rl1, mac_size') := cipher_call rl0 mac_size in
      let rr1 := rl_rrec rl1 in
      let etm_ok :=
        if etm_active rl0 then
          negb (rr_orig_len (rl_rrec rl0) <? mac_size)
          && negb (etm_mac_bad (mac rl1 rr1 0)
                     (skipn (Z.to_nat (rr_length rr1)) (rr_data rr1)) mac_size)
        else true in
      let c := cipher rl1 rr1 1 0 mac_size' in
      let rl2 := after_cipher rl1 c in
      let mte_ok :=
        if mte_active rl2 then
          negb (mte_mac_bad (c_macbuf c) (mac rl2 (rl_rrec rl2) 0) mac_size')
          && negb (SSL3_RT_MAX_COMPRESSED_LENGTH + mac_size'
                   <? rr_length (rl_rrec rl2))
        else true in
      etm_ok && negb (c_ret c =? 0) && mte_ok
  end.

(** ** DeferredRecordQueue *)

(** Lines 310 to 313 of [dtls_rlayer_buffer_record]: the packet, the
    read buffer and the record now belong to the queued item. *)
Definition buffer_handed_over (rl : OSSL_RECORD_LAYER) : OSSL_RECORD_LAYER :=
  let rl := set_rl_packet [] rl in
  let rl := set_rl_packet_length 0 rl in
  let rl := set_rl_rbuf zero_buffer rl in
  set_rl_rrec zero_record rl.

(** The result is the return value and the layer afterwards. *)
Definition dtls_rlayer_buffer_record (rl : OSSL_RECORD_LAYER)
  (queue : queue_ref) (priority : list byte) : Z * OSSL_RECORD_LAYER :=
  (* Limit the size of the queue to prevent DOS attacks *)
  if 100 <=? pqueue_size (rq_items (get_queue_at rl queue)) then (0, rl)
  else if negb (OPENSSL_malloc_ok rl) || negb (pitem_new_ok rl) then
    (-1, RLAYERfatal rl SSL_AD_INTERNAL_ERROR ERR_R_INTERNAL_ERROR)
  else
    let rdata := mkRecordData (rl_packet rl) (rl_packet_length rl)
                              (rl_rbuf rl) (rl_rrec rl) in
    let item := pitem_new priority rdata in
    let rl := buffer_handed_over rl in
    let '(ok, rl) := tls_setup_read_buffer rl in
    if negb ok then
      (* RLAYERfatal() already called *)
      (-1, rl)
    else
      match pqueue_insert (rq_items (get_queue_at rl queue)) item with
      | None =>
          (* Must be a duplicate so ignore it *)
          (1, rl)
      | Some pq =>
          (1, set_queue_at queue (set_rq_items pq (get_queue_at rl queue)) rl)
      end.

(** copy buffered record into OSSL_RECORD_LAYER structure *)
Definition dtls_copy_rlayer_record (rl : OSSL_RECORD_LAYER) (item : pitem)
  : Z * OSSL_RECORD_LAYER :=
  let rdata := pi_data item in
  let rl := set_rl_rbuf (set_sb_buf None (rl_rbuf rl)) rl in
  let rl := set_rl_packet (rd_packet rdata) rl in
  let rl := set_rl_packet_length (rd_packet_length rdata) rl in
  let rl := set_rl_rbuf (rd_rbuf rdata) rl in
  let rl := set_rl_rrec (rd_rrec rdata) rl in
  (* Set proper sequence number for mac calculation *)
  let rl := set_rl_sequence
              (firstn 2 (rl_sequence rl)
               ++ firstn 6 (skipn 5 (rd_packet rdata))
               ++ skipn 8 (rl_sequence rl)) rl in
  (1, rl).

Definition dtls_retrieve_rlayer_buffered_record (rl : OSSL_RECORD_LAYER)
  (queue : queue_ref) : Z * OSSL_RECORD_LAYER :=
  match pqueue_pop (rq_items (get_queue_at rl queue)) with
  | Some (item, rest) =>
      let rl := set_queue_at queue
                  (set_rq_items rest (get_queue_at rl queue)) rl in
      let '(_, rl) := dtls_copy_rlayer_record rl item in
      (1, rl)
  | None => (0, rl)
  end.

(** ** The read path: [dtls_get_more_records] *)

(** The silent discard used throughout: [rr->length = 0;
    rl->packet_length = 0; goto again]. *)
Definition discarded (rl : OSSL_RECORD_LAYER) : OSSL_RECORD_LAYER :=
  set_rl_packet_length 0 (set_rl_rrec (set_rr_length 0 (rl_rrec rl)) rl).

Definition discard (rl : OSSL_RECORD_LAYER) : pass_result :=
  Again (discarded rl).

(** The 16-bit [version] read from the header at [p]. *)
Definition header_version (p : list byte) : Z :=
  to_ushort (Z.lor (Z.shiftl (byte_at p 1) 8) (byte_at p 2)).

(** Lines 432 to 450: the header at [rl->packet] pulled apart into the
    record and the sequence number. The message callback only observes
    the header and is left out. *)
Definition parse_header (rl : OSSL_RECORD_LAYER) : OSSL_RECORD_LAYER :=
  let p := rl_packet rl in
  let rr := rl_rrec rl in
  let rr := set_rr_type (byte_at p 0) rr in
  (* sequence number is 64 bits, with top 2 bytes = epoch *)
  let rr := set_rr_epoch (n2s (skipn 3 p)) rr in
  let rl := set_rl_sequence
              (firstn 2 (rl_sequence rl)
               ++ firstn 6 (skipn 5 p)
               ++ skipn 8 (rl_sequence rl)) rl in
  let rr := set_rr_length (n2s (skipn 11 p)) rr in
  set_rl_rrec rr rl.

(** Lines 452 to 490: the checks on a parsed header; [inl] is a pass
    ending in [goto again], [inr] goes on to the body. *)
Definition check_header (rl : OSSL_RECORD_LAYER)
  : pass_result + OSSL_RECORD_LAYER :=
  let p := rl_packet rl in
  let rr := rl_rrec rl in
  let ssl_major := byte_at p 1 in
  let version := header_version p in
  (* Lets check the version. We tolerate alerts that don't have the exact
     version number (e.g. because of protocol version errors) *)
  if negb (rl_is_first_record rl) && negb (rr_type rr =? SSL3_RT_ALERT)
     && negb (version =? rl_version rl)
  then inl (discard rl)     (* unexpected version, silently discard *)
  else if negb (ssl_major =?
                  (if rl_version rl =? DTLS_ANY_VERSION
                   then DTLS1_VERSION_MAJOR
                   else Z.shiftr (rl_version rl) 8))
  then inl (discard rl)     (* wrong version, silently discard record *)
  else if SSL3_RT_MAX_ENCRYPTED_LENGTH <? rr_length rr
  then inl (discard rl)     (* record too long, silently discard it *)
  else if rl_max_frag_len rl + SSL3_RT_MAX_ENCRYPTED_OVERHEAD <? rr_length rr
  then inl (discard rl)     (* record too long, silently discard it *)
  else inr rl.

(** Lines 413 to 493: check if we have the header. *)
Definition get_header (rl : OSSL_RECORD_LAYER)
  : pass_result + OSSL_RECORD_LAYER :=
  if negb (rl_rstate rl =? SSL_ST_READ_BODY)
     || (rl_packet_length rl <? DTLS1_RT_HEADER_LENGTH)
  then
    let '(rret, n, rl) :=
      read_n rl DTLS1_RT_HEADER_LENGTH (sb_len (rl_rbuf rl)) 0 1 in
    (* read timeout is handled by dtls1_read_bytes *)
    if rret <? OSSL_RECORD_RETURN_SUCCESS then
      inl (Return rret rl)          (* error or non-blocking *)
    (* this packet contained a partial record, dump it *)
    else if negb (rl_packet_length rl =? DTLS1_RT_HEADER_LENGTH) then
      inl (Again (set_rl_packet_length 0 rl))
    else
      let rl := set_rl_rstate SSL_ST_READ_BODY rl in
      check_header (parse_header rl)
  else inr rl.

(** Lines 495 to 518: get the body. The lengths are [size_t] values,
    whose difference is taken modulo [2^64]. *)
Definition get_body (rl : OSSL_RECORD_LAYER)
  : pass_result + OSSL_RECORD_LAYER :=
  let rr := rl_rrec rl in
  let got :=
    if to_uint64 (rl_packet_length rl - DTLS1_RT_HEADER_LENGTH) <? rr_length rr
    then
      let more := rr_length rr in
      let '(rret, n, rl) := read_n rl more more 1 1 in
      (* this packet contained a partial record, dump it *)
      if (rret <? OSSL_RECORD_RETURN_SUCCESS) || negb (n =? more) then
        if negb (alert_eqb (rl_alert rl) SSL_AD_NO_ALERT) then
          (* read_n() called RLAYERfatal() *)
          inl (Return OSSL_RECORD_RETURN_FATAL rl)
        else inl (discard rl)
      else inr rl
    else inr rl in
  match got with
  | inl r => inl r
  | inr rl =>
      (* set state for later operations *)
      inr (set_rl_rstate SSL_ST_READ_HEADER rl)
  end.

(** Lines 563 to 574: process the record and deliver it, drop it or
    fail. *)
Definition process_and_deliver (rl : OSSL_RECORD_LAYER) (bitmap : bitmap_ref)
  : pass_result :=
  let '(ok, rl) := dtls_process_record rl bitmap in
  if ok =? 0 then
    if negb (alert_eqb (rl_alert rl) SSL_AD_NO_ALERT) then
      (* dtls_process_record() called RLAYERfatal *)
      Return OSSL_RECORD_RETURN_FATAL rl
    else discard rl                  (* dump this record *)
  else
    Return OSSL_RECORD_RETURN_SUCCESS (set_rl_num_recs 1 rl).

(** Lines 520 to 562: route the record, check for replay, buffer it or
    hand it to [process_and_deliver]. *)
Definition dispatch_record (rl : OSSL_RECORD_LAYER) : pass_result :=
  (* match epochs.  NULL means the packet is dropped on the floor *)
  match dtls_get_bitmap rl (rl_rrec rl) with
  | (None, _) => discard rl                (* dump this record *)
  | (Some bitmap, is_next_epoch) =>
      (* Only do replay check if no SCTP bio *)
      let '(seen_ok, rl) :=
        if negb (rl_is_sctp rl)
        then dtls_record_replay_check rl bitmap
        else (1, rl) in
      (* Check whether this is a repeat, or aged record. *)
      if seen_ok =? 0 then discard rl        (* dump this record *)
      (* just read a 0 length packet *)
      else if rr_length (rl_rrec rl) =? 0 then Again rl
      (* If this record is from the next epoch (either HM or ALERT), and a
         handshake is currently in progress, buffer it since it cannot be
         processed at this time. *)
      else if negb (is_next_epoch =? 0) then
        let '(r, rl') :=
          if negb (rl_in_init rl =? 0)
          then dtls_rlayer_buffer_record rl ref_unprocessed_rcds
                 (rr_seq_num (rl_rrec rl))
          else (0, rl) in
        if negb (rl_in_init rl =? 0) && (r <? 0) then
          (* RLAYERfatal() already called *)
          Return OSSL_RECORD_RETURN_FATAL rl'
        else discard rl'
      else process_and_deliver rl bitmap
  end.

(** One pass from the label [again] to the next [goto again] or
    [return]. *)
Definition get_more_records_pass (rl : OSSL_RECORD_LAYER) : pass_result :=
  (* if we're renegotiating, then there may be buffered records *)
  match dtls_retrieve_rlayer_buffered_record rl ref_processed_rcds with
  | (0, rl) =>
      (* get something from the wire *)
      match get_header rl with
      | inl r => r
      | inr rl =>
          match get_body rl with
          | inl r => r
          | inr rl => dispatch_record rl
          end
      end
  | (_, rl) => Return OSSL_RECORD_RETURN_SUCCESS (set_rl_num_recs 1 rl)
  end.

(** The loop closed by [goto again]; [None] when [fuel] passes do not
    reach a [return]. *)
Fixpoint get_more_records_loop (fuel : nat) (rl : OSSL_RECORD_LAYER)
  : option (Z * OSSL_RECORD_LAYER) :=
  match fuel with
  | O => None
  | S fuel =>
      match get_more_records_pass rl with
      | Return ret rl => Some (ret, rl)
      | Again rl => get_more_records_loop fuel rl
      end
  end.

Definition dtls_get_more_records (fuel : nat) (rl : OSSL_RECORD_LAYER)
  : option (Z * OSSL_RECORD_LAYER) :=
  let rl := set_rl_num_recs 0 rl in
  let rl := set_rl_curr_rec 0 rl in
  let rl := set_rl_num_released 0 rl in
  let setup :=
    match sb_buf (rl_rbuf rl) with
    | None => tls_setup_read_buffer rl
    | Some _ => (true, rl)
    end in
  let '(ok, rl) := setup in
  if negb ok then
    (* RLAYERfatal() already called *)
    Some (OSSL_RECORD_RETURN_FATAL, rl)
  else get_more_records_loop fuel rl.

(** ** Teardown and construction *)

(** [BIO_write_ex(rl->next, data, dlen, &written)]: the [dlen] bytes at
    [data] are handed to the successor; the result is the return value
    and the layer with the hand-over logged. *)
Definition BIO_write_ex_next (rl : OSSL_RECORD_LAYER) (data : list byte)
  (dlen : Z) : Z * OSSL_RECORD_LAYER :=
  let d := firstn (Z.to_nat dlen) data in
  (if BIO_write_ex_ok (rl_next rl) d then 1 else 0,
   set_rl_next (rl_next rl ++ [d]) rl).

(** The loop [while ((item = pqueue_pop(q)) != NULL)] of [dtls_free]
    over the unprocessed queue: [pqueue_pop] takes the head of the list
    and leaves its tail. *)
Fixpoint free_unprocessed (pq : pqueue) (ret : Z) (rl : OSSL_RECORD_LAYER)
  : Z * OSSL_RECORD_LAYER :=
  match pq with
  | [] => (ret, rl)
  | item :: rest =>
      let rdata := pi_data item in
      (* Push to the next record layer *)
      let '(w, rl) :=
        BIO_write_ex_next rl (rd_packet rdata) (rd_packet_length rdata) in
      free_unprocessed rest (Z.land ret w) rl
  end.

(** The result is the return value and the layer as [tls_free] receives
    it; freed queues are shown as [None]. *)
Definition dtls_free (rl : OSSL_RECORD_LAYER) : Z * OSSL_RECORD_LAYER :=
  let rbuf := rl_rbuf rl in
  let left := sb_left rbuf in
  let '(ret, rl) :=
    if 0 <? left then
      (* This record layer is closing but we still have data left in our
         buffer. It must be destined for the next epoch - so push it
         there. *)
      let '(w, rl) :=
        BIO_write_ex_next rl
          (skipn (Z.to_nat (sb_offset rbuf))
                 (match sb_buf rbuf with Some b => b | None => [] end))
          left in
      (w, set_rl_rbuf (set_sb_left 0 (rl_rbuf rl)) rl)
    else (1, rl) in
  let '(ret, rl) :=
    match rq_q (rl_unprocessed_rcds rl) with
    | Some pq =>
        let '(ret, rl) := free_unprocessed pq ret rl in
        (ret, set_rl_unprocessed_rcds
                (mkRecordPqueue (rq_epoch (rl_unprocessed_rcds rl)) None) rl)
    | None => (ret, rl)
    end in
  let rl :=
    match rq_q (rl_processed_rcds rl) with
    | Some pq =>
        set_rl_processed_rcds
          (mkRecordPqueue (rq_epoch (rl_processed_rcds rl)) None) rl
    | None => rl
    end in
  (if negb (tls_free rl =? 0) && negb (ret =? 0) then 1 else 0, rl).

Definition DTLS1_2_VERSION : Z := 65277.
Definition DTLS1_VERSION : Z := 65279.
Definition DTLS1_BAD_VER : Z := 256.

(** [tls_int_new_record_layer vers] gives the return value and the layer
    stored in [*retrl]; [pqueue_new_result k] is what the [k]-th call of
    [pqueue_new] returns; [set_crypto_state rl] is the return value of
    [rl->funcs->set_crypto_state]. *)
Variable tls_int_new_record_layer : Z -> Z * OSSL_RECORD_LAYER.
Variable pqueue_new_result : nat -> option pqueue.
Variable set_crypto_state : OSSL_RECORD_LAYER -> Z.

(** The result is the return value and [*retrl] ([None] for NULL).
    [epoch] is a [uint16_t], as is the [epoch] field of a queue. *)
Definition dtls_new_record_layer (vers : Z) (epoch : Z)
  : Z * option OSSL_RECORD_LAYER :=
  let '(ret, rl) := tls_int_new_record_layer vers in
  if negb (ret =? OSSL_RECORD_RETURN_SUCCESS) then (ret, None)
  else
    let rl := set_rl_unprocessed_rcds
                (mkRecordPqueue (rq_epoch (rl_unprocessed_rcds rl))
                                (pqueue_new_result 0)) rl in
    let rl := set_rl_processed_rcds
                (mkRecordPqueue (rq_epoch (rl_processed_rcds rl))
                                (pqueue_new_result 1)) rl in
    match rq_q (rl_unprocessed_rcds rl), rq_q (rl_processed_rcds rl) with
    | Some _, Some _ =>
        let rl := set_rl_unprocessed_rcds
                    (mkRecordPqueue (to_ushort (epoch + 1))
                                    (rq_q (rl_unprocessed_rcds rl))) rl in
        let rl := set_rl_processed_rcds
                    (mkRecordPqueue epoch (rq_q (rl_processed_rcds rl))) rl in
        let rl := set_rl_epoch epoch rl in
        let rl := set_rl_in_init 1 rl in
        if (vers =? DTLS_ANY_VERSION) || (vers =? DTLS1_2_VERSION)
           || (vers =? DTLS1_VERSION) || (vers =? DTLS1_BAD_VER)
        then
          let ret := set_crypto_state rl in
          if negb (ret =? OSSL_RECORD_RETURN_SUCCESS) then (ret, None)
          else (ret, Some rl)
        else
          (* Should not happen *)
          (OSSL_RECORD_RETURN_FATAL, None)
    | _, _ =>
        (* dtls_free on the layer just built *)
        (OSSL_RECORD_RETURN_FATAL, None)
    end.

End RecordLayer.

(** ** The write path: the pending-write guard *)

Definition SSL_NOTHING : Z := 1.
Definition SSL_WRITING : Z := 2.

(** [SSL_CONNECTION], the fields [ssl3_write_pending] reads or writes.
    [wpend_buf] is a pointer and is modelled by its address; [s_wbio]
    tells whether [s->wbio] is non-NULL and [s_wbio_out] logs the data
    handed to [BIO_write] on it; [s_alert] and [s_reason] are what the
    last [SSLfatal] recorded. *)
Record SSL_CONNECTION : Type := mkConn {
  wpend_tot : Z;
  wpend_buf : Z;
  wpend_type : Z;
  wpend_ret : Z;
  s_mode : Z;
  s_wbio : bool;
  s_wbio_out : list (list byte);
  s_rwstate : Z;
  s_is_dtls : bool;
  s_alert : alert_code;
  s_reason : reason_code
}.

Definition SSLfatal (s : SSL_CONNECTION) (al : alert_code)
  (reason : reason_code) : SSL_CONNECTION :=
  mkConn (wpend_tot s) (wpend_buf s) (wpend_type s) (wpend_ret s)
         (s_mode s) (s_wbio s) (s_wbio_out s) (s_rwstate s) (s_is_dtls s)
         al reason.

Definition set_s_rwstate (v : Z) (s : SSL_CONNECTION) : SSL_CONNECTION :=
  mkConn (wpend_tot s) (wpend_buf s) (wpend_type s) (wpend_ret s)
         (s_mode s) (s_wbio s) (s_wbio_out s) v (s_is_dtls s)
         (s_alert s) (s_reason s).

Definition set_s_wbio_out (v : list (list byte)) (s : SSL_CONNECTION)
  : SSL_CONNECTION :=
  mkConn (wpend_tot s) (wpend_buf s) (wpend_type s) (wpend_ret s)
         (s_mode s) (s_wbio s) v (s_rwstate s) (s_is_dtls s)
         (s_alert s) (s_reason s).

(** The arguments [dtls_write_records] memorizes (lines 945 to 948). *)
Definition set_wpend (tot buf type ret : Z) (s : SSL_CONNECTION)
  : SSL_CONNECTION :=
  mkConn tot buf type ret
         (s_mode s) (s_wbio s) (s_wbio_out s) (s_rwstate s) (s_is_dtls s)
         (s_alert s) (s_reason s).

(** What [ssl3_write_pending] leaves behind: its return value, the value
    stored in [*written] if any, the connection and the write buffer. *)
Record write_result : Type := mkWriteResult {
  w_ret : Z;
  w_written : option Z;
  w_conn : SSL_CONNECTION;
  w_wb : SSL3_BUFFER
}.

Section WritePath.

(** The BIO behind [s->wbio], which is not defined in this file:
    [BIO_get_ktls_send], the return value of [BIO_flush], and the return
    value of [BIO_write] given what was written before and the data. *)
Variable BIO_get_ktls_send : bool.
Variable BIO_flush : SSL_CONNECTION -> Z.
Variable BIO_write : list (list byte) -> list byte -> Z.

(** The bad-retry test at the head of [ssl3_write_pending]. *)
Definition bad_write_retry (s : SSL_CONNECTION) (type buf len : Z) : bool :=
  (len <? wpend_tot s)
  || ((Z.land (s_mode s) SSL_MODE_ACCEPT_MOVING_WRITE_BUFFER =? 0)
      && negb (wpend_buf s =? buf))
  || negb (wpend_type s =? type).

(** The loop [for (;;)] of [ssl3_write_pending]; [None] when [fuel]
    rounds do not reach a [return]. [currbuf] is always 0. *)
Fixpoint write_pending_loop (fuel : nat) (s : SSL_CONNECTION)
  (wb : SSL3_BUFFER) (type : Z) (tmpwrit : Z) : option write_result :=
  match fuel with
  | O => None
  | S fuel =>
      let attempt :=
        if s_wbio s then
          let s := set_s_rwstate SSL_WRITING s in
          (* To prevent coalescing of control and data messages, such as
             in buffer_write, we flush the BIO *)
          let flushed :=
            if BIO_get_ktls_send && negb (type =? SSL3_RT_APPLICATION_DATA)
            then BIO_flush s else 1 in
          if BIO_get_ktls_send && negb (type =? SSL3_RT_APPLICATION_DATA)
             && (flushed <=? 0)
          then inl (mkWriteResult flushed None s wb)
          else
            let data :=
              firstn (Z.to_nat (to_uint (sb_left wb)))
                     (skipn (Z.to_nat (sb_offset wb))
                            (match sb_buf wb with Some b => b | None => [] end)) in
            let i := BIO_write (s_wbio_out s) data in
            let s := set_s_wbio_out (s_wbio_out s ++ [data]) s in
            inr (i, (if 0 <=? i then i else tmpwrit), s)
        else
          inr (-1, tmpwrit, SSLfatal s SSL_AD_INTERNAL_ERROR SSL_R_BIO_NOT_SET) in
      match attempt with
      | inl r => Some r
      | inr (i, tmpwrit, s) =>
          if (0 <=? i) && (tmpwrit =? sb_left wb) then
            let wb := set_sb_left 0 wb in
            let wb := set_sb_offset (sb_offset wb + tmpwrit) wb in
            let s := set_s_rwstate SSL_NOTHING s in
            Some (mkWriteResult 1 (Some (wpend_ret s)) s wb)
          else if i <=? 0 then
            (* For DTLS, just drop it. That's kind of the whole point in
               using a datagram service *)
            let wb := if s_is_dtls s then set_sb_left 0 wb else wb in
            Some (mkWriteResult i None s wb)
          else
            let wb := set_sb_offset (sb_offset wb + tmpwrit) wb in
            let wb := set_sb_left (to_uint64 (sb_left wb - tmpwrit)) wb in
            write_pending_loop fuel s wb type tmpwrit
      end
  end.

(** Return values are as per SSL_write() *)
Definition ssl3_write_pending (fuel : nat) (s : SSL_CONNECTION)
  (wb : SSL3_BUFFER) (type buf len : Z) : option write_result :=
  if bad_write_retry s type buf len then
    Some (mkWriteResult (-1) None
            (SSLfatal s SSL_AD_INTERNAL_ERROR SSL_R_BAD_WRITE_RETRY) wb)
  else write_pending_loop fuel s wb type 0.

(** The end of [dtls_write_records] (lines 937 to 952), once the record
    of [wr_length] bytes is in the write buffer: set up [wb], memorize
    the arguments of the template, write the buffer. *)
Definition dtls_write_records_flush (fuel : nat) (s : SSL_CONNECTION)
  (wb : SSL3_BUFFER) (wr_length : Z) (templ_type templ_buf templ_buflen : Z)
  : option write_result :=
  (* now let's set up wb *)
  let wb := set_sb_left wr_length wb in
  let wb := set_sb_offset 0 wb in
  (* memorize arguments so that ssl3_write_pending can detect bad write
     retries later *)
  let s := set_wpend templ_buflen templ_buf templ_type templ_buflen s in
  (* we now just need to write the buffer. Calls SSLfatal() as
     required. *)
  ssl3_write_pending fuel s wb templ_type templ_buf templ_buflen.

End WritePath.

(** ** The write path: [dtls_write_records] *)

(** [(unsigned char)z] *)
Definition to_uchar (z : Z) : byte :=
  match Byte.of_N (Z.to_N (z mod 256)) with
  | Some b => b
  | None => x00
  end.

(** Modelled from the spec: the macro [s2n] of ssl_local.h, which is not
    among the sources; it writes a 16-bit value as two bytes in network
    order. The result is the two bytes written. *)
Definition s2n (s : Z) : list byte :=
  [to_uchar (Z.land (Z.shiftr s 8) 255); to_uchar (Z.land s 255)].

Definition EVP_GCM_TLS_EXPLICIT_IV_LEN : Z := 8.
Definition EVP_CCM_TLS_EXPLICIT_IV_LEN : Z := 8.

(** What [EVP_CIPHER_CTX_get_mode] may answer, as far as
    [dtls_write_records] tells the answers apart. *)
Inductive cipher_mode : Type :=
| EVP_CIPH_CBC_MODE
| EVP_CIPH_GCM_MODE
| EVP_CIPH_CCM_MODE
| EVP_CIPH_OTHER_MODE.

(** [OSSL_RECORD_TEMPLATE]: [buf] is a pointer, modelled by its address
    [ot_buf] (which [ssl3_write_pending] compares) and by the bytes found
    there, [ot_data]. *)
Record OSSL_RECORD_TEMPLATE : Type := mkTemplate {
  ot_type : Z;
  ot_version : Z;
  ot_buf : Z;
  ot_data : list byte;
  ot_buflen : Z
}.

(** The fields of [SSL_CONNECTION] that [dtls_write_records] reads
    before it writes: whether [session] is set, the mode and IV length of
    [enc_write_ctx] ([None] for NULL), whether [write_hash] has a digest
    and the size of that digest, whether [compress] is set,
    [SSL_WRITE_ETM], the write epoch and the write sequence number. *)
Record WRITE_STATE : Type := mkWriteState {
  ws_session : bool;
  ws_enc_write_ctx : option (cipher_mode * Z);
  ws_write_hash_md : bool;
  ws_write_hash_size : Z;
  ws_compress : bool;
  ws_write_etm : bool;
  ws_w_epoch : Z;
  ws_write_sequence : list byte
}.

Definition set_ws_write_sequence (v : list byte) (sc : WRITE_STATE)
  : WRITE_STATE :=
  mkWriteState (ws_session sc) (ws_enc_write_ctx sc) (ws_write_hash_md sc)
               (ws_write_hash_size sc) (ws_compress sc) (ws_write_etm sc)
               (ws_w_epoch sc) v.

(** The reason of the [SSLfatal(sc, SSL_AD_INTERNAL_ERROR, reason)] that
    an error exit of [dtls_write_records] has made; [already_raised]
    stands for the exits taken once a collaborator has raised the error
    itself. *)
Inductive write_fatal : Type :=
| SSL_R_EXCEEDS_MAX_FRAGMENT_SIZE
| SSL_R_LIBRARY_BUG
| SSL_R_COMPRESSION_FAILURE
| fatal_reason (r : reason_code)
| already_raised.

(** How the part of [dtls_write_records] that builds the record ends:
    with a value, with [return -1] after a fatal error, or in a read or
    a write outside of a buffer, which C leaves undefined. *)
Inductive prepared (A : Type) : Type :=
| Ok (a : A)
| Fatal (reason : write_fatal)
| Undefined.

Arguments Ok {A} a.
Arguments Fatal {A} reason.
Arguments Undefined {A}.

Definition prepared_bind {A B : Type} (m : prepared A) (f : A -> prepared B)
  : prepared B :=
  match m with
  | Ok a => f a
  | Fatal reason => Fatal reason
  | Undefined => Undefined
  end.

Declare Scope prepared_scope.
Delimit Scope prepared_scope with prepared.

Notation "'let*' x ':=' m 'in' k" := (prepared_bind m (fun x => k))
  (at level 10, x pattern, m at level 100, k at level 200)
  : prepared_scope.

(** [memcpy(buf + off, bytes, n)] for the [n] bytes of [bytes]. *)
Definition store (buf : list byte) (off : Z) (bytes : list byte)
  : prepared (list byte) :=
  if (0 <=? off) && (off + Z.of_nat (length bytes) <=? Z.of_nat (length buf))
  then Ok (firstn (Z.to_nat off) buf ++ bytes
           ++ skipn (Z.to_nat off + length bytes) buf)
  else Undefined.

(** The [len] bytes found at [buf + off]. *)
Definition load (buf : list byte) (off len : Z) : prepared (list byte) :=
  if (0 <=? off) && (0 <=? len) && (off + len <=? Z.of_nat (length buf))
  then Ok (firstn (Z.to_nat len) (skipn (Z.to_nat off) buf))
  else Undefined.

Section WriteRecords.

Local Open Scope prepared_scope.

(** The collaborators, none of which is defined in this file.
    [allocate_write_buffers templates] is [None] when the call returns 0
    and else the write buffer [rl->wbuf] it leaves.
    [ssl3_do_compress input] is [None] on failure and else the bytes it
    has put at [wr.data], whose number becomes [wr.length].
    [mac type data] is [None] on failure and else the bytes written at
    [md], for a record of that type whose [wr.length] bytes at [wr.data]
    are [data]. [enc type data mac_size] is the return value with the
    bytes found at [wr.data] afterwards, whose number is the new
    [wr.length]. [ssl3_record_sequence_update] gives the next write
    sequence number. *)
Variable allocate_write_buffers : OSSL_RECORD_TEMPLATE -> option SSL3_BUFFER.
Variable ssl3_do_compress : list byte -> option (list byte).
Variable mac : Z -> list byte -> option (list byte).
Variable enc : Z -> list byte -> Z -> Z * list byte.
Variable ossl_statem_in_error : bool.
Variable ssl3_record_sequence_update : list byte -> list byte.

Variable BIO_get_ktls_send : bool.
Variable BIO_flush : SSL_CONNECTION -> Z.
Variable BIO_write : list (list byte) -> list byte -> Z.

(** Lines 832 to 852: explicit IV length, block ciphers appropriate
    version flag. *)
Definition explicit_iv_length (sc : WRITE_STATE) : prepared Z :=
  match ws_enc_write_ctx sc with
  | Some (mode, iv_length) =>
      match mode with
      | EVP_CIPH_CBC_MODE =>
          let eivlen := iv_length in
          if eivlen <? 0 then Fatal SSL_R_LIBRARY_BUG
          else Ok (if eivlen <=? 1 then 0 else eivlen)
      (* Need explicit part of IV for GCM mode *)
      | EVP_CIPH_GCM_MODE => Ok EVP_GCM_TLS_EXPLICIT_IV_LEN
      | EVP_CIPH_CCM_MODE => Ok EVP_CCM_TLS_EXPLICIT_IV_LEN
      | EVP_CIPH_OTHER_MODE => Ok 0
      end
  | None => Ok 0
  end.

(** The call [mac(sc, &wr, md, 1)] for the record of [length] bytes at
    offset [data] of the buffer [p], with [md] at offset [md]; the result
    is the buffer and the new [wr.length]. *)
Definition write_mac (templates : OSSL_RECORD_TEMPLATE) (mac_size : Z)
  (p : list byte) (data length md : Z) : prepared (list byte * Z) :=
  let* bytes := load p data length in
  match mac (ot_type templates) bytes with
  | None => Fatal (fatal_reason ERR_R_INTERNAL_ERROR)
  | Some tag =>
      let* p := store p md tag in
      Ok (p, length + mac_size)
  end.

(** Lines 789 to 935: the record is built in the write buffer. The result
    is the write buffer and [wr.length] as they are at line 937. The
    header sits at offsets 0 to 12 of the buffer; [pseq] is offset 3 and
    [p], once advanced, offset 13. The message callback only observes
    the header and is left out. *)
Definition dtls_write_records_prepare (sc : WRITE_STATE)
  (templates : OSSL_RECORD_TEMPLATE) (numtempl : Z)
  : prepared (SSL3_BUFFER * Z) :=
  let clear :=
    negb (ws_session sc)
    || (match ws_enc_write_ctx sc with None => true | Some _ => false end)
    || negb (ws_write_hash_md sc) in
  let mac_size := if clear then 0 else ws_write_hash_size sc in
  if negb clear && (mac_size <? 0) then Fatal SSL_R_EXCEEDS_MAX_FRAGMENT_SIZE
  else if negb (numtempl =? 1) then
    (* Should not happen *)
    Fatal (fatal_reason ERR_R_INTERNAL_ERROR)
  else
    match allocate_write_buffers templates with
    | None => Fatal already_raised      (* RLAYERfatal() already called *)
    | Some wb =>
        match sb_buf wb with
        | None => Undefined
        | Some p =>
            (* write the header *)
            let* p := store p 0 [to_uchar (Z.land (ot_type templates) 255)] in
            let* p := store p 1 [to_uchar (Z.shiftr (ot_version templates) 8)] in
            let* p := store p 2 [to_uchar (Z.land (ot_version templates) 255)] in
            let* eivlen := explicit_iv_length sc in
            (* lets setup the record stuff: make room for IV in case of
               CBC *)
            let data := 13 + eivlen in
            let length := ot_buflen templates in
            (* first we compress *)
            let* input := load (ot_data templates) 0 length in
            let* (p, length) :=
              if ws_compress sc then
                match ssl3_do_compress input with
                | None => Fatal SSL_R_COMPRESSION_FAILURE
                | Some out =>
                    let* p := store p data out in
                    Ok (p, Z.of_nat (List.length out))
                end
              else
                let* p := store p data input in
                Ok (p, length) in
            let* (p, length) :=
              if negb (ws_write_etm sc) && negb (mac_size =? 0)
              then write_mac templates mac_size p data length
                     (13 + (length + eivlen))
              else Ok (p, length) in
            (* this is true regardless of mac size *)
            let data := 13 in
            let length :=
              if negb (eivlen =? 0) then length + eivlen else length in
            let* bytes := load p data length in
            let '(ret, out) := enc (ot_type templates) bytes mac_size in
            if ret <? 1 then
              Fatal (if negb ossl_statem_in_error
                     then fatal_reason ERR_R_INTERNAL_ERROR
                     else already_raised)
            else
              let* p := store p data out in
              let length := Z.of_nat (List.length out) in
              let* (p, length) :=
                if ws_write_etm sc && negb (mac_size =? 0)
                then write_mac templates mac_size p data length (13 + length)
                else Ok (p, length) in
              (* record length after mac and block padding; there's only
                 one epoch between handshake and app data *)
              let* p := store p 3 (s2n (ws_w_epoch sc)) in
              let* seq := load (ws_write_sequence sc) 2 6 in
              let* p := store p 5 seq in
              let* p := store p 11 (s2n length) in
              (* we should now have wr.data pointing to the encrypted data,
                 which is wr->length long *)
              let length := length + DTLS1_RT_HEADER_LENGTH in
              Ok (set_sb_buf (Some p) wb, length)
        end
    end.

(** The whole of [dtls_write_records]: the connection [s] carries what
    [ssl3_write_pending] works on, [sc] what the record is built from.
    The result is [sc] with the write sequence number moved on and what
    the final write leaves. *)
Definition dtls_write_records (fuel : nat) (s : SSL_CONNECTION)
  (sc : WRITE_STATE) (templates : OSSL_RECORD_TEMPLATE) (numtempl : Z)
  : prepared (WRITE_STATE * option write_result) :=
  let* (wb, length) := dtls_write_records_prepare sc templates numtempl in
  let sc :=
    set_ws_write_sequence
      (ssl3_record_sequence_update (ws_write_sequence sc)) sc in
  Ok (sc,
      dtls_write_records_flush BIO_get_ktls_send BIO_flush BIO_write fuel s wb
        length (ot_type templates) (ot_buf templates) (ot_buflen templates)).

End WriteRecords.

(** ** Outcomes named in the further properties *)

(** What a return value of [dtls_process_record] says about the layer
    it leaves: 1 comes with a record that fits the fragment limit, is
    read from offset 0 and has consumed the packet; 0 comes with an
    alert or with the record and the packet reset. *)
Definition processed_well (rl rl' : OSSL_RECORD_LAYER) : Prop :=
  rr_off (rl_rrec rl') = 0
  /\ rl_packet_length rl' = 0
  /\ rr_length (rl_rrec rl') <= rl_max_frag_len rl.

Definition failed_loudly_or_reset (rl' : OSSL_RECORD_LAYER) : Prop :=
  rl_alert rl' <> SSL_AD_NO_ALERT
  \/ (rl_alert rl' = SSL_AD_NO_ALERT
      /\ rr_length (rl_rrec rl') = 0 /\ rl_packet_length rl' = 0).

(** [all_accepted ok log ds]: the successor, having taken [log] so far,
    accepts each of the writes [ds] made one after the other. *)
Fixpoint all_accepted (ok : list (list byte) -> list byte -> bool)
  (log : list (list byte)) (ds : list (list byte)) : bool :=
  match ds with
  | [] => true
  | d :: rest => ok log d && all_accepted ok (log ++ [d]) rest
  end.

(** * Scenarios

    Concrete layers, records and collaborators on which the properties
    below are exercised. *)

Definition byte_of_Z (z : Z) : byte :=
  match Byte.of_N (Z.to_N (z mod 256)) with
  | Some b => b
  | None => x00
  end.

(** The [n] low bytes of [z], most significant first. *)
Fixpoint be_bytes (n : nat) (z : Z) : list byte :=
  match n with
  | O => []
  | S n => be_bytes n (z / 256) ++ [byte_of_Z z]
  end.

(** An 8-byte sequence number. *)
Definition seq64 (z : Z) : list byte := be_bytes 8 z.

(** A DTLS record as it travels: the 13-byte header and the body. *)
Definition dtls_datagram (type version epoch seq : Z) (body : list byte)
  : list byte :=
  be_bytes 1 type ++ be_bytes 2 version ++ be_bytes 2 epoch ++ be_bytes 6 seq
  ++ be_bytes 2 (Z.of_nat (length body)) ++ body.

(** A layer for DTLS 1.2 at epoch 3 as [dtls_new_record_layer] leaves
    it: handshake in progress, both queues empty, the unprocessed queue
    stamped with epoch 4, nothing read yet. *)
Definition layer3 : OSSL_RECORD_LAYER :=
  mkRL DTLS1_2_VERSION 3 1 false
       false None false false
       16384 false
       SSL_ST_READ_HEADER [] 0
       (mkBuffer (Some []) 16384 0 0) zero_record (seq64 0)
       (mkBitmap 0 (seq64 0)) (mkBitmap 0 (seq64 0))
       (mkRecordPqueue 4 (Some pqueue_new))
       (mkRecordPqueue 3 (Some pqueue_new))
       SSL_AD_NO_ALERT R_NONE
       0 0 0
       [] [].

(** What [tls_int_new_record_layer] is taken to hand to
    [dtls_new_record_layer] for [layer3]: no queues, epoch fields
    zero. *)
Definition layer_raw : OSSL_RECORD_LAYER :=
  mkRL DTLS1_2_VERSION 0 0 false
       false None false false
       16384 false
       SSL_ST_READ_HEADER [] 0
       (mkBuffer (Some []) 16384 0 0) zero_record (seq64 0)
       (mkBitmap 0 (seq64 0)) (mkBitmap 0 (seq64 0))
       (mkRecordPqueue 0 None)
       (mkRecordPqueue 0 None)
       SSL_AD_NO_ALERT R_NONE
       0 0 0
       [] [].

(** The same layer with the unprocessed queue stamped with the current
    epoch. *)
Definition layer3_same_epoch : OSSL_RECORD_LAYER :=
  set_rl_unprocessed_rcds (mkRecordPqueue 3 (Some pqueue_new)) layer3.

(** A parsed handshake record of epoch 4. *)
Definition handshake_epoch4 : SSL3_RECORD :=
  mkRecord SSL3_RT_HANDSHAKE 16 0 0 [] [] 4 (seq64 0).

(** The layer at the last epoch a 16-bit counter can hold, with the
    unprocessed queue stamped as the constructor does (65536 stored in
    16 bits is 0). *)
Definition layer_max_epoch : OSSL_RECORD_LAYER :=
  set_rl_unprocessed_rcds (mkRecordPqueue 0 (Some pqueue_new))
    (set_rl_processed_rcds (mkRecordPqueue 65535 (Some pqueue_new))
       (set_rl_epoch 65535 layer3)).

(** A parsed handshake record of epoch 0. *)
Definition handshake_epoch0 : SSL3_RECORD :=
  mkRecord SSL3_RT_HANDSHAKE 16 0 0 [] [] 0 (seq64 0).

(** Size limits of a build with compression support. *)
Definition max_encrypted_length : Z := 17728.
Definition max_compressed_length : Z := 17408.
Definition max_encrypted_overhead : Z := 320.
Definition max_md_size : Z := 64.

(** Modelled from the spec: [read_n] over a datagram transport, standing
    for [tls_default_read_n], which is not among the sources. A call
    that does not extend the packet starts a new packet, from the bytes
    left in the read buffer or else from the next datagram, and reports
    a retry when there is none; a call that extends takes from what is
    left of the datagram; neither reads past the datagram. *)
Definition dgram_read_n (rl : OSSL_RECORD_LAYER) (n max extend clearold : Z)
  : Z * Z * OSSL_RECORD_LAYER :=
  let rb := rl_rbuf rl in
  if (extend =? 0) && (sb_left rb =? 0) then
    match rl_bio rl with
    | [] =>
        (OSSL_RECORD_RETURN_RETRY, 0,
         set_rl_packet_length 0 (set_rl_packet [] rl))
    | d :: rest =>
        let got := Z.min n (Z.of_nat (length d)) in
        (OSSL_RECORD_RETURN_SUCCESS, got,
         set_rl_bio rest
           (set_rl_rbuf
              (mkBuffer (Some d) (sb_len rb) got (Z.of_nat (length d) - got))
              (set_rl_packet_length got (set_rl_packet d rl))))
    end
  else if sb_left rb =? 0 then (OSSL_RECORD_RETURN_NON_FATAL_ERR, 0, rl)
  else
    let got := Z.min n (sb_left rb) in
    let rl :=
      if extend =? 0
      then set_rl_packet_length 0
             (set_rl_packet
                (skipn (Z.to_nat (sb_offset rb))
                       (match sb_buf rb with Some b => b | None => [] end)) rl)
      else rl in
    (OSSL_RECORD_RETURN_SUCCESS, got,
     set_rl_rbuf (mkBuffer (sb_buf rb) (sb_len rb) (sb_offset rb + got)
                           (sb_left rb - got))
       (set_rl_packet_length (rl_packet_length rl + got) rl)).

(** A [tls_setup_read_buffer] that always finds memory. *)
Definition setup_read_buffer_ok (rl : OSSL_RECORD_LAYER)
  : bool * OSSL_RECORD_LAYER :=
  (true, set_rl_rbuf (mkBuffer (Some []) 16384 0 0) rl).

(** A [tls_setup_read_buffer] that finds none. *)
Definition setup_read_buffer_fails (rl : OSSL_RECORD_LAYER)
  : bool * OSSL_RECORD_LAYER :=
  (false, RLAYERfatal rl SSL_AD_INTERNAL_ERROR ERR_R_INTERNAL_ERROR).

Definition alloc_ok (rl : OSSL_RECORD_LAYER) : bool := true.
Definition alloc_fails (rl : OSSL_RECORD_LAYER) : bool := false.

(** A 4-byte MAC that does not depend on the record. *)
Definition fixed_mac (rl : OSSL_RECORD_LAYER) (rr : SSL3_RECORD) (sending : Z)
  : Z * list byte :=
  (1, [x01; x02; x03; x04]).

(** A cipher that leaves the record as it is and reports success, with
    the last [mac_size] bytes as the MAC. *)
Definition plain_cipher (rl : OSSL_RECORD_LAYER) (rr : SSL3_RECORD)
  (n_recs sending mac_size : Z) : cipher_result :=
  let body := rr_length rr - mac_size in
  mkCipherResult 1 (set_rr_length body rr)
    (mkMacBuf (Some (skipn (Z.to_nat body) (rr_data rr))) false)
    (rl_alert rl) (rl_reason rl).

(** A cipher that fails to decrypt, raising no alert. *)
Definition failing_cipher (rl : OSSL_RECORD_LAYER) (rr : SSL3_RECORD)
  (n_recs sending mac_size : Z) : cipher_result :=
  mkCipherResult 0 rr (mkMacBuf None false) (rl_alert rl) (rl_reason rl).

Definition no_uncompress (rl : OSSL_RECORD_LAYER) (rr : SSL3_RECORD)
  : bool * SSL3_RECORD :=
  (true, rr).

(** The header and the body of the next datagram read into [rl0], as
    [dtls_get_more_records] does before routing the record. *)
Definition record_read (rl0 : OSSL_RECORD_LAYER) : OSSL_RECORD_LAYER :=
  match get_header max_encrypted_length max_encrypted_overhead
                   dgram_read_n rl0 with
  | inr rlh =>
      match get_body dgram_read_n rlh with
      | inr rl => rl
      | inl _ => rl0
      end
  | inl _ => rl0
  end.

(** A handshake record of epoch 4 (the next epoch of [layer3]),
    sequence number 0. *)
Definition next_epoch_datagram : list byte :=
  dtls_datagram SSL3_RT_HANDSHAKE DTLS1_2_VERSION 4 0 [x0a; x0b; x0c; x0d].

(** An application-data record of epoch 3, sequence number 7, whose
    last four bytes are not the MAC [fixed_mac] computes. *)
Definition bad_mac_datagram : list byte :=
  dtls_datagram SSL3_RT_APPLICATION_DATA DTLS1_2_VERSION 3 7
    [x0a; x0b; x0c; x0d; x09; x09; x09; x09].

(** A handshake record and an alert record of epoch 3 that carry the
    version of DTLS 1.0. *)
Definition old_version_handshake : list byte :=
  dtls_datagram SSL3_RT_HANDSHAKE DTLS1_VERSION 3 1 [x0a; x0b].

Definition old_version_alert : list byte :=
  dtls_datagram SSL3_RT_ALERT DTLS1_VERSION 3 1 [x02; x28].

(** [layer3] under encrypt-then-MAC, respectively MAC-then-encrypt,
    with a 4-byte digest. *)
Definition layer3_etm : OSSL_RECORD_LAYER :=
  mkRL DTLS1_2_VERSION 3 0 false
       true (Some (Some 4)) true false
       16384 false
       SSL_ST_READ_HEADER [] 0
       (mkBuffer (Some []) 16384 0 0) zero_record (seq64 0)
       (mkBitmap 0 (seq64 0)) (mkBitmap 0 (seq64 0))
       (mkRecordPqueue 4 (Some pqueue_new))
       (mkRecordPqueue 3 (Some pqueue_new))
       SSL_AD_NO_ALERT R_NONE
       0 0 0
       [bad_mac_datagram] [].

Definition layer3_mte : OSSL_RECORD_LAYER :=
  mkRL DTLS1_2_VERSION 3 0 false
       false (Some (Some 4)) true false
       16384 false
       SSL_ST_READ_HEADER [] 0
       (mkBuffer (Some []) 16384 0 0) zero_record (seq64 0)
       (mkBitmap 0 (seq64 0)) (mkBitmap 0 (seq64 0))
       (mkRecordPqueue 4 (Some pqueue_new))
       (mkRecordPqueue 3 (Some pqueue_new))
       SSL_AD_NO_ALERT R_NONE
       0 0 0
       [bad_mac_datagram] [].

(** A buffered record whose priority is [seq] and whose raw packet is a
    handshake record of epoch 4 with that sequence number. *)
Definition buffered_item (seq : Z) : pitem :=
  let d := dtls_datagram SSL3_RT_HANDSHAKE DTLS1_2_VERSION 4 seq [x0a] in
  pitem_new (seq64 seq)
    (mkRecordData d (Z.of_nat (length d)) (mkBuffer (Some d) 16384 0 0)
                  zero_record).

(** The queue after inserting the items of the given sequence numbers
    in turn. *)
Definition queue_of (seqs : list Z) : pqueue :=
  fold_left (fun pq n => match pqueue_insert pq (buffered_item n) with
                         | Some pq' => pq'
                         | None => pq
                         end) seqs pqueue_new.

(** A queue filled to the limit: 100 items of sequence numbers 1 to
    100. *)
Definition full_queue : pqueue :=
  queue_of (List.map Z.of_nat (seq 1 100)).

(** [layer3] with the unprocessed queue full and a next-epoch handshake
    record on the wire. *)
Definition layer3_full : OSSL_RECORD_LAYER :=
  set_rl_bio [next_epoch_datagram]
    (set_rl_unprocessed_rcds (mkRecordPqueue 4 (Some full_queue)) layer3).

(** [layer3] with an empty queue and the same record on the wire. *)
Definition layer3_next : OSSL_RECORD_LAYER :=
  set_rl_bio [next_epoch_datagram] layer3.

(** [layer3] at teardown: two records buffered out of order and three
    unread bytes in the read buffer. *)
Definition layer3_closing : OSSL_RECORD_LAYER :=
  set_rl_rbuf (mkBuffer (Some [x00; x00; x11; x12; x13]) 16384 2 3)
    (set_rl_unprocessed_rcds (mkRecordPqueue 4 (Some (queue_of [9; 5])))
       layer3).

(** A BIO that takes whatever it is given. *)
Definition bio_takes_all (log : list (list byte)) (data : list byte) : bool :=
  true.

Definition bio_write_all (log : list (list byte)) (data : list byte) : Z :=
  Z.of_nat (length data).

Definition no_flush (s : SSL_CONNECTION) : Z := 1.

Definition tls_free_ok (rl : OSSL_RECORD_LAYER) : Z := 1.

(** A connection that has memorized a pending application-data write
    of 5 bytes from the buffer at address 4096. *)
Definition conn_pending : SSL_CONNECTION :=
  mkConn 5 4096 SSL3_RT_APPLICATION_DATA 5 0 true [] SSL_NOTHING true
         SSL_AD_NO_ALERT R_NONE.

(** The same with SSL_MODE_ACCEPT_MOVING_WRITE_BUFFER set. *)
Definition conn_pending_moving : SSL_CONNECTION :=
  mkConn 5 4096 SSL3_RT_APPLICATION_DATA 5
         SSL_MODE_ACCEPT_MOVING_WRITE_BUFFER true [] SSL_NOTHING true
         SSL_AD_NO_ALERT R_NONE.

(** A write buffer holding an 18-byte record still to be sent. *)
Definition wbuf_pending : SSL3_BUFFER :=
  mkBuffer (Some (dtls_datagram SSL3_RT_APPLICATION_DATA DTLS1_2_VERSION 3 0
                    [x01; x02; x03; x04; x05])) 16384 0 18.

(** The layer once the records of the given sequence numbers have been
    accepted in turn in the current epoch. *)
Definition accepted (seqs : list Z) (rl : OSSL_RECORD_LAYER)
  : OSSL_RECORD_LAYER :=
  fold_left (fun rl n =>
               dtls_record_bitmap_update (set_rl_sequence (seq64 n) rl)
                 ref_bitmap) seqs rl.

(** The layer as [read_n] leaves it after the header of the next
    datagram, and with the header checked. *)
Definition header_fetched (rl0 : OSSL_RECORD_LAYER) : OSSL_RECORD_LAYER :=
  snd (dgram_read_n rl0 DTLS1_RT_HEADER_LENGTH (sb_len (rl_rbuf rl0)) 0 1).

Definition header_read (rl0 : OSSL_RECORD_LAYER) : OSSL_RECORD_LAYER :=
  match get_header max_encrypted_length max_encrypted_overhead
                   dgram_read_n rl0 with
  | inr rlh => rlh
  | inl _ => rl0
  end.

(** The layer once the replay check has let the record read into [rl0]
    through against the next-epoch window. *)
Definition record_checked (rl0 : OSSL_RECORD_LAYER) : OSSL_RECORD_LAYER :=
  snd (dtls_record_replay_check (record_read rl0) ref_next_bitmap).

(** ** Scenarios of the further properties *)

(** [layer3] once the records 1, 2 and 65 of the current epoch were
    accepted, looking at a record of sequence number [n]. *)
Definition window_at (n : Z) : OSSL_RECORD_LAYER :=
  set_rl_sequence (seq64 n) (accepted [1; 2; 65] layer3).

(** [layer3] with one record waiting in the processed queue. *)
Definition layer3_processed : OSSL_RECORD_LAYER :=
  set_rl_processed_rcds (mkRecordPqueue 3 (Some (queue_of [5]))) layer3.

(** [layer3_next] with a record of the same priority as the one on the
    wire already in the unprocessed queue. *)
Definition layer3_next_queued : OSSL_RECORD_LAYER :=
  set_rl_unprocessed_rcds (mkRecordPqueue 4 (Some (queue_of [0])))
    layer3_next.

(** [layer3_next] once the handshake is over. *)
Definition layer3_next_established : OSSL_RECORD_LAYER :=
  dtls_set_in_init layer3_next 0.

(** An alert record that carries the version of TLS 1.2. *)
Definition wrong_major_datagram : list byte :=
  dtls_datagram SSL3_RT_ALERT 771 3 1 [x02; x28].

(** A handshake record whose header announces 10 bytes, cut after 4. *)
Definition truncated_datagram : list byte :=
  firstn 17
    (dtls_datagram SSL3_RT_HANDSHAKE DTLS1_2_VERSION 3 1 (repeat x0a 10)).

(** An application-data record of epoch 2, and one of epoch 3 with
    sequence number 2. *)
Definition old_epoch_datagram : list byte :=
  dtls_datagram SSL3_RT_APPLICATION_DATA DTLS1_2_VERSION 2 1 [x0a].

Definition repeated_datagram : list byte :=
  dtls_datagram SSL3_RT_APPLICATION_DATA DTLS1_2_VERSION 3 2 [x0a].

(** [layer3] with the given datagram on the wire. *)
Definition layer3_with (d : list byte) : OSSL_RECORD_LAYER :=
  set_rl_bio [d] layer3.

(** The layer after the body of the next datagram was asked for. *)
Definition body_fetched (rl0 : OSSL_RECORD_LAYER) : OSSL_RECORD_LAYER :=
  let rlh := header_read rl0 in
  snd (dgram_read_n rlh (rr_length (rl_rrec rlh)) (rr_length (rl_rrec rlh))
         1 1).

(** [layer3] when record 7 of the current epoch has just been
    delivered, and the layer on which the same record arrives again. *)
Definition layer3_delivering : OSSL_RECORD_LAYER :=
  set_rl_rrec (set_rr_epoch 3 (set_rr_length 1 zero_record))
    (set_rl_sequence (seq64 7) layer3).

Definition layer3_redelivered : OSSL_RECORD_LAYER :=
  dtls_record_bitmap_update layer3_delivering ref_bitmap.

(** What [dtls_get_more_records] returns on [layer3_full]. *)
Definition full_queue_result : Z * OSSL_RECORD_LAYER :=
  match dtls_get_more_records max_encrypted_length max_compressed_length
          max_encrypted_overhead max_md_size fixed_mac plain_cipher
          no_uncompress dgram_read_n setup_read_buffer_ok alloc_ok alloc_ok
          2 layer3_full with
  | Some r => r
  | None => (0, layer3_full)
  end.

(** What the pending write of [conn_pending] leaves, as a retry and as
    the write that ends [dtls_write_records]. *)
Definition pending_written : write_result :=
  match ssl3_write_pending false no_flush bio_write_all 3 conn_pending
          wbuf_pending SSL3_RT_APPLICATION_DATA 4096 5 with
  | Some r => r
  | None => mkWriteResult 0 None conn_pending wbuf_pending
  end.

Definition record_flushed : write_result :=
  match dtls_write_records_flush false no_flush bio_write_all 3 conn_pending
          wbuf_pending 18 SSL3_RT_APPLICATION_DATA 4096 5 with
  | Some r => r
  | None => mkWriteResult 0 None conn_pending wbuf_pending
  end.

(** The write side before any key is installed: no session, no cipher
    context, no digest, no compression, epoch 0, five records sent. *)
Definition write_state_clear : WRITE_STATE :=
  mkWriteState false None false 0 false false 0 (seq64 5).

(** A request to send three handshake bytes found at address 4096. *)
Definition hello_template : OSSL_RECORD_TEMPLATE :=
  mkTemplate SSL3_RT_HANDSHAKE DTLS1_2_VERSION 4096 [x01; x02; x03] 3.

(** Collaborators of the write side: a 32-byte write buffer, no
    compressor, no MAC, a cipher call that leaves the record as it is,
    and the write sequence number counted up by one. *)
Definition alloc_write_buffer (templates : OSSL_RECORD_TEMPLATE)
  : option SSL3_BUFFER :=
  Some (mkBuffer (Some (repeat x00 32)) 32 0 0).

Definition compress_none (input : list byte) : option (list byte) := None.

Definition mac_none (type : Z) (data : list byte) : option (list byte) :=
  None.

Definition null_enc (type : Z) (data : list byte) (mac_size : Z)
  : Z * list byte :=
  (1, data).

Definition next_sequence (s : list byte) : list byte := seq64 (n2l8 s + 1).

(** A DTLS connection with a BIO and nothing pending. *)
Definition conn_idle : SSL_CONNECTION :=
  mkConn 0 0 0 0 0 true [] SSL_NOTHING true SSL_AD_NO_ALERT R_NONE.

(** The record built from [hello_template], and what writing it
    leaves. *)
Definition hello_prepared : SSL3_BUFFER * Z :=
  match dtls_write_records_prepare alloc_write_buffer compress_none mac_none
          null_enc false write_state_clear hello_template 1 with
  | Ok r => r
  | _ => (zero_buffer, 0)
  end.

Definition hello_written : write_result :=
  match dtls_write_records alloc_write_buffer compress_none mac_none null_enc
          false next_sequence false no_flush bio_write_all 3 conn_idle
          write_state_clear hello_template 1 with
  | Ok (_, Some r) => r
  | _ => mkWriteResult 0 None conn_idle zero_buffer
  end.

(** An application-data record of epoch 3 and sequence number 9 that
    carries three bytes in the clear. *)
Definition app_data_datagram : list byte :=
  dtls_datagram SSL3_RT_APPLICATION_DATA DTLS1_2_VERSION 3 9 [x01; x02; x03].

(** * Properties *)

(** ** Machine integers and bytes *)

Lemma byte_val_range (b : byte) : 0 <= byte_val b < 256.
Proof.
  unfold byte_val. pose proof (Byte.to_N_bounded b) as H.
  split; [apply N2Z.is_nonneg | ].
  apply N2Z.inj_le in H. simpl in H. lia.
Qed.

Lemma byte_at_range (c : list byte) (i : nat) : 0 <= byte_at c i < 256.
Proof. unfold byte_at. apply byte_val_range. Qed.

(** Or-ing a value below [2^k] into a multiple of [2^k] adds it. *)
Lemma lor_high_low (q b k : Z) :
  0 <= k -> 0 <= b < 2 ^ k -> Z.lor (q * 2 ^ k) b = q * 2 ^ k + b.
Proof.
  intros Hk Hb.
  assert (Hland : Z.land (q * 2 ^ k) b = 0).
  { apply Z.bits_inj'. intros n Hn.
    rewrite Z.land_spec, Z.bits_0.
    destruct (Z.lt_ge_cases n k) as [Hlt | Hge].
    - rewrite Z.mul_pow2_bits_low by lia. reflexivity.
    - destruct (Z.eq_dec b 0) as [-> | Hnz].
      + rewrite Z.bits_0. apply andb_false_r.
      + rewrite (Z.bits_above_log2 b n); [apply andb_false_r | lia | ].
        apply Z.log2_lt_pow2; [lia | ].
        apply Z.lt_le_trans with (2 ^ k); [lia | ].
        apply Z.pow_le_mono_r; lia. }
  rewrite <- Z.lxor_lor by exact Hland.
  symmetry. apply Z.add_nocarry_lxor. exact Hland.
Qed.

Lemma n2l8_sum (c : list byte) :
  n2l8 c =
  byte_at c 0 * 2 ^ 56 + byte_at c 1 * 2 ^ 48 + byte_at c 2 * 2 ^ 40
  + byte_at c 3 * 2 ^ 32 + byte_at c 4 * 2 ^ 24 + byte_at c 5 * 2 ^ 16
  + byte_at c 6 * 2 ^ 8 + byte_at c 7.
Proof.
  unfold n2l8. cbv zeta.
  pose proof (byte_at_range c 0) as H0. pose proof (byte_at_range c 1) as H1.
  pose proof (byte_at_range c 2) as H2. pose proof (byte_at_range c 3) as H3.
  pose proof (byte_at_range c 4) as H4. pose proof (byte_at_range c 5) as H5.
  pose proof (byte_at_range c 6) as H6. pose proof (byte_at_range c 7) as H7.
  generalize dependent (byte_at c 0). generalize dependent (byte_at c 1).
  generalize dependent (byte_at c 2). generalize dependent (byte_at c 3).
  generalize dependent (byte_at c 4). generalize dependent (byte_at c 5).
  generalize dependent (byte_at c 6). generalize dependent (byte_at c 7).
  intros b7 H7 b6 H6 b5 H5 b4 H4 b3 H3 b2 H2 b1 H1 b0 H0.
  rewrite !Z.shiftl_mul_pow2 by lia.
  rewrite (lor_high_low b0 (b1 * 2 ^ 48) 56) by lia.
  replace (b0 * 2 ^ 56 + b1 * 2 ^ 48) with ((b0 * 2 ^ 8 + b1) * 2 ^ 48) by lia.
  rewrite (lor_high_low _ (b2 * 2 ^ 40) 48) by lia.
  replace ((b0 * 2 ^ 8 + b1) * 2 ^ 48 + b2 * 2 ^ 40)
    with (((b0 * 2 ^ 8 + b1) * 2 ^ 8 + b2) * 2 ^ 40) by lia.
  rewrite (lor_high_low _ (b3 * 2 ^ 32) 40) by lia.
  replace (((b0 * 2 ^ 8 + b1) * 2 ^ 8 + b2) * 2 ^ 40 + b3 * 2 ^ 32)
    with ((((b0 * 2 ^ 8 + b1) * 2 ^ 8 + b2) * 2 ^ 8 + b3) * 2 ^ 32) by lia.
  rewrite (lor_high_low _ (b4 * 2 ^ 24) 32) by lia.
  replace ((((b0 * 2 ^ 8 + b1) * 2 ^ 8 + b2) * 2 ^ 8 + b3) * 2 ^ 32 + b4 * 2 ^ 24)
    with (((((b0 * 2 ^ 8 + b1) * 2 ^ 8 + b2) * 2 ^ 8 + b3) * 2 ^ 8 + b4) * 2 ^ 24)
    by lia.
  rewrite (lor_high_low _ (b5 * 2 ^ 16) 24) by lia.
  replace (((((b0 * 2 ^ 8 + b1) * 2 ^ 8 + b2) * 2 ^ 8 + b3) * 2 ^ 8 + b4) * 2 ^ 24
           + b5 * 2 ^ 16)
    with ((((((b0 * 2 ^ 8 + b1) * 2 ^ 8 + b2) * 2 ^ 8 + b3) * 2 ^ 8 + b4) * 2 ^ 8
           + b5) * 2 ^ 16) by lia.
  rewrite (lor_high_low _ (b6 * 2 ^ 8) 16) by lia.
  replace ((((((b0 * 2 ^ 8 + b1) * 2 ^ 8 + b2) * 2 ^ 8 + b3) * 2 ^ 8 + b4) * 2 ^ 8
            + b5) * 2 ^ 16 + b6 * 2 ^ 8)
    with (((((((b0 * 2 ^ 8 + b1) * 2 ^ 8 + b2) * 2 ^ 8 + b3) * 2 ^ 8 + b4) * 2 ^ 8
            + b5) * 2 ^ 8 + b6) * 2 ^ 8) by lia.
  rewrite (lor_high_low _ b7 8) by lia.
  lia.
Qed.

Lemma n2l8_range (c : list byte) : 0 <= n2l8 c < 2 ^ 64.
Proof.
  rewrite n2l8_sum.
  pose proof (byte_at_range c 0). pose proof (byte_at_range c 1).
  pose proof (byte_at_range c 2). pose proof (byte_at_range c 3).
  pose proof (byte_at_range c 4). pose proof (byte_at_range c 5).
  pose proof (byte_at_range c 6). pose proof (byte_at_range c 7).
  lia.
Qed.

(** On eight bytes the macro reads the big-endian value. *)
Lemma n2l8_be_value (c : list byte) :
  length c = 8%nat -> n2l8 c = be_value c.
Proof.
  intros Hlen.
  destruct c as [| b0 [| b1 [| b2 [| b3 [| b4 [| b5 [| b6 [| b7 [| ? ?]]]]]]]]];
    try discriminate Hlen.
  rewrite n2l8_sum. unfold be_value, byte_at. simpl. lia.
Qed.

Lemma be_value_range (c : list byte) :
  length c = 8%nat -> 0 <= be_value c < 2 ^ 64.
Proof. intros H. rewrite <- n2l8_be_value by exact H. apply n2l8_range. Qed.

(** The value [satsub64be] computes, in terms of the two 64-bit values. *)
Lemma satsub64be_clamp (v1 v2 : list byte) :
  satsub64be v1 v2 = clamp128 (n2l8 v1 - n2l8 v2).
Proof.
  unfold satsub64be, clamp128, to_int64, to_uint64, to_int. cbv zeta.
  pose proof (n2l8_range v1) as H1. pose proof (n2l8_range v2) as H2.
  generalize dependent (n2l8 v1). generalize dependent (n2l8 v2).
  intros l2 H2 l1 H1.
  change (2 ^ 64) with 18446744073709551616 in *.
  change (2 ^ 63) with 9223372036854775808.
  change (2 ^ 32) with 4294967296. change (2 ^ 31) with 2147483648.
  rewrite Z.mod_mod by lia.
  destruct (Z.lt_ge_cases l1 l2) as [Hlt | Hge].
  - replace ((l1 - l2) mod 18446744073709551616)
      with (l1 - l2 + 18446744073709551616)
      by (apply Z.mod_unique with (-1); lia).
    destruct (l1 - l2 + 18446744073709551616 <? 9223372036854775808) eqn:E1;
      [apply Z.ltb_lt in E1 | apply Z.ltb_ge in E1].
    + replace (l2 <? l1) with false by (symmetry; apply Z.ltb_ge; lia).
      replace (l1 <? l2) with true by (symmetry; apply Z.ltb_lt; lia).
      replace (0 <? l1 - l2 + 18446744073709551616) with true
        by (symmetry; apply Z.ltb_lt; lia).
      replace (128 <? l1 - l2) with false by (symmetry; apply Z.ltb_ge; lia).
      replace (l1 - l2 <? -128) with true by (symmetry; apply Z.ltb_lt; lia).
      reflexivity.
    + replace (l1 - l2 + 18446744073709551616 - 18446744073709551616)
        with (l1 - l2) by lia.
      replace (l2 <? l1) with false by (symmetry; apply Z.ltb_ge; lia).
      replace (l1 <? l2) with true by (symmetry; apply Z.ltb_lt; lia).
      replace (0 <? l1 - l2) with false by (symmetry; apply Z.ltb_ge; lia).
      replace (128 <? l1 - l2) with false by (symmetry; apply Z.ltb_ge; lia).
      simpl andb. cbv iota.
      destruct (l1 - l2 <? -128) eqn:E2; [reflexivity | ].
      apply Z.ltb_ge in E2.
      replace ((l1 - l2) mod 4294967296) with (l1 - l2 + 4294967296)
        by (apply Z.mod_unique with (-1); lia).
      replace (l1 - l2 + 4294967296 <? 2147483648) with false
        by (symmetry; apply Z.ltb_ge; lia).
      lia.
  - replace ((l1 - l2) mod 18446744073709551616) with (l1 - l2)
      by (symmetry; apply Z.mod_small; lia).
    replace (l1 <? l2) with false by (symmetry; apply Z.ltb_ge; lia).
    destruct (l1 - l2 <? 9223372036854775808) eqn:E1;
      [apply Z.ltb_lt in E1 | apply Z.ltb_ge in E1].
    + replace (l1 - l2 <? 0) with false by (symmetry; apply Z.ltb_ge; lia).
      rewrite andb_false_r. simpl andb. cbv iota.
      destruct (128 <? l1 - l2) eqn:E2; [reflexivity | ].
      apply Z.ltb_ge in E2.
      replace (l1 - l2 <? -128) with false by (symmetry; apply Z.ltb_ge; lia).
      replace ((l1 - l2) mod 4294967296) with (l1 - l2)
        by (symmetry; apply Z.mod_small; lia).
      replace (l1 - l2 <? 2147483648) with true
        by (symmetry; apply Z.ltb_lt; lia).
      reflexivity.
    + replace (l2 <? l1) with true by (symmetry; apply Z.ltb_lt; lia).
      replace (l1 - l2 - 18446744073709551616 <? 0) with true
        by (symmetry; apply Z.ltb_lt; lia).
      simpl andb. cbv iota.
      replace (128 <? l1 - l2) with true by (symmetry; apply Z.ltb_lt; lia).
      reflexivity.
Qed.

Lemma satsub64be_range (v1 v2 : list byte) : -128 <= satsub64be v1 v2 <= 128.
Proof.
  rewrite satsub64be_clamp. unfold clamp128.
  destruct (128 <? n2l8 v1 - n2l8 v2) eqn:E1; [lia | ].
  destruct (n2l8 v1 - n2l8 v2 <? -128) eqn:E2; [lia | ].
  apply Z.ltb_ge in E1, E2. lia.
Qed.

(** C5: for all 8-byte big-endian inputs [v1] and [v2] with values [a]
    and [b], [satsub64be] returns the signed difference [a - b] when
    [|a - b| <= 128], exactly [128] when [a - b > 128] or when the 64-bit
    subtraction wraps around with [a > b], and exactly [-128] when
    [a - b < -128] or when it wraps around with [b > a]. *)
Theorem satsub64be_saturating (v1 v2 : list byte)
  (H1 : length v1 = 8%nat) (H2 : length v2 = 8%nat) :
  let a := be_value v1 in
  let b := be_value v2 in
  let wrapped := to_int64 (to_uint64 (a - b)) in
  (Z.abs (a - b) <= 128 -> satsub64be v1 v2 = a - b)
  /\ (a - b > 128 -> satsub64be v1 v2 = 128)
  /\ (a > b -> wrapped < 0 -> satsub64be v1 v2 = 128)
  /\ (a - b < -128 -> satsub64be v1 v2 = -128)
  /\ (b > a -> wrapped > 0 -> satsub64be v1 v2 = -128)
  /\ satsub64be v1 v2 = clamp128 (a - b).
Proof.
  intros a b wrapped.
  assert (Ha : n2l8 v1 = a) by (apply n2l8_be_value; exact H1).
  assert (Hb : n2l8 v2 = b) by (apply n2l8_be_value; exact H2).
  pose proof (be_value_range v1 H1) as Ra.
  pose proof (be_value_range v2 H2) as Rb.
  fold a in Ra. fold b in Rb.
  assert (Hc : satsub64be v1 v2 = clamp128 (a - b))
    by (rewrite satsub64be_clamp, Ha, Hb; reflexivity).
  change (2 ^ 64) with 18446744073709551616 in *.
  repeat split.
  - intros Habs. rewrite Hc. unfold clamp128.
    replace (128 <? a - b) with false by (symmetry; apply Z.ltb_ge; lia).
    replace (a - b <? -128) with false by (symmetry; apply Z.ltb_ge; lia).
    reflexivity.
  - intros Hgt. rewrite Hc. unfold clamp128.
    replace (128 <? a - b) with true by (symmetry; apply Z.ltb_lt; lia).
    reflexivity.
  - intros Hab Hw. rewrite Hc. unfold clamp128.
    replace (128 <? a - b) with true; [reflexivity | ].
    symmetry. apply Z.ltb_lt.
    subst wrapped. unfold to_int64, to_uint64 in Hw. cbv zeta in Hw.
    change (2 ^ 64) with 18446744073709551616 in Hw.
    change (2 ^ 63) with 9223372036854775808 in Hw.
    rewrite Z.mod_mod in Hw by lia.
    rewrite (Z.mod_small (a - b)) in Hw by lia.
    destruct (a - b <? 9223372036854775808) eqn:E;
      [apply Z.ltb_lt in E | apply Z.ltb_ge in E]; lia.
  - intros Hlt. rewrite Hc. unfold clamp128.
    replace (128 <? a - b) with false by (symmetry; apply Z.ltb_ge; lia).
    replace (a - b <? -128) with true by (symmetry; apply Z.ltb_lt; lia).
    reflexivity.
  - intros Hab Hw. rewrite Hc. unfold clamp128.
    replace (128 <? a - b) with false by (symmetry; apply Z.ltb_ge; lia).
    replace (a - b <? -128) with true; [reflexivity | ].
    symmetry. apply Z.ltb_lt.
    subst wrapped. unfold to_int64, to_uint64 in Hw. cbv zeta in Hw.
    change (2 ^ 64) with 18446744073709551616 in Hw.
    change (2 ^ 63) with 9223372036854775808 in Hw.
    rewrite Z.mod_mod in Hw by lia.
    replace ((a - b) mod 18446744073709551616)
      with (a - b + 18446744073709551616) in Hw
      by (apply Z.mod_unique with (-1); lia).
    destruct (a - b + 18446744073709551616 <? 9223372036854775808) eqn:E;
      [apply Z.ltb_lt in E | apply Z.ltb_ge in E]; lia.
  - exact Hc.
Qed.

(** ** ReplayWindow *)

Lemma bit64_pow2 (shift : Z) : 0 <= shift < 64 -> bit64 shift = 2 ^ shift.
Proof.
  intros H. unfold bit64, to_uint64.
  rewrite Z.shiftl_mul_pow2, Z.mul_1_l by lia.
  apply Z.mod_small. split; [apply Z.pow_nonneg; lia | ].
  apply Z.pow_lt_mono_r; lia.
Qed.

(** Testing a word against a one-bit mask reads that bit. *)
Lemma land_bit64_testbit (m shift : Z) :
  0 <= shift < 64 ->
  (Z.land m (bit64 shift) =? 0) = negb (Z.testbit m shift).
Proof.
  intros H. rewrite bit64_pow2 by exact H.
  destruct (Z.testbit m shift) eqn:Hb; simpl.
  - apply Z.eqb_neq. intros Hz.
    assert (Hs : Z.testbit (Z.land m (2 ^ shift)) shift = true).
    { rewrite Z.land_spec, Hb, Z.pow2_bits_true by lia. reflexivity. }
    rewrite Hz, Z.bits_0 in Hs. discriminate Hs.
  - apply Z.eqb_eq. apply Z.bits_inj'. intros n Hn.
    rewrite Z.land_spec, Z.bits_0, Z.pow2_bits_eqb by lia.
    destruct (Z.eqb_spec shift n) as [-> | Hne].
    + rewrite Hb. reflexivity.
    + apply andb_false_r.
Qed.

Lemma to_uint_small (x : Z) : 0 <= x <= 128 -> to_uint x = x.
Proof. intros H. unfold to_uint. apply Z.mod_small. simpl. lia. Qed.

(** The exits of the source are the classes of the specification. *)
Lemma replay_check_exit_class (seq : list byte) (bm : DTLS_BITMAP) :
  class_of_exit (replay_check_exit seq bm)
  = check_spec (satsub64be seq (bm_max_seq_num bm)) (bm_map bm).
Proof.
  unfold replay_check_exit, check_spec, map_bits. cbv zeta.
  pose proof (satsub64be_range seq (bm_max_seq_num bm)) as R.
  destruct (0 <? satsub64be seq (bm_max_seq_num bm)) eqn:E0; [reflexivity | ].
  apply Z.ltb_ge in E0.
  rewrite to_uint_small by lia.
  destruct (64 <=? - satsub64be seq (bm_max_seq_num bm)) eqn:E1;
    [reflexivity | ].
  apply Z.leb_gt in E1.
  rewrite land_bit64_testbit by lia. rewrite negb_involutive.
  destruct (Z.testbit (bm_map bm) (- satsub64be seq (bm_max_seq_num bm)));
    reflexivity.
Qed.

Lemma replay_check_returns (rl : OSSL_RECORD_LAYER) (b : bitmap_ref) :
  dtls_record_replay_check rl b
  = match class_of_exit
            (replay_check_exit (rl_sequence rl) (get_bitmap_at rl b)) with
    | cls_fresh => (1, SSL3_RECORD_set_seq_num (rl_sequence rl) rl)
    | _ => (0, rl)
    end.
Proof.
  unfold dtls_record_replay_check. cbv zeta.
  destruct (replay_check_exit (rl_sequence rl) (get_bitmap_at rl b));
    reflexivity.
Qed.

(** C4: with [d = satsub64be seq max_seq], the replay check classifies
    [seq] as fresh if [d > 0], stale if [-d >= 64], duplicate if bit
    [-d] of the bitmap is set, and fresh otherwise; it returns 1 exactly
    for fresh. In particular a sequence number with
    [max_seq - seq >= 64] is stale and one above [max_seq] is fresh. *)
Theorem replay_check_classifies (rl : OSSL_RECORD_LAYER) (b : bitmap_ref) :
  let bm := get_bitmap_at rl b in
  let seq := rl_sequence rl in
  let max_seq := bm_max_seq_num bm in
  let d := satsub64be seq max_seq in
  let cls := class_of_exit (replay_check_exit seq bm) in
  cls = check_spec d (bm_map bm)
  /\ (d > 0 -> cls = cls_fresh)
  /\ (d <= 0 -> - d >= 64 -> cls = cls_stale)
  /\ (d <= 0 -> - d < 64 -> Z.testbit (bm_map bm) (- d) = true ->
      cls = cls_duplicate)
  /\ (d <= 0 -> - d < 64 -> Z.testbit (bm_map bm) (- d) = false ->
      cls = cls_fresh)
  /\ fst (dtls_record_replay_check rl b)
     = match cls with cls_fresh => 1 | _ => 0 end
  /\ (length seq = 8%nat -> length max_seq = 8%nat ->
      be_value max_seq - be_value seq >= 64 -> cls = cls_stale)
  /\ (length seq = 8%nat -> length max_seq = 8%nat ->
      be_value seq > be_value max_seq -> cls = cls_fresh).
Proof.
  intros bm seq max_seq d cls.
  assert (Hcls : cls = check_spec d (bm_map bm))
    by (apply replay_check_exit_class).
  assert (Hsat : forall (H1 : length seq = 8%nat) (H2 : length max_seq = 8%nat),
             d = clamp128 (be_value seq - be_value max_seq)).
  { intros H1 H2. unfold d. rewrite satsub64be_clamp.
    rewrite (n2l8_be_value seq H1), (n2l8_be_value max_seq H2). reflexivity. }
  split; [exact Hcls | ].
  rewrite Hcls. unfold check_spec.
  repeat split.
  - intros Hd. replace (0 <? d) with true by (symmetry; apply Z.ltb_lt; lia).
    reflexivity.
  - intros Hd Hs.
    replace (0 <? d) with false by (symmetry; apply Z.ltb_ge; lia).
    replace (64 <=? - d) with true by (symmetry; apply Z.leb_le; lia).
    reflexivity.
  - intros Hd Hs Hb.
    replace (0 <? d) with false by (symmetry; apply Z.ltb_ge; lia).
    replace (64 <=? - d) with false by (symmetry; apply Z.leb_gt; lia).
    rewrite Hb. reflexivity.
  - intros Hd Hs Hb.
    replace (0 <? d) with false by (symmetry; apply Z.ltb_ge; lia).
    replace (64 <=? - d) with false by (symmetry; apply Z.leb_gt; lia).
    rewrite Hb. reflexivity.
  - rewrite replay_check_returns. fold bm seq cls. rewrite Hcls.
    unfold check_spec.
    destruct (0 <? d); [reflexivity | ].
    destruct (64 <=? - d); [reflexivity | ].
    destruct (Z.testbit (bm_map bm) (- d)); reflexivity.
  - intros H1 H2 Hge. rewrite (Hsat H1 H2). unfold clamp128.
    replace (128 <? be_value seq - be_value max_seq) with false
      by (symmetry; apply Z.ltb_ge; lia).
    destruct (be_value seq - be_value max_seq <? -128) eqn:E; [reflexivity | ].
    apply Z.ltb_ge in E.
    replace (0 <? be_value seq - be_value max_seq) with false
      by (symmetry; apply Z.ltb_ge; lia).
    replace (64 <=? - (be_value seq - be_value max_seq)) with true
      by (symmetry; apply Z.leb_le; lia).
    reflexivity.
  - intros H1 H2 Hgt. rewrite (Hsat H1 H2). unfold clamp128.
    destruct (128 <? be_value seq - be_value max_seq) eqn:E; [reflexivity | ].
    replace (be_value seq - be_value max_seq <? -128) with false
      by (symmetry; apply Z.ltb_ge; lia).
    replace (0 <? be_value seq - be_value max_seq) with true
      by (symmetry; apply Z.ltb_lt; lia).
    reflexivity.
Qed.

(** ** EpochRouter *)

Lemma next_epoch_value (epoch : Z) :
  0 <= epoch < 65536 -> to_uint64 (to_int (epoch + 1)) = epoch + 1.
Proof.
  intros H. unfold to_uint64, to_int. cbv zeta.
  change (2 ^ 32) with 4294967296. change (2 ^ 31) with 2147483648.
  change (2 ^ 64) with 18446744073709551616.
  rewrite (Z.mod_small (epoch + 1)) by lia.
  replace (epoch + 1 <? 2147483648) with true
    by (symmetry; apply Z.ltb_lt; lia).
  apply Z.mod_small. lia.
Qed.

Lemma get_bitmap_next_iff (rl : OSSL_RECORD_LAYER) (rr : SSL3_RECORD) :
  0 <= rl_epoch rl < 65536 ->
  (dtls_get_bitmap rl rr = (Some ref_next_bitmap, 1) <-> routes_to_next rl rr).
Proof.
  intros Hep. unfold dtls_get_bitmap, routes_to_next.
  rewrite next_epoch_value by exact Hep.
  destruct (Z.eqb_spec (rr_epoch rr) (rl_epoch rl)) as [He | He].
  { split; [discriminate | intros [H _]; lia]. }
  destruct (Z.eqb_spec (rr_epoch rr) (rl_epoch rl + 1)) as [He1 | He1];
    [ | split; [discriminate | intros [H _]; contradiction]].
  destruct (Z.eqb_spec (rq_epoch (rl_unprocessed_rcds rl)) (rl_epoch rl))
    as [Hq | Hq]; simpl;
    [split; [discriminate | intros [_ [H _]]; contradiction] | ].
  destruct (Z.eqb_spec (rr_type rr) SSL3_RT_HANDSHAKE) as [Ht | Ht]; simpl.
  { split; [intros _ | reflexivity]. repeat split; auto. }
  destruct (Z.eqb_spec (rr_type rr) SSL3_RT_ALERT) as [Ha | Ha].
  { split; [intros _ | reflexivity]. repeat split; auto. }
  split; [discriminate | intros [_ [_ [H | H]]]; contradiction].
Qed.

(** C1, as the code has it: the router returns the next-epoch window,
    with [is_next_epoch] set, if and only if the record's epoch is
    [current_epoch + 1], the epoch recorded in the unprocessed queue
    differs from the current epoch, and the type is handshake or alert;
    a record of the current epoch gets the current window, and every
    other record gets no window. *)
Theorem get_bitmap_routes (rl : OSSL_RECORD_LAYER) (rr : SSL3_RECORD)
  (Hep : 0 <= rl_epoch rl < 65536) :
  (dtls_get_bitmap rl rr = (Some ref_next_bitmap, 1) <-> routes_to_next rl rr)
  /\ (fst (dtls_get_bitmap rl rr) = Some ref_next_bitmap
      <-> routes_to_next rl rr)
  /\ (snd (dtls_get_bitmap rl rr) = 1 <-> routes_to_next rl rr)
  /\ (rr_epoch rr = rl_epoch rl ->
      dtls_get_bitmap rl rr = (Some ref_bitmap, 0))
  /\ (rr_epoch rr <> rl_epoch rl -> ~ routes_to_next rl rr ->
      dtls_get_bitmap rl rr = (None, 0)).
Proof.
  pose proof (get_bitmap_next_iff rl rr Hep) as Hiff.
  assert (Hcases :
            dtls_get_bitmap rl rr = (Some ref_bitmap, 0)
            /\ rr_epoch rr = rl_epoch rl
            \/ dtls_get_bitmap rl rr = (Some ref_next_bitmap, 1)
            \/ dtls_get_bitmap rl rr = (None, 0)
               /\ rr_epoch rr <> rl_epoch rl).
  { unfold dtls_get_bitmap.
    destruct (Z.eqb_spec (rr_epoch rr) (rl_epoch rl)) as [He | He];
      [left; split; [reflexivity | exact He] | right].
    match goal with
    | |- context [if ?c then _ else _] => destruct c
    end; [left; reflexivity | right; split; [reflexivity | exact He]]. }
  split; [exact Hiff | ].
  split.
  { split.
    - intros Hf. apply Hiff.
      destruct Hcases as [[Hc _] | [Hc | [Hc _]]]; rewrite Hc in Hf |- *;
        simpl in Hf; try discriminate Hf; reflexivity.
    - intros Hn. apply Hiff in Hn. rewrite Hn. reflexivity. }
  split.
  { split.
    - intros Hs. apply Hiff.
      destruct Hcases as [[Hc _] | [Hc | [Hc _]]]; rewrite Hc in Hs |- *;
        simpl in Hs; try discriminate Hs; reflexivity.
    - intros Hn. apply Hiff in Hn. rewrite Hn. reflexivity. }
  split.
  { intros He. unfold dtls_get_bitmap.
    replace (rr_epoch rr =? rl_epoch rl) with true
      by (symmetry; apply Z.eqb_eq; exact He).
    reflexivity. }
  intros He Hn.
  destruct Hcases as [[_ Hc] | [Hc | [Hc _]]];
    [contradiction | apply Hiff in Hc; contradiction | exact Hc].
Qed.

(** Witness of [get_bitmap_routes]: the fresh epoch-3 layer and a
    handshake record of epoch 4. *)
Lemma get_bitmap_routes_witness :
  0 <= rl_epoch layer3 < 65536
  /\ dtls_get_bitmap layer3 handshake_epoch4 = (Some ref_next_bitmap, 1).
Proof.
  assert (Hep : 0 <= rl_epoch layer3 < 65536) by (simpl; lia).
  split; [exact Hep | ].
  apply (proj1 (get_bitmap_routes layer3 handshake_epoch4 Hep)).
  unfold routes_to_next. vm_compute.
  repeat split; try discriminate. left. reflexivity.
Defined.

(** C1 as the specification words it fails: with the unprocessed queue
    stamped with the current epoch, a handshake record of the next
    epoch meets the stated condition and yet gets no window; and on the
    freshly built layer, whose unprocessed queue is stamped with the
    next epoch, the same record gets the next-epoch window although the
    stated condition does not hold. *)
Lemma get_bitmap_equal_epoch_counterexample :
  (rr_epoch handshake_epoch4 = rl_epoch layer3_same_epoch + 1
   /\ rq_epoch (rl_unprocessed_rcds layer3_same_epoch)
      = rl_epoch layer3_same_epoch
   /\ rr_type handshake_epoch4 = SSL3_RT_HANDSHAKE
   /\ dtls_get_bitmap layer3_same_epoch handshake_epoch4 = (None, 0))
  /\ (rq_epoch (rl_unprocessed_rcds layer3) <> rl_epoch layer3
      /\ dtls_get_bitmap layer3 handshake_epoch4 = (Some ref_next_bitmap, 1)).
Proof.
  vm_compute. repeat split; discriminate.
Qed.

(** Witness of [satsub64be_saturating]: 5 against 300 saturates at
    -128. *)
Lemma satsub64be_saturating_witness :
  length (seq64 5) = 8%nat /\ length (seq64 300) = 8%nat
  /\ satsub64be (seq64 5) (seq64 300) = -128.
Proof.
  split; [reflexivity | split; [reflexivity | ]].
  apply (satsub64be_saturating (seq64 5) (seq64 300) eq_refl eq_refl).
Defined.

Lemma n2s_range (c : list byte) : 0 <= n2s c < 65536.
Proof.
  unfold n2s.
  pose proof (byte_at_range c 0) as H0. pose proof (byte_at_range c 1) as H1.
  rewrite Z.shiftl_mul_pow2 by lia.
  rewrite (lor_high_low (byte_at c 0) (byte_at c 1) 8) by lia.
  lia.
Qed.

Lemma parse_header_epoch (rl : OSSL_RECORD_LAYER) :
  rl_epoch (parse_header rl) = rl_epoch rl
  /\ 0 <= rr_epoch (rl_rrec (parse_header rl)) < 65536.
Proof.
  unfold parse_header. simpl. split; [reflexivity | apply n2s_range].
Qed.

(** C10: at current epoch 65535 the successor epoch is computed as
    65536, not 0, so no record whose epoch fits the 16 bits of the
    header is routed to the next-epoch window; a record of epoch 0 gets
    no window at all. *)
Theorem get_bitmap_last_epoch (rl : OSSL_RECORD_LAYER) (rr : SSL3_RECORD)
  (Hmax : rl_epoch rl = 65535) (Hrr : 0 <= rr_epoch rr < 65536) :
  to_uint64 (to_int (rl_epoch rl + 1)) = 65536
  /\ fst (dtls_get_bitmap rl rr) <> Some ref_next_bitmap
  /\ snd (dtls_get_bitmap rl rr) = 0
  /\ (rr_epoch rr = 0 -> dtls_get_bitmap rl rr = (None, 0))
  /\ (forall rl0, rl_epoch rl0 = 65535 ->
      fst (dtls_get_bitmap (parse_header rl0) (rl_rrec (parse_header rl0)))
      <> Some ref_next_bitmap).
Proof.
  assert (Hgen : forall l r, rl_epoch l = 65535 -> 0 <= rr_epoch r < 65536 ->
                 dtls_get_bitmap l r = (Some ref_bitmap, 0)
                 /\ rr_epoch r = 65535
                 \/ dtls_get_bitmap l r = (None, 0) /\ rr_epoch r <> 65535).
  { intros l r Hl Hr. unfold dtls_get_bitmap.
    rewrite next_epoch_value by lia. rewrite Hl.
    destruct (Z.eqb_spec (rr_epoch r) 65535) as [He | He];
      [left; split; [reflexivity | exact He] | right].
    replace (rr_epoch r =? 65535 + 1) with false
      by (symmetry; apply Z.eqb_neq; lia).
    simpl. split; [reflexivity | exact He]. }
  assert (Hfst : forall l r, rl_epoch l = 65535 -> 0 <= rr_epoch r < 65536 ->
                 fst (dtls_get_bitmap l r) <> Some ref_next_bitmap
                 /\ snd (dtls_get_bitmap l r) = 0).
  { intros l r Hl Hr.
    destruct (Hgen l r Hl Hr) as [[Hc _] | [Hc _]]; rewrite Hc; simpl;
      split; try discriminate; reflexivity. }
  split; [rewrite next_epoch_value by lia; rewrite Hmax; reflexivity | ].
  split; [apply (Hfst rl rr Hmax Hrr) | ].
  split; [apply (Hfst rl rr Hmax Hrr) | ].
  split.
  - intros H0.
    destruct (Hgen rl rr Hmax Hrr) as [[_ He] | [Hc _]]; [lia | exact Hc].
  - intros rl0 H0.
    destruct (parse_header_epoch rl0) as [Hp Hr].
    apply Hfst; [rewrite Hp; exact H0 | exact Hr].
Qed.

(** Witness of [get_bitmap_last_epoch]: a handshake record of epoch 0
    at current epoch 65535. *)
Lemma get_bitmap_last_epoch_witness :
  rl_epoch layer_max_epoch = 65535
  /\ 0 <= rr_epoch handshake_epoch0 < 65536
  /\ dtls_get_bitmap layer_max_epoch handshake_epoch0 = (None, 0).
Proof.
  assert (Hrr : 0 <= rr_epoch handshake_epoch0 < 65536) by (simpl; lia).
  split; [reflexivity | split; [exact Hrr | ]].
  apply (get_bitmap_last_epoch layer_max_epoch handshake_epoch0 eq_refl Hrr).
  reflexivity.
Defined.

Section Construction.

Variable tls_int_new_record_layer : Z -> Z * OSSL_RECORD_LAYER.
Variable pqueue_new_result : nat -> option pqueue.
Variable set_crypto_state : OSSL_RECORD_LAYER -> Z.

(** A layer that [dtls_new_record_layer] hands out has its unprocessed
    queue stamped with an epoch other than its own, so a handshake or
    alert record of the next epoch is routed to the next-epoch
    window. *)
Lemma new_record_layer_epochs (vers epoch ret : Z) (rl : OSSL_RECORD_LAYER) :
  0 <= epoch < 65536 ->
  dtls_new_record_layer tls_int_new_record_layer pqueue_new_result
    set_crypto_state vers epoch = (ret, Some rl) ->
  rl_epoch rl = epoch
  /\ rq_epoch (rl_unprocessed_rcds rl) = to_ushort (epoch + 1)
  /\ rq_epoch (rl_unprocessed_rcds rl) <> rl_epoch rl
  /\ rl_in_init rl = 1.
Proof.
  intros Hep Hnew. unfold dtls_new_record_layer in Hnew.
  destruct (tls_int_new_record_layer vers) as [ret0 rl0].
  destruct (negb (ret0 =? OSSL_RECORD_RETURN_SUCCESS)); [discriminate Hnew | ].
  cbv zeta in Hnew. simpl rl_unprocessed_rcds in Hnew.
  simpl rl_processed_rcds in Hnew. simpl rq_q in Hnew.
  destruct (pqueue_new_result 0); [ | discriminate Hnew].
  destruct (pqueue_new_result 1); [ | discriminate Hnew].
  destruct ((vers =? DTLS_ANY_VERSION) || (vers =? DTLS1_2_VERSION)
            || (vers =? DTLS1_VERSION) || (vers =? DTLS1_BAD_VER));
    [ | discriminate Hnew].
  match type of Hnew with
  | context [if negb (?c =? _) then _ else _] =>
      destruct (negb (c =? OSSL_RECORD_RETURN_SUCCESS)); [discriminate Hnew | ]
  end.
  inversion Hnew; subst. simpl.
  repeat split; try reflexivity.
  unfold to_ushort. change (2 ^ 16) with 65536.
  destruct (Z.eq_dec epoch 65535) as [-> | Hne]; [discriminate | ].
  rewrite Z.mod_small by lia. lia.
Qed.

End Construction.

(** ** RecordPipeline: the replay window is updated last *)

(** Case analysis on the innermost test of a term. *)
Ltac break_inner t :=
  match t with
  | context [match ?x with _ => _ end] => break_inner x
  | context [if ?c then _ else _] => break_inner c
  | _ => destruct t eqn:?
  end.

Ltac inject_results :=
  repeat match goal with
         | H : inl _ = inl _ |- _ => inversion H; subst; clear H
         | H : inr _ = inr _ |- _ => inversion H; subst; clear H
         | H : Some _ = Some _ |- _ => inversion H; subst; clear H
         | H : (_, _) = (_, _) |- _ => inversion H; subst; clear H
         end.

Ltac break_branches :=
  repeat match goal with
         | |- context [match ?x with _ => _ end] => break_inner x
         | |- context [if ?c then _ else _] => break_inner c
         | H : context [match ?x with _ => _ end] |- _ => break_inner x
         | H : context [if ?c then _ else _] |- _ => break_inner c
         end;
  try discriminate; inject_results.

Lemma same_windows_refl (rl : OSSL_RECORD_LAYER) : same_windows rl rl.
Proof. split; reflexivity. Qed.

Lemma same_windows_trans (a b c : OSSL_RECORD_LAYER) :
  same_windows a b -> same_windows b c -> same_windows a c.
Proof. intros [H1 H2] [H3 H4]. split; congruence. Qed.

Section RecordLayerProperties.

Variable SSL3_RT_MAX_ENCRYPTED_LENGTH : Z.
Variable SSL3_RT_MAX_COMPRESSED_LENGTH : Z.
Variable SSL3_RT_MAX_ENCRYPTED_OVERHEAD : Z.
Variable EVP_MAX_MD_SIZE : Z.
Variable mac : OSSL_RECORD_LAYER -> SSL3_RECORD -> Z -> Z * list byte.
Variable cipher :
  OSSL_RECORD_LAYER -> SSL3_RECORD -> Z -> Z -> Z -> cipher_result.
Variable tls_do_uncompress :
  OSSL_RECORD_LAYER -> SSL3_RECORD -> bool * SSL3_RECORD.
Variable read_n :
  OSSL_RECORD_LAYER -> Z -> Z -> Z -> Z -> Z * Z * OSSL_RECORD_LAYER.
Variable tls_setup_read_buffer :
  OSSL_RECORD_LAYER -> bool * OSSL_RECORD_LAYER.
Variable OPENSSL_malloc_ok : OSSL_RECORD_LAYER -> bool.
Variable pitem_new_ok : OSSL_RECORD_LAYER -> bool.
Variable BIO_write_ex_ok : list (list byte) -> list byte -> bool.
Variable tls_free : OSSL_RECORD_LAYER -> Z.

Local Abbreviation process_mac_size' := (process_mac_size EVP_MAX_MD_SIZE).
Local Abbreviation process_finish' :=
  (process_finish SSL3_RT_MAX_COMPRESSED_LENGTH tls_do_uncompress).
Local Abbreviation process_decrypt' :=
  (process_decrypt SSL3_RT_MAX_COMPRESSED_LENGTH mac cipher tls_do_uncompress).
Local Abbreviation dtls_process_record' :=
  (dtls_process_record SSL3_RT_MAX_ENCRYPTED_LENGTH
     SSL3_RT_MAX_COMPRESSED_LENGTH EVP_MAX_MD_SIZE mac cipher
     tls_do_uncompress).
Local Abbreviation authenticated' :=
  (authenticated SSL3_RT_MAX_COMPRESSED_LENGTH EVP_MAX_MD_SIZE mac cipher).
Local Abbreviation process_and_deliver' :=
  (process_and_deliver SSL3_RT_MAX_ENCRYPTED_LENGTH
     SSL3_RT_MAX_COMPRESSED_LENGTH EVP_MAX_MD_SIZE mac cipher
     tls_do_uncompress).

Lemma process_finish_windows (rl : OSSL_RECORD_LAYER) (b : bitmap_ref) :
  (fst (process_finish' rl b) = 0 \/ fst (process_finish' rl b) = 1)
  /\ (fst (process_finish' rl b) = 0 ->
      same_windows rl (snd (process_finish' rl b))).
Proof.
  unfold process_finish. cbv zeta.
  break_branches; simpl; (split; [auto | ]); intros H;
    try discriminate H; split; reflexivity.
Qed.

Lemma process_decrypt_windows (rl : OSSL_RECORD_LAYER) (b : bitmap_ref)
  (ms : Z) :
  (fst (process_decrypt' rl b ms) = 0 \/ fst (process_decrypt' rl b ms) = 1)
  /\ (fst (process_decrypt' rl b ms) = 0 ->
      same_windows rl (snd (process_decrypt' rl b ms))).
Proof.
  unfold process_decrypt. cbv zeta.
  destruct (process_finish_windows (after_cipher rl (cipher rl (rl_rrec rl) 1 0 ms)) b)
    as [Hv Hw].
  break_branches; simpl; (split; [auto | ]); intros H;
    try discriminate H; try (split; reflexivity).
  all: apply same_windows_trans
         with (after_cipher rl (cipher rl (rl_rrec rl) 1 0 ms));
    [split; reflexivity | apply Hw; exact H].
Qed.

(** What [dtls_process_record] returns is 0 or 1, and on 0 both replay
    windows are as they were. *)
Lemma process_record_windows (rl : OSSL_RECORD_LAYER) (b : bitmap_ref) :
  (fst (dtls_process_record' rl b) = 0 \/ fst (dtls_process_record' rl b) = 1)
  /\ (fst (dtls_process_record' rl b) = 0 ->
      same_windows rl (snd (dtls_process_record' rl b))).
Proof.
  unfold dtls_process_record. cbv zeta.
  destruct (SSL3_RT_MAX_ENCRYPTED_LENGTH <? rr_length (rl_rrec (process_input rl)));
    [split; [left; reflexivity | intros _; split; reflexivity] | ].
  destruct (process_mac_size' (process_prepare (process_input rl))) as [ms | ];
    [ | split; [left; reflexivity | intros _; split; reflexivity]].
  destruct (etm_active (process_prepare (process_input rl))).
  - destruct (rr_orig_len (rl_rrec (process_prepare (process_input rl))) <? ms);
      [split; [left; reflexivity | intros _; split; reflexivity] | ].
    match goal with
    | |- context [if ?c then _ else _] => destruct c
    end; [split; [left; reflexivity | intros _; split; reflexivity] | ].
    destruct (process_decrypt_windows
                (process_strip_mac (process_prepare (process_input rl)) ms) b 0)
      as [Hv Hw].
    split; [exact Hv | intros H].
    apply same_windows_trans
      with (process_strip_mac (process_prepare (process_input rl)) ms);
      [split; reflexivity | apply Hw; exact H].
  - destruct (process_decrypt_windows (process_prepare (process_input rl)) b ms)
      as [Hv Hw].
    split; [exact Hv | intros H].
    apply same_windows_trans with (process_prepare (process_input rl));
      [split; reflexivity | apply Hw; exact H].
Qed.

(** A record is delivered only if it passed decryption and MAC
    verification. *)
Lemma process_record_success_authenticated (rl : OSSL_RECORD_LAYER)
  (b : bitmap_ref) :
  fst (dtls_process_record' rl b) = 1 -> authenticated' rl = true.
Proof.
  unfold dtls_process_record, authenticated, cipher_call, process_decrypt.
  cbv zeta. intros H.
  destruct (SSL3_RT_MAX_ENCRYPTED_LENGTH <? rr_length (rl_rrec (process_input rl)));
    [discriminate H | ].
  destruct (process_mac_size' (process_prepare (process_input rl))) as [ms | ];
    [ | discriminate H].
  assert (Htail : forall rl1 ms',
             fst (process_decrypt' rl1 b ms') = 1 ->
             let c := cipher rl1 (rl_rrec rl1) 1 0 ms' in
             let rl2 := after_cipher rl1 c in
             negb (c_ret c =? 0)
             && (if mte_active rl2
                 then negb (mte_mac_bad (c_macbuf c) (mac rl2 (rl_rrec rl2) 0) ms')
                      && negb (SSL3_RT_MAX_COMPRESSED_LENGTH + ms'
                               <? rr_length (rl_rrec rl2))
                 else true) = true).
  { intros rl1 ms'. unfold process_decrypt. cbv zeta. intros H1.
    destruct (c_ret (cipher rl1 (rl_rrec rl1) 1 0 ms') =? 0) eqn:Ec.
    { destruct (negb (alert_eqb
                        (rl_alert (after_cipher rl1 (cipher rl1 (rl_rrec rl1) 1 0 ms')))
                        SSL_AD_NO_ALERT)); discriminate H1. }
    destruct (mte_active (after_cipher rl1 (cipher rl1 (rl_rrec rl1) 1 0 ms')));
      [ | reflexivity].
    destruct (mte_mac_bad (c_macbuf (cipher rl1 (rl_rrec rl1) 1 0 ms'))
                (mac (after_cipher rl1 (cipher rl1 (rl_rrec rl1) 1 0 ms'))
                     (rl_rrec (after_cipher rl1 (cipher rl1 (rl_rrec rl1) 1 0 ms')))
                     0) ms');
      destruct (SSL3_RT_MAX_COMPRESSED_LENGTH + ms'
                <? rr_length
                     (rl_rrec (after_cipher rl1 (cipher rl1 (rl_rrec rl1) 1 0 ms'))));
      cbn [Z.eqb fst] in H1; try discriminate H1;
      try (rewrite Ec in H1; discriminate H1); reflexivity. }
  destruct (etm_active (process_prepare (process_input rl))).
  - destruct (rr_orig_len (rl_rrec (process_prepare (process_input rl))) <? ms);
      [discriminate H | ].
    match type of H with
    | context [if etm_mac_bad ?a ?b ?c then _ else _] =>
        destruct (etm_mac_bad a b c); [discriminate H | ]
    end.
    cbn [negb andb]. apply (Htail _ _ H).
  - cbn [negb andb]. apply (Htail _ _ H).
Qed.

(** On success the final state is the replay update applied to a state
    whose windows are still the original ones. *)
Lemma process_record_success_commits (rl : OSSL_RECORD_LAYER) (b : bitmap_ref) :
  fst (dtls_process_record' rl b) = 1 ->
  exists rl3, same_windows rl rl3
              /\ snd (dtls_process_record' rl b)
                 = dtls_record_bitmap_update rl3 b.
Proof.
  assert (Hfin : forall rl1, fst (process_finish' rl1 b) = 1 ->
                 exists rl3, same_windows rl1 rl3
                             /\ snd (process_finish' rl1 b)
                                = dtls_record_bitmap_update rl3 b).
  { intros rl1. unfold process_finish. cbv zeta. intros H.
    break_branches; simpl in H; try discriminate H; simpl;
      eexists; (split; [ | reflexivity]); split; reflexivity. }
  assert (Hdec : forall rl1 ms, fst (process_decrypt' rl1 b ms) = 1 ->
                 exists rl3, same_windows rl1 rl3
                             /\ snd (process_decrypt' rl1 b ms)
                                = dtls_record_bitmap_update rl3 b).
  { intros rl1 ms. unfold process_decrypt. cbv zeta. intros H.
    destruct (c_ret (cipher rl1 (rl_rrec rl1) 1 0 ms) =? 0).
    { break_branches. }
    match type of H with
    | context [if ?c =? 0 then _ else process_finish' ?r b] =>
        destruct (c =? 0); [discriminate H | ];
        destruct (Hfin r H) as [rl3 [Hw He]]
    end.
    exists rl3. split; [ | exact He].
    apply same_windows_trans
      with (after_cipher rl1 (cipher rl1 (rl_rrec rl1) 1 0 ms));
      [split; reflexivity | exact Hw]. }
  unfold dtls_process_record. cbv zeta. intros H.
  destruct (SSL3_RT_MAX_ENCRYPTED_LENGTH <? rr_length (rl_rrec (process_input rl)));
    [discriminate H | ].
  destruct (process_mac_size' (process_prepare (process_input rl))) as [ms | ];
    [ | discriminate H].
  destruct (etm_active (process_prepare (process_input rl))).
  - destruct (rr_orig_len (rl_rrec (process_prepare (process_input rl))) <? ms);
      [discriminate H | ].
    match type of H with
    | context [if etm_mac_bad ?a ?b ?c then _ else _] =>
        destruct (etm_mac_bad a b c); [discriminate H | ]
    end.
    destruct (Hdec _ _ H) as [rl3 [Hw He]].
    exists rl3. split; [ | exact He].
    apply same_windows_trans
      with (process_strip_mac (process_prepare (process_input rl)) ms);
      [split; reflexivity | exact Hw].
  - destruct (Hdec _ _ H) as [rl3 [Hw He]].
    exists rl3. split; [ | exact He].
    apply same_windows_trans with (process_prepare (process_input rl));
      [split; reflexivity | exact Hw].
Qed.

(** C3: the replay window is updated only once the record has passed
    decryption and MAC verification. Whenever record processing fails
    (returns 0: MAC mismatch under encrypt-then-MAC, decrypt failure,
    MAC mismatch under MAC-then-encrypt, decompression failure,
    overflow) both replay windows are unchanged; a record that did not
    pass authentication fails; and on success the last step is the
    replay update. *)
Theorem replay_window_untouched_on_failure (rl : OSSL_RECORD_LAYER)
  (b : bitmap_ref) :
  let r := dtls_process_record' rl b in
  (fst r = 0 \/ fst r = 1)
  /\ (fst r = 0 -> same_windows rl (snd r))
  /\ (authenticated' rl = false -> fst r = 0 /\ same_windows rl (snd r))
  /\ (~ same_windows rl (snd r) -> fst r = 1 /\ authenticated' rl = true)
  /\ (fst r = 1 ->
      exists rl3, same_windows rl rl3
                  /\ snd r = dtls_record_bitmap_update rl3 b).
Proof.
  intros r.
  destruct (process_record_windows rl b) as [Hv Hw]. fold r in Hv, Hw.
  pose proof (process_record_success_authenticated rl b) as Ha. fold r in Ha.
  split; [exact Hv | ].
  split; [exact Hw | ].
  split.
  { intros Hf. assert (H0 : fst r = 0).
    { destruct Hv as [H0 | H1]; [exact H0 | ].
      rewrite (Ha H1) in Hf. discriminate Hf. }
    split; [exact H0 | exact (Hw H0)]. }
  split.
  { intros Hn. assert (H1 : fst r = 1).
    { destruct Hv as [H0 | H1]; [ | exact H1].
      exfalso. apply Hn. exact (Hw H0). }
    split; [exact H1 | exact (Ha H1)]. }
  intros H1. apply process_record_success_commits. exact H1.
Qed.

(** ** RecordPipeline: MAC failures by mode *)

Lemma prepared_lengths (rl : OSSL_RECORD_LAYER) :
  rr_length (rl_rrec (process_input rl)) = rr_length (rl_rrec rl)
  /\ rr_orig_len (rl_rrec (process_prepare (process_input rl)))
     = rr_length (rl_rrec rl)
  /\ rl_use_etm (process_prepare (process_input rl)) = rl_use_etm rl.
Proof. repeat split; reflexivity. Qed.

(** C6: a MAC failure is handled by mode. With encrypt-then-MAC active
    and a MAC context present, a record shorter than the MAC raises a
    fatal decode_error and a MAC mismatch raises a fatal bad_record_mac,
    both returned to the caller as fatal. With MAC-then-encrypt, a
    decrypt failure or a MAC mismatch (the cipher having raised no
    alert) discards the record silently: no alert, the packet reset,
    and the loop goes on to the next record. *)
Theorem mac_failure_by_mode (rl : OSSL_RECORD_LAYER) (b : bitmap_ref) (ms : Z)
  (Hlen : rr_length (rl_rrec rl) <= SSL3_RT_MAX_ENCRYPTED_LENGTH)
  (Hms : process_mac_size' (process_prepare (process_input rl)) = Some ms) :
  let rl0 := process_prepare (process_input rl) in
  (etm_active rl0 = true ->
   (rr_length (rl_rrec rl) < ms ->
    process_and_deliver' rl b
    = Return OSSL_RECORD_RETURN_FATAL
        (RLAYERfatal rl0 SSL_AD_DECODE_ERROR SSL_R_LENGTH_TOO_SHORT))
   /\ (ms <= rr_length (rl_rrec rl) ->
       let rl1 := process_strip_mac rl0 ms in
       etm_mac_bad (mac rl1 (rl_rrec rl1) 0)
         (skipn (Z.to_nat (rr_length (rl_rrec rl1))) (rr_data (rl_rrec rl1)))
         ms = true ->
       process_and_deliver' rl b
       = Return OSSL_RECORD_RETURN_FATAL
           (RLAYERfatal rl1 SSL_AD_BAD_RECORD_MAC
              SSL_R_DECRYPTION_FAILED_OR_BAD_RECORD_MAC)))
  /\ (rl_use_etm rl = false ->
      let c := cipher rl0 (rl_rrec rl0) 1 0 ms in
      let rl2 := after_cipher rl0 c in
      c_alert c = SSL_AD_NO_ALERT ->
      c_ret c = 0
      \/ (mte_active rl2 = true
          /\ mte_mac_bad (c_macbuf c) (mac rl2 (rl_rrec rl2) 0) ms = true) ->
      process_and_deliver' rl b = discard rl2
      /\ rl_alert rl2 = SSL_AD_NO_ALERT).
Proof.
  intros rl0.
  destruct (prepared_lengths rl) as [Hl [Ho Hu]].
  assert (Hchk : (SSL3_RT_MAX_ENCRYPTED_LENGTH
                  <? rr_length (rl_rrec (process_input rl))) = false)
    by (apply Z.ltb_ge; rewrite Hl; exact Hlen).
  split.
  - intros Hetm. split.
    + intros Hshort.
      unfold process_and_deliver, dtls_process_record. cbv zeta.
      rewrite Hchk, Hms. fold rl0. rewrite Hetm.
      replace (rr_orig_len (rl_rrec rl0) <? ms) with true
        by (symmetry; apply Z.ltb_lt; unfold rl0; rewrite Ho; exact Hshort).
      reflexivity.
    + intros Hlong rl1 Hbad.
      unfold process_and_deliver, dtls_process_record. cbv zeta.
      rewrite Hchk, Hms. fold rl0. rewrite Hetm.
      replace (rr_orig_len (rl_rrec rl0) <? ms) with false
        by (symmetry; apply Z.ltb_ge; unfold rl0; rewrite Ho; exact Hlong).
      fold rl1. rewrite Hbad. reflexivity.
  - intros Hnoetm c rl2 Hal Hfail.
    assert (Hetm : etm_active rl0 = false).
    { unfold etm_active, rl0. rewrite Hu, Hnoetm. reflexivity. }
    assert (Hal2 : rl_alert rl2 = SSL_AD_NO_ALERT) by exact Hal.
    split; [ | exact Hal2].
    unfold process_and_deliver, dtls_process_record. cbv zeta.
    rewrite Hchk, Hms. fold rl0. rewrite Hetm.
    unfold process_decrypt. cbv zeta. fold c. fold rl2.
    rewrite Hal2. cbn [alert_eqb negb].
    assert (Hreset :
              (let '(ok, rl') :=
                 (0, set_rl_packet_length 0
                       (set_rl_rrec (set_rr_length 0 (rl_rrec rl2)) rl2)) in
               if ok =? 0
               then if negb (alert_eqb (rl_alert rl') SSL_AD_NO_ALERT)
                    then Return OSSL_RECORD_RETURN_FATAL rl'
                    else discard rl'
               else Return OSSL_RECORD_RETURN_SUCCESS (set_rl_num_recs 1 rl'))
              = discard rl2).
    { cbn [Z.eqb].
      change (rl_alert (set_rl_packet_length 0
                          (set_rl_rrec (set_rr_length 0 (rl_rrec rl2)) rl2)))
        with (rl_alert rl2).
      rewrite Hal2. reflexivity. }
    destruct (Z.eqb_spec (c_ret c) 0) as [Hz | Hnz].
    + exact Hreset.
    + destruct Hfail as [Hz | [Hmte Hbad]]; [contradiction | ].
      rewrite Hmte, Hbad.
      destruct (SSL3_RT_MAX_COMPRESSED_LENGTH + ms <? rr_length (rl_rrec rl2));
        cbn [Z.eqb]; exact Hreset.
Qed.

(** ** The read path *)

Local Abbreviation check_header' :=
  (check_header SSL3_RT_MAX_ENCRYPTED_LENGTH SSL3_RT_MAX_ENCRYPTED_OVERHEAD).
Local Abbreviation get_header' :=
  (get_header SSL3_RT_MAX_ENCRYPTED_LENGTH SSL3_RT_MAX_ENCRYPTED_OVERHEAD
     read_n).
Local Abbreviation get_body' := (get_body read_n).
Local Abbreviation dtls_rlayer_buffer_record' :=
  (dtls_rlayer_buffer_record tls_setup_read_buffer OPENSSL_malloc_ok
     pitem_new_ok).
Local Abbreviation dispatch_record' :=
  (dispatch_record SSL3_RT_MAX_ENCRYPTED_LENGTH SSL3_RT_MAX_COMPRESSED_LENGTH
     EVP_MAX_MD_SIZE mac cipher tls_do_uncompress tls_setup_read_buffer
     OPENSSL_malloc_ok pitem_new_ok).
Local Abbreviation get_more_records_pass' :=
  (get_more_records_pass SSL3_RT_MAX_ENCRYPTED_LENGTH
     SSL3_RT_MAX_COMPRESSED_LENGTH SSL3_RT_MAX_ENCRYPTED_OVERHEAD
     EVP_MAX_MD_SIZE mac cipher tls_do_uncompress read_n
     tls_setup_read_buffer OPENSSL_malloc_ok pitem_new_ok).
Local Abbreviation get_more_records_loop' :=
  (get_more_records_loop SSL3_RT_MAX_ENCRYPTED_LENGTH
     SSL3_RT_MAX_COMPRESSED_LENGTH SSL3_RT_MAX_ENCRYPTED_OVERHEAD
     EVP_MAX_MD_SIZE mac cipher tls_do_uncompress read_n
     tls_setup_read_buffer OPENSSL_malloc_ok pitem_new_ok).
Local Abbreviation dtls_get_more_records' :=
  (dtls_get_more_records SSL3_RT_MAX_ENCRYPTED_LENGTH
     SSL3_RT_MAX_COMPRESSED_LENGTH SSL3_RT_MAX_ENCRYPTED_OVERHEAD
     EVP_MAX_MD_SIZE mac cipher tls_do_uncompress read_n
     tls_setup_read_buffer OPENSSL_malloc_ok pitem_new_ok).

(** With nothing in the processed queue a pass goes to the wire. *)
Lemma pass_without_buffered (rl : OSSL_RECORD_LAYER) :
  rq_items (rl_processed_rcds rl) = [] ->
  get_more_records_pass' rl
  = match get_header' rl with
    | inl r => r
    | inr rl =>
        match get_body' rl with
        | inl r => r
        | inr rl => dispatch_record' rl
        end
    end.
Proof.
  intros Hq. unfold get_more_records_pass, dtls_retrieve_rlayer_buffered_record.
  simpl get_queue_at. rewrite Hq. reflexivity.
Qed.

Lemma loop_again (fuel : nat) (rl rl' : OSSL_RECORD_LAYER) :
  get_more_records_pass' rl = Again rl' ->
  get_more_records_loop' (S fuel) rl = get_more_records_loop' fuel rl'.
Proof. intros H. simpl. rewrite H. reflexivity. Qed.

Lemma loop_return (fuel : nat) (rl rl' : OSSL_RECORD_LAYER) (ret : Z) :
  get_more_records_pass' rl = Return ret rl' ->
  get_more_records_loop' (S fuel) rl = Some (ret, rl').
Proof. intros H. simpl. rewrite H. reflexivity. Qed.

(** What a freshly read header leads to. *)
Lemma get_header_read (rl0 rl1 : OSSL_RECORD_LAYER) (rret n : Z) :
  rl_rstate rl0 <> SSL_ST_READ_BODY
  \/ rl_packet_length rl0 < DTLS1_RT_HEADER_LENGTH ->
  read_n rl0 DTLS1_RT_HEADER_LENGTH (sb_len (rl_rbuf rl0)) 0 1
  = (rret, n, rl1) ->
  OSSL_RECORD_RETURN_SUCCESS <= rret ->
  rl_packet_length rl1 = DTLS1_RT_HEADER_LENGTH ->
  get_header' rl0
  = check_header' (parse_header (set_rl_rstate SSL_ST_READ_BODY rl1)).
Proof.
  intros Hst Hread Hret Hlen. unfold get_header.
  replace (negb (rl_rstate rl0 =? SSL_ST_READ_BODY)
           || (rl_packet_length rl0 <? DTLS1_RT_HEADER_LENGTH)) with true.
  - rewrite Hread.
    replace (rret <? OSSL_RECORD_RETURN_SUCCESS) with false
      by (symmetry; apply Z.ltb_ge; exact Hret).
    rewrite Hlen. reflexivity.
  - symmetry. apply orb_true_iff.
    destruct Hst as [H | H];
      [left; apply negb_true_iff, Z.eqb_neq; exact H
      | right; apply Z.ltb_lt; exact H].
Qed.

(** C8: a record that is not the first on the layer and is not an
    alert, and whose 16-bit header version differs from the layer's
    version, is discarded silently: the pass ends in [goto again] with
    the record length and the packet length reset, no alert raised, no
    record delivered and the deferred queues and replay windows
    untouched. First records and alerts skip this test: with the right
    major version byte and an acceptable length they go on to the body
    whatever the 16-bit version. *)
Theorem version_mismatch_discarded (rl1 : OSSL_RECORD_LAYER) :
  let p := rl_packet rl1 in
  let rl2 := parse_header (set_rl_rstate SSL_ST_READ_BODY rl1) in
  (rl_is_first_record rl1 = false ->
   byte_at p 0 <> SSL3_RT_ALERT ->
   header_version p <> rl_version rl1 ->
   check_header' rl2 = inl (discard rl2)
   /\ (forall rl0 rret n,
         rq_items (rl_processed_rcds rl0) = [] ->
         rl_rstate rl0 <> SSL_ST_READ_BODY
         \/ rl_packet_length rl0 < DTLS1_RT_HEADER_LENGTH ->
         read_n rl0 DTLS1_RT_HEADER_LENGTH (sb_len (rl_rbuf rl0)) 0 1
         = (rret, n, rl1) ->
         OSSL_RECORD_RETURN_SUCCESS <= rret ->
         rl_packet_length rl1 = DTLS1_RT_HEADER_LENGTH ->
         get_more_records_pass' rl0 = Again (discarded rl2)
         /\ forall fuel,
             get_more_records_loop' (S fuel) rl0
             = get_more_records_loop' fuel (discarded rl2))
   /\ rl_packet_length (discarded rl2) = 0
   /\ rr_length (rl_rrec (discarded rl2)) = 0
   /\ rl_alert (discarded rl2) = rl_alert rl1
   /\ rl_num_recs (discarded rl2) = rl_num_recs rl1
   /\ rl_unprocessed_rcds (discarded rl2) = rl_unprocessed_rcds rl1
   /\ rl_processed_rcds (discarded rl2) = rl_processed_rcds rl1
   /\ same_windows rl1 (discarded rl2))
  /\ (rl_is_first_record rl1 = true \/ byte_at p 0 = SSL3_RT_ALERT ->
      byte_at p 1 = (if rl_version rl1 =? DTLS_ANY_VERSION
                     then DTLS1_VERSION_MAJOR
                     else Z.shiftr (rl_version rl1) 8) ->
      rr_length (rl_rrec rl2) <= SSL3_RT_MAX_ENCRYPTED_LENGTH ->
      rr_length (rl_rrec rl2)
      <= rl_max_frag_len rl1 + SSL3_RT_MAX_ENCRYPTED_OVERHEAD ->
      check_header' rl2 = inr rl2).
Proof.
  intros p rl2.
  assert (Hp : rl_packet rl2 = p) by reflexivity.
  assert (Ht : rr_type (rl_rrec rl2) = byte_at p 0) by reflexivity.
  assert (Hf : rl_is_first_record rl2 = rl_is_first_record rl1) by reflexivity.
  assert (Hv : rl_version rl2 = rl_version rl1) by reflexivity.
  assert (Hm : rl_max_frag_len rl2 = rl_max_frag_len rl1) by reflexivity.
  split.
  - intros Hfirst Htype Hver.
    assert (Hchk : check_header' rl2 = inl (discard rl2)).
    { unfold check_header. cbv zeta. rewrite Hp, Ht, Hf, Hv, Hfirst.
      replace (byte_at p 0 =? SSL3_RT_ALERT) with false
        by (symmetry; apply Z.eqb_neq; exact Htype).
      replace (header_version p =? rl_version rl1) with false
        by (symmetry; apply Z.eqb_neq; exact Hver).
      reflexivity. }
    split; [exact Hchk | ].
    split.
    { intros rl0 rret n Hq Hst Hread Hret Hlen.
      assert (Hpass : get_more_records_pass' rl0 = Again (discarded rl2)).
      { rewrite (pass_without_buffered rl0 Hq).
        rewrite (get_header_read rl0 rl1 rret n Hst Hread Hret Hlen).
        fold rl2. rewrite Hchk. reflexivity. }
      split; [exact Hpass | ].
      intros fuel. apply loop_again. exact Hpass. }
    repeat split; reflexivity.
  - intros Hex Hmaj Hl1 Hl2.
    unfold check_header. cbv zeta. rewrite Hp, Ht, Hf, Hv, Hm.
    replace (negb (rl_is_first_record rl1)
             && negb (byte_at p 0 =? SSL3_RT_ALERT)
             && negb (header_version p =? rl_version rl1)) with false.
    + rewrite Hmaj, Z.eqb_refl. cbn [negb].
      replace (SSL3_RT_MAX_ENCRYPTED_LENGTH <? rr_length (rl_rrec rl2))
        with false by (symmetry; apply Z.ltb_ge; exact Hl1).
      replace (rl_max_frag_len rl1 + SSL3_RT_MAX_ENCRYPTED_OVERHEAD
               <? rr_length (rl_rrec rl2))
        with false by (symmetry; apply Z.ltb_ge; exact Hl2).
      reflexivity.
    + symmetry. destruct Hex as [H | H].
      * rewrite H. reflexivity.
      * rewrite H, Z.eqb_refl. cbn [negb]. rewrite andb_false_r. reflexivity.
Qed.

(** What [dtls_rlayer_buffer_record] returns on the unprocessed queue. *)
Lemma buffer_record_cases (rl : OSSL_RECORD_LAYER) (prio : list byte) :
  let size := pqueue_size (rq_items (rl_unprocessed_rcds rl)) in
  let r := dtls_rlayer_buffer_record' rl ref_unprocessed_rcds prio in
  (100 <= size -> r = (0, rl))
  /\ (size < 100 ->
      OPENSSL_malloc_ok rl = false \/ pitem_new_ok rl = false ->
      r = (-1, RLAYERfatal rl SSL_AD_INTERNAL_ERROR ERR_R_INTERNAL_ERROR))
  /\ (size < 100 ->
      OPENSSL_malloc_ok rl = true -> pitem_new_ok rl = true ->
      fst (tls_setup_read_buffer (buffer_handed_over rl)) = false ->
      r = (-1, snd (tls_setup_read_buffer (buffer_handed_over rl))))
  /\ (size < 100 ->
      OPENSSL_malloc_ok rl = true -> pitem_new_ok rl = true ->
      fst (tls_setup_read_buffer (buffer_handed_over rl)) = true ->
      fst r = 1).
Proof.
  intros size r. subst r. unfold dtls_rlayer_buffer_record.
  simpl get_queue_at. fold size.
  repeat split.
  - intros H. replace (100 <=? size) with true
      by (symmetry; apply Z.leb_le; exact H). reflexivity.
  - intros H Hfail. replace (100 <=? size) with false
      by (symmetry; apply Z.leb_gt; exact H).
    destruct Hfail as [Hf | Hf]; rewrite Hf; cbn [negb orb];
      [ | rewrite orb_true_r]; reflexivity.
  - intros H Hm Hp Hs. replace (100 <=? size) with false
      by (symmetry; apply Z.leb_gt; exact H).
    rewrite Hm, Hp. cbn [negb orb]. cbv zeta.
    destruct (tls_setup_read_buffer (buffer_handed_over rl)) as [ok rl'].
    simpl in Hs. subst ok. reflexivity.
  - intros H Hm Hp Hs. replace (100 <=? size) with false
      by (symmetry; apply Z.leb_gt; exact H).
    rewrite Hm, Hp. cbn [negb orb]. cbv zeta.
    destruct (tls_setup_read_buffer (buffer_handed_over rl)) as [ok rl'].
    simpl in Hs. subst ok. cbn [negb].
    destruct (pqueue_insert _ _); reflexivity.
Qed.

(** A next-epoch record that reaches the buffering step during the
    handshake. *)
Lemma dispatch_next_epoch (rl rl1 : OSSL_RECORD_LAYER) (b : bitmap_ref)
  (seen_ok : Z) :
  dtls_get_bitmap rl (rl_rrec rl) = (Some b, 1) ->
  (if negb (rl_is_sctp rl) then dtls_record_replay_check rl b else (1, rl))
  = (seen_ok, rl1) ->
  seen_ok <> 0 ->
  rr_length (rl_rrec rl1) <> 0 ->
  rl_in_init rl1 <> 0 ->
  dispatch_record' rl
  = let r := dtls_rlayer_buffer_record' rl1 ref_unprocessed_rcds
               (rr_seq_num (rl_rrec rl1)) in
    if fst r <? 0 then Return OSSL_RECORD_RETURN_FATAL (snd r)
    else discard (snd r).
Proof.
  intros Hroute Hreplay Hok Hlen Hinit.
  unfold dispatch_record. rewrite Hroute, Hreplay.
  replace (seen_ok =? 0) with false by (symmetry; apply Z.eqb_neq; exact Hok).
  replace (rr_length (rl_rrec rl1) =? 0) with false
    by (symmetry; apply Z.eqb_neq; exact Hlen).
  replace (rl_in_init rl1 =? 0) with false
    by (symmetry; apply Z.eqb_neq; exact Hinit).
  cbn [Z.eqb negb andb]. cbv zeta.
  destruct (dtls_rlayer_buffer_record' rl1 ref_unprocessed_rcds
              (rr_seq_num (rl_rrec rl1))) as [r rl'].
  reflexivity.
Qed.

(** C2, as the code has it: when a next-epoch record arrives during the
    handshake and cannot be queued because an allocation fails, the
    pass returns fatal to the caller with an alert recorded; when the
    unprocessed queue already holds 100 items the record is discarded
    silently instead (no alert, the queue as it was) and the loop goes
    on to the next datagram. *)
Theorem next_epoch_enqueue_failure (rl rl1 : OSSL_RECORD_LAYER)
  (b : bitmap_ref) (seen_ok : Z)
  (Hroute : dtls_get_bitmap rl (rl_rrec rl) = (Some b, 1))
  (Hreplay : (if negb (rl_is_sctp rl)
              then dtls_record_replay_check rl b else (1, rl))
             = (seen_ok, rl1))
  (Hok : seen_ok <> 0)
  (Hlen : rr_length (rl_rrec rl1) <> 0)
  (Hinit : rl_in_init rl1 <> 0) :
  let size := pqueue_size (rq_items (rl_unprocessed_rcds rl1)) in
  let reached rl0 :=
    rq_items (rl_processed_rcds rl0) = []
    /\ exists rlh, get_header' rl0 = inr rlh /\ get_body' rlh = inr rl in
  (size < 100 ->
   OPENSSL_malloc_ok rl1 = false \/ pitem_new_ok rl1 = false ->
   let rlf := RLAYERfatal rl1 SSL_AD_INTERNAL_ERROR ERR_R_INTERNAL_ERROR in
   dispatch_record' rl = Return OSSL_RECORD_RETURN_FATAL rlf
   /\ rl_alert rlf = SSL_AD_INTERNAL_ERROR
   /\ forall rl0 fuel, reached rl0 ->
      get_more_records_loop' (S fuel) rl0
      = Some (OSSL_RECORD_RETURN_FATAL, rlf))
  /\ (size < 100 ->
      OPENSSL_malloc_ok rl1 = true -> pitem_new_ok rl1 = true ->
      fst (tls_setup_read_buffer (buffer_handed_over rl1)) = false ->
      let rlf := snd (tls_setup_read_buffer (buffer_handed_over rl1)) in
      dispatch_record' rl = Return OSSL_RECORD_RETURN_FATAL rlf
      /\ forall rl0 fuel, reached rl0 ->
         get_more_records_loop' (S fuel) rl0
         = Some (OSSL_RECORD_RETURN_FATAL, rlf))
  /\ (100 <= size ->
      dispatch_record' rl = Again (discarded rl1)
      /\ rl_alert (discarded rl1) = rl_alert rl1
      /\ rl_unprocessed_rcds (discarded rl1) = rl_unprocessed_rcds rl1
      /\ forall rl0 fuel, reached rl0 ->
         get_more_records_loop' (S fuel) rl0
         = get_more_records_loop' fuel (discarded rl1)).
Proof.
  intros size reached.
  pose proof (dispatch_next_epoch rl rl1 b seen_ok Hroute Hreplay Hok Hlen Hinit)
    as Hd.
  destruct (buffer_record_cases rl1 (rr_seq_num (rl_rrec rl1)))
    as [Hfull [Halloc [Hsetup _]]].
  fold size in Hfull, Halloc, Hsetup.
  assert (Hpass : forall rl0, reached rl0 ->
                  get_more_records_pass' rl0 = dispatch_record' rl).
  { intros rl0 [Hq [rlh [Hh Hb]]].
    rewrite (pass_without_buffered rl0 Hq), Hh, Hb. reflexivity. }
  split; [ | split].
  - intros Hsize Hfail rlf.
    assert (Hr : dispatch_record' rl = Return OSSL_RECORD_RETURN_FATAL rlf).
    { rewrite Hd. cbv zeta. rewrite (Halloc Hsize Hfail). reflexivity. }
    split; [exact Hr | split; [reflexivity | ]].
    intros rl0 fuel Hreach. apply loop_return.
    rewrite (Hpass rl0 Hreach). exact Hr.
  - intros Hsize Hm Hp Hs rlf.
    assert (Hr : dispatch_record' rl = Return OSSL_RECORD_RETURN_FATAL rlf).
    { rewrite Hd. cbv zeta. rewrite (Hsetup Hsize Hm Hp Hs). reflexivity. }
    split; [exact Hr | ].
    intros rl0 fuel Hreach. apply loop_return.
    rewrite (Hpass rl0 Hreach). exact Hr.
  - intros Hsize.
    assert (Hr : dispatch_record' rl = Again (discarded rl1)).
    { rewrite Hd. cbv zeta. rewrite (Hfull Hsize). reflexivity. }
    split; [exact Hr | ].
    split; [reflexivity | split; [reflexivity | ]].
    intros rl0 fuel Hreach. apply loop_again.
    rewrite (Hpass rl0 Hreach). exact Hr.
Qed.

(** ** Teardown *)

Local Abbreviation BIO_write_ex_next' := (BIO_write_ex_next BIO_write_ex_ok).
Local Abbreviation free_unprocessed' := (free_unprocessed BIO_write_ex_ok).
Local Abbreviation dtls_free' := (dtls_free BIO_write_ex_ok tls_free).

Lemma free_unprocessed_log (pq : pqueue) :
  forall (ret : Z) (rl : OSSL_RECORD_LAYER),
    rl_next (snd (free_unprocessed' pq ret rl))
    = rl_next rl ++ List.map raw_packet pq
    /\ rl_unprocessed_rcds (snd (free_unprocessed' pq ret rl))
       = rl_unprocessed_rcds rl
    /\ rl_processed_rcds (snd (free_unprocessed' pq ret rl))
       = rl_processed_rcds rl.
Proof.
  induction pq as [| item rest IH]; intros ret rl.
  - simpl. rewrite app_nil_r. repeat split; reflexivity.
  - cbn [free_unprocessed]. unfold BIO_write_ex_next. cbv zeta.
    match goal with
    | |- context [free_unprocessed' rest ?r ?l] =>
        destruct (IH r l) as [Hn [Hu Hp]]
    end.
    rewrite Hn, Hu, Hp. cbn [List.map]. simpl rl_next.
    rewrite <- app_assoc. repeat split; reflexivity.
Qed.

End RecordLayerProperties.

Lemma pqueue_insert_sorted (pq : pqueue) :
  forall (item : pitem) (pq' : pqueue),
    StronglySorted (fun a b => priority_value a < priority_value b) pq ->
    pqueue_insert pq item = Some pq' ->
    StronglySorted (fun a b => priority_value a < priority_value b) pq'
    /\ forall x, In x pq' -> x = item \/ In x pq.
Proof.
  induction pq as [| next rest IH]; intros item pq' Hs Hi.
  - simpl in Hi. inversion Hi; subst. split.
    + constructor; [constructor | constructor].
    + intros x [Hx | []]. left. symmetry. exact Hx.
  - simpl in Hi. fold (priority_value item) in Hi.
    fold (priority_value next) in Hi.
    destruct (Z.ltb_spec (priority_value item) (priority_value next))
      as [Hlt | Hge].
    + inversion Hi; subst. split.
      * constructor; [exact Hs | ].
        inversion Hs as [| ? ? Hrest Hall]; subst.
        constructor; [exact Hlt | ].
        rewrite Forall_forall in *. intros x Hx.
        specialize (Hall x Hx). simpl in Hall. lia.
      * intros x [Hx | Hx]; [left; symmetry; exact Hx | right; exact Hx].
    + destruct (Z.eqb_spec (priority_value next) (priority_value item))
        as [Heq | Hne]; [discriminate Hi | ].
      destruct (pqueue_insert rest item) as [rest' | ] eqn:Hr;
        [ | discriminate Hi].
      inversion Hi; subst.
      inversion Hs as [| ? ? Hrest Hall]; subst.
      destruct (IH item rest' Hrest Hr) as [Hs' Hin].
      split.
      * constructor; [exact Hs' | ].
        rewrite Forall_forall in *. intros x Hx.
        destruct (Hin x Hx) as [-> | Hx']; [lia | exact (Hall x Hx')].
      * intros x [Hx | Hx]; [right; left; exact Hx | ].
        destruct (Hin x Hx) as [-> | Hx'];
          [left; reflexivity | right; right; exact Hx'].
Qed.

(** Every queue the layer can hold is in strictly increasing order of
    priority. *)
Lemma pqueue_built_sorted (pq : pqueue) :
  pqueue_built pq ->
  StronglySorted (fun a b => priority_value a < priority_value b) pq.
Proof.
  induction 1 as [| pq pq' item Hb IH Hi | pq pq' item Hb IH Hp].
  - constructor.
  - exact (proj1 (pqueue_insert_sorted pq item pq' IH Hi)).
  - destruct pq as [| x rest]; [discriminate Hp | ].
    simpl in Hp. inversion Hp; subst.
    inversion IH; subst. assumption.
Qed.

Lemma sorted_lt_le (pq : pqueue) :
  StronglySorted (fun a b => priority_value a < priority_value b) pq ->
  StronglySorted (fun a b => priority_value a <= priority_value b) pq.
Proof.
  induction 1 as [| x rest Hs IH Hall]; constructor; [exact IH | ].
  rewrite Forall_forall in *. intros y Hy. specialize (Hall y Hy). lia.
Qed.

Section Teardown.

Variable BIO_write_ex_ok : list (list byte) -> list byte -> bool.
Variable tls_free : OSSL_RECORD_LAYER -> Z.

(** C7: on teardown of a layer whose unprocessed queue holds [k]
    records, what is handed to the successor is first the unread bytes
    left in the read buffer, if any, and then exactly the [k] raw
    packets of the queue, in increasing order of their (epoch, seq)
    priority; the queue is gone afterwards. *)
Theorem teardown_forwards_unprocessed (rl : OSSL_RECORD_LAYER) (pq : pqueue)
  (k : nat)
  (Hq : rq_q (rl_unprocessed_rcds rl) = Some pq)
  (Hbuilt : pqueue_built pq)
  (Hk : length pq = k) :
  let rbuf := rl_rbuf rl in
  let leftover :=
    if 0 <? sb_left rbuf
    then [firstn (Z.to_nat (sb_left rbuf))
            (skipn (Z.to_nat (sb_offset rbuf))
                   (match sb_buf rbuf with Some b => b | None => [] end))]
    else [] in
  let rl' := snd (dtls_free BIO_write_ex_ok tls_free rl) in
  rl_next rl' = rl_next rl ++ leftover ++ List.map raw_packet pq
  /\ length (List.map raw_packet pq) = k
  /\ StronglySorted (fun a b => priority_value a <= priority_value b) pq
  /\ rq_q (rl_unprocessed_rcds rl') = None.
Proof.
  intros rbuf leftover rl'.
  assert (Hsorted : StronglySorted
                      (fun a b => priority_value a <= priority_value b) pq)
    by (apply sorted_lt_le, pqueue_built_sorted; exact Hbuilt).
  split; [ | split; [rewrite length_map; exact Hk | split; [exact Hsorted | ]]].
  - subst rl' leftover. unfold dtls_free. cbv zeta. fold rbuf.
    destruct (0 <? sb_left rbuf).
    + unfold BIO_write_ex_next at 1. cbv zeta.
      simpl rl_unprocessed_rcds. rewrite Hq.
      match goal with
      | |- context [free_unprocessed BIO_write_ex_ok pq ?r ?l] =>
          destruct (free_unprocessed_log BIO_write_ex_ok pq r l) as [Hn [Hu Hp]];
          destruct (free_unprocessed BIO_write_ex_ok pq r l) as [ret1 rl1]
      end.
      simpl in Hn, Hu, Hp.
      simpl. destruct (rq_q (rl_processed_rcds rl1)); simpl; rewrite Hn;
        rewrite <- app_assoc; reflexivity.
    + rewrite Hq.
      match goal with
      | |- context [free_unprocessed BIO_write_ex_ok pq ?r ?l] =>
          destruct (free_unprocessed_log BIO_write_ex_ok pq r l) as [Hn [Hu Hp]];
          destruct (free_unprocessed BIO_write_ex_ok pq r l) as [ret1 rl1]
      end.
      simpl in Hn, Hu, Hp.
      simpl. destruct (rq_q (rl_processed_rcds rl1)); simpl; rewrite Hn;
        reflexivity.
  - subst rl'. unfold dtls_free. cbv zeta. fold rbuf.
    destruct (0 <? sb_left rbuf).
    + unfold BIO_write_ex_next at 1. cbv zeta.
      simpl rl_unprocessed_rcds. rewrite Hq.
      match goal with
      | |- context [free_unprocessed BIO_write_ex_ok pq ?r ?l] =>
          destruct (free_unprocessed BIO_write_ex_ok pq r l) as [ret1 rl1]
      end.
      simpl. destruct (rq_q (rl_processed_rcds rl1)); reflexivity.
    + rewrite Hq.
      match goal with
      | |- context [free_unprocessed BIO_write_ex_ok pq ?r ?l] =>
          destruct (free_unprocessed BIO_write_ex_ok pq r l) as [ret1 rl1]
      end.
      simpl. destruct (rq_q (rl_processed_rcds rl1)); reflexivity.
Qed.

End Teardown.

(** ** The write path *)

Section WritePathProperties.

Variable BIO_get_ktls_send : bool.
Variable BIO_flush : SSL_CONNECTION -> Z.
Variable BIO_write : list (list byte) -> list byte -> Z.

Local Abbreviation write_pending_loop' :=
  (write_pending_loop BIO_get_ktls_send BIO_flush BIO_write).
Local Abbreviation ssl3_write_pending' :=
  (ssl3_write_pending BIO_get_ktls_send BIO_flush BIO_write).
Local Abbreviation dtls_write_records_flush' :=
  (dtls_write_records_flush BIO_get_ktls_send BIO_flush BIO_write).

Lemma bad_write_retry_iff (s : SSL_CONNECTION) (type buf len : Z) :
  bad_write_retry s type buf len = true
  <-> (len < wpend_tot s
       \/ (Z.land (s_mode s) SSL_MODE_ACCEPT_MOVING_WRITE_BUFFER = 0
           /\ wpend_buf s <> buf)
       \/ wpend_type s <> type).
Proof.
  unfold bad_write_retry.
  rewrite !orb_true_iff, andb_true_iff, !negb_true_iff.
  rewrite Z.ltb_lt, !Z.eqb_neq, Z.eqb_eq. tauto.
Qed.

(** The write loop never raises bad_write_retry by itself. *)
Lemma write_pending_loop_reason (fuel : nat) :
  forall (s : SSL_CONNECTION) (wb : SSL3_BUFFER) (type tmpwrit : Z)
         (r : write_result),
    write_pending_loop' fuel s wb type tmpwrit = Some r ->
    s_reason (w_conn r) = SSL_R_BAD_WRITE_RETRY ->
    s_reason s = SSL_R_BAD_WRITE_RETRY.
Proof.
  induction fuel as [| fuel IH]; intros s wb type tmpwrit r Hr Hbad;
    [discriminate Hr | ].
  cbn [write_pending_loop] in Hr. cbv zeta in Hr.
  destruct (s_wbio s).
  - destruct (BIO_get_ktls_send && negb (type =? SSL3_RT_APPLICATION_DATA)
              && (_ <=? 0)).
    + inversion Hr; subst. exact Hbad.
    + break_branches; simpl in Hbad; try exact Hbad;
        match goal with
        | H : write_pending_loop' fuel _ _ _ _ = Some _ |- _ =>
            exact (IH _ _ _ _ _ H Hbad)
        end.
  - break_branches; simpl in Hbad; try discriminate Hbad;
      match goal with
      | H : write_pending_loop' fuel _ _ _ _ = Some _ |- _ =>
          pose proof (IH _ _ _ _ _ H Hbad) as Hx; simpl in Hx;
          discriminate Hx
      end.
Qed.

(** With a BIO that never reports more than it was given, the write
    loop returns: each further round has strictly less left to write. *)
Lemma write_pending_loop_returns
  (Hbio : forall log data, BIO_write log data <= Z.of_nat (length data))
  (fuel : nat) :
  forall (s : SSL_CONNECTION) (wb : SSL3_BUFFER) (type tmpwrit : Z),
    0 <= sb_left wb < 2 ^ 32 ->
    (Z.to_nat (sb_left wb) < fuel)%nat ->
    exists r, write_pending_loop' fuel s wb type tmpwrit = Some r.
Proof.
  induction fuel as [| fuel IH]; intros s wb type tmpwrit Hleft Hfuel;
    [lia | ].
  cbn [write_pending_loop]. cbv zeta.
  destruct (s_wbio s).
  - destruct (BIO_get_ktls_send && negb (type =? SSL3_RT_APPLICATION_DATA)
              && (_ <=? 0)); [eexists; reflexivity | ].
    match goal with
    | |- context [BIO_write ?log ?data] =>
        pose proof (Hbio log data) as Hi;
        assert (Hdata : Z.of_nat (length data) <= sb_left wb);
        [ | set (i := BIO_write log data) in * ]
    end.
    { etransitivity; [apply Nat2Z.inj_le, firstn_le_length | ].
      unfold to_uint. rewrite Z.mod_small by lia. lia. }
    destruct (Z.leb_spec 0 i) as [Hpos | Hneg].
    + cbn [andb].
      destruct (Z.eqb_spec i (sb_left wb)) as [Heq | Hne];
        [eexists; reflexivity | ].
      destruct (Z.leb_spec i 0) as [Hz | Hnz]; [eexists; reflexivity | ].
      apply IH.
      * simpl. unfold to_uint64.
        change (2 ^ 64) with 18446744073709551616.
        change (2 ^ 32) with 4294967296 in *.
        rewrite Z.mod_small by lia. lia.
      * simpl. unfold to_uint64.
        change (2 ^ 64) with 18446744073709551616.
        change (2 ^ 32) with 4294967296 in *.
        rewrite Z.mod_small by lia. lia.
    + cbn [andb].
      destruct (Z.leb_spec i 0) as [Hz | Hnz]; [eexists; reflexivity | lia].
  - cbn [Z.leb Z.compare andb]. eexists. reflexivity.
Qed.

(** C9, as the code has it: a retry is rejected with a fatal
    bad_write_retry exactly when its length is below the memorized
    total, or its buffer differs while moving write buffers are not
    accepted, or its type differs; a rejected retry returns -1 and
    writes nothing. Every other retry, in particular one whose buffer,
    type and length match the memorized ones, goes on to the write loop
    and its result is that of the loop, which never raises
    bad_write_retry and which returns whenever the BIO reports no more
    than it was given; the call [dtls_write_records] makes always
    matches. *)
Theorem write_retry_guard (fuel : nat) (s : SSL_CONNECTION) (wb : SSL3_BUFFER)
  (type buf len : Z) :
  (bad_write_retry s type buf len = true
   <-> (len < wpend_tot s
        \/ (Z.land (s_mode s) SSL_MODE_ACCEPT_MOVING_WRITE_BUFFER = 0
            /\ wpend_buf s <> buf)
        \/ wpend_type s <> type))
  /\ (bad_write_retry s type buf len = true ->
      ssl3_write_pending' fuel s wb type buf len
      = Some (mkWriteResult (-1) None
                (SSLfatal s SSL_AD_INTERNAL_ERROR SSL_R_BAD_WRITE_RETRY) wb))
  /\ (bad_write_retry s type buf len = false ->
      ssl3_write_pending' fuel s wb type buf len
      = write_pending_loop' fuel s wb type 0)
  /\ (wpend_tot s = len -> wpend_buf s = buf -> wpend_type s = type ->
      ssl3_write_pending' fuel s wb type buf len
      = write_pending_loop' fuel s wb type 0)
  /\ (s_reason s <> SSL_R_BAD_WRITE_RETRY ->
      bad_write_retry s type buf len = false ->
      forall r, ssl3_write_pending' fuel s wb type buf len = Some r ->
                s_reason (w_conn r) <> SSL_R_BAD_WRITE_RETRY)
  /\ ((forall log data, BIO_write log data <= Z.of_nat (length data)) ->
      0 <= sb_left wb < 2 ^ 32 -> (Z.to_nat (sb_left wb) < fuel)%nat ->
      bad_write_retry s type buf len = false ->
      exists r, ssl3_write_pending' fuel s wb type buf len = Some r)
  /\ (forall wr_length,
      dtls_write_records_flush' fuel s wb wr_length type buf len
      = write_pending_loop' fuel (set_wpend len buf type len s)
          (set_sb_offset 0 (set_sb_left wr_length wb)) type 0).
Proof.
  split; [apply bad_write_retry_iff | ].
  split; [intros H; unfold ssl3_write_pending; rewrite H; reflexivity | ].
  split; [intros H; unfold ssl3_write_pending; rewrite H; reflexivity | ].
  split.
  { intros Ht Hb Hty. unfold ssl3_write_pending.
    replace (bad_write_retry s type buf len) with false; [reflexivity | ].
    symmetry. apply not_true_iff_false. rewrite bad_write_retry_iff.
    intros [H | [[_ H] | H]]; [lia | contradiction | contradiction]. }
  split.
  { intros Hs Hg r Hr Hbad. unfold ssl3_write_pending in Hr.
    rewrite Hg in Hr. apply Hs.
    exact (write_pending_loop_reason fuel s wb type 0 r Hr Hbad). }
  split.
  { intros Hbio Hleft Hfuel Hg. unfold ssl3_write_pending. rewrite Hg.
    apply write_pending_loop_returns; assumption. }
  intros wr_length. unfold dtls_write_records_flush, ssl3_write_pending.
  cbv zeta.
  replace (bad_write_retry (set_wpend len buf type len s) type buf len)
    with false; [reflexivity | ].
  symmetry. apply not_true_iff_false. rewrite bad_write_retry_iff.
  simpl. intros [H | [[_ H] | H]]; [lia | apply H; reflexivity
                                    | apply H; reflexivity].
Qed.

End WritePathProperties.

(** * The properties on the scenarios *)

(** [layer3] is what the constructor builds for epoch 3. *)
Lemma layer3_constructed :
  dtls_new_record_layer (fun _ => (OSSL_RECORD_RETURN_SUCCESS, layer_raw))
    (fun _ => Some pqueue_new) (fun _ => OSSL_RECORD_RETURN_SUCCESS)
    DTLS1_2_VERSION 3
  = (OSSL_RECORD_RETURN_SUCCESS, Some layer3).
Proof. vm_compute. reflexivity. Qed.

(** Next-epoch buffering: during the handshake at epoch 3, a handshake
    record of epoch 4 is not delivered but queued; the call ends with a
    retry and the unprocessed queue holds one item. *)
Lemma next_epoch_record_is_buffered :
  option_map
    (fun r => (fst r, rl_num_recs (snd r),
               pqueue_size (rq_items (rl_unprocessed_rcds (snd r))),
               rl_alert (snd r)))
    (dtls_get_more_records max_encrypted_length max_compressed_length
       max_encrypted_overhead max_md_size fixed_mac plain_cipher
       no_uncompress dgram_read_n setup_read_buffer_ok alloc_ok alloc_ok
       2 layer3_next)
  = Some (OSSL_RECORD_RETURN_RETRY, 0, 1, SSL_AD_NO_ALERT).
Proof. vm_compute. reflexivity. Qed.

(** Witness of [replay_check_classifies], the window slide: after 1, 2
    and 65 have been accepted, 1 is stale, 2 is a duplicate and 64 is
    fresh. *)
Lemma replay_check_classifies_witness :
  class_of_exit
    (replay_check_exit (seq64 1) (rl_bitmap (accepted [1; 2; 65] layer3)))
  = cls_stale
  /\ fst (dtls_record_replay_check
            (set_rl_sequence (seq64 2) (accepted [1; 2; 65] layer3)) ref_bitmap)
     = 0
  /\ fst (dtls_record_replay_check
            (set_rl_sequence (seq64 64) (accepted [1; 2; 65] layer3)) ref_bitmap)
     = 1.
Proof.
  split; [ | split].
  - apply (replay_check_classifies
             (set_rl_sequence (seq64 1) (accepted [1; 2; 65] layer3))
             ref_bitmap); [reflexivity | reflexivity | vm_compute; discriminate].
  - rewrite (proj1 (proj2 (proj2 (proj2 (proj2 (proj2
               (replay_check_classifies
                  (set_rl_sequence (seq64 2) (accepted [1; 2; 65] layer3))
                  ref_bitmap))))))).
    reflexivity.
  - rewrite (proj1 (proj2 (proj2 (proj2 (proj2 (proj2
               (replay_check_classifies
                  (set_rl_sequence (seq64 64) (accepted [1; 2; 65] layer3))
                  ref_bitmap))))))).
    reflexivity.
Defined.

(** Witness of [replay_window_untouched_on_failure]: a record the cipher
    cannot decrypt leaves both windows as they were. *)
Lemma replay_window_untouched_on_failure_witness :
  fst (dtls_process_record max_encrypted_length max_compressed_length
         max_md_size fixed_mac failing_cipher no_uncompress
         (record_read layer3_mte) ref_bitmap) = 0
  /\ same_windows (record_read layer3_mte)
       (snd (dtls_process_record max_encrypted_length max_compressed_length
               max_md_size fixed_mac failing_cipher no_uncompress
               (record_read layer3_mte) ref_bitmap)).
Proof.
  split; [reflexivity | ].
  apply (proj1 (proj2 (replay_window_untouched_on_failure
                         max_encrypted_length max_compressed_length
                         max_md_size fixed_mac failing_cipher no_uncompress
                         (record_read layer3_mte) ref_bitmap))).
  reflexivity.
Defined.

(** Witness of [mac_failure_by_mode]: the same tampered record is fatal
    under encrypt-then-MAC and silently discarded under
    MAC-then-encrypt. *)
Lemma mac_failure_by_mode_witness :
  (rr_length (rl_rrec (record_read layer3_etm)) <= max_encrypted_length
   /\ process_mac_size max_md_size
        (process_prepare (process_input (record_read layer3_etm))) = Some 4
   /\ process_and_deliver max_encrypted_length max_compressed_length
        max_md_size fixed_mac plain_cipher no_uncompress
        (record_read layer3_etm) ref_bitmap
      = Return OSSL_RECORD_RETURN_FATAL
          (RLAYERfatal
             (process_strip_mac
                (process_prepare (process_input (record_read layer3_etm))) 4)
             SSL_AD_BAD_RECORD_MAC SSL_R_DECRYPTION_FAILED_OR_BAD_RECORD_MAC))
  /\ (rr_length (rl_rrec (record_read layer3_mte)) <= max_encrypted_length
      /\ process_mac_size max_md_size
           (process_prepare (process_input (record_read layer3_mte))) = Some 4
      /\ process_and_deliver max_encrypted_length max_compressed_length
           max_md_size fixed_mac plain_cipher no_uncompress
           (record_read layer3_mte) ref_bitmap
         = discard
             (after_cipher
                (process_prepare (process_input (record_read layer3_mte)))
                (plain_cipher
                   (process_prepare (process_input (record_read layer3_mte)))
                   (rl_rrec (process_prepare
                               (process_input (record_read layer3_mte))))
                   1 0 4))).
Proof.
  assert (He : rr_length (rl_rrec (record_read layer3_etm))
               <= max_encrypted_length) by (vm_compute; discriminate).
  assert (Hm : rr_length (rl_rrec (record_read layer3_mte))
               <= max_encrypted_length) by (vm_compute; discriminate).
  split; (split; [assumption | split; [reflexivity | ]]).
  - apply (proj1 (mac_failure_by_mode
                    max_encrypted_length max_compressed_length max_md_size
                    fixed_mac plain_cipher no_uncompress
                    (record_read layer3_etm) ref_bitmap 4 He eq_refl)).
    + reflexivity.
    + vm_compute. discriminate.
    + reflexivity.
  - apply (proj2 (mac_failure_by_mode
                    max_encrypted_length max_compressed_length max_md_size
                    fixed_mac plain_cipher no_uncompress
                    (record_read layer3_mte) ref_bitmap 4 Hm eq_refl)).
    + reflexivity.
    + reflexivity.
    + right. split; reflexivity.
Defined.

(** Witness of [next_epoch_enqueue_failure]: the next-epoch handshake
    record arrives during the handshake, the queue is empty and the
    allocation fails; the call returns fatal. *)
Lemma next_epoch_enqueue_failure_witness :
  dtls_get_bitmap (record_read layer3_next)
    (rl_rrec (record_read layer3_next)) = (Some ref_next_bitmap, 1)
  /\ rl_in_init (record_checked layer3_next) <> 0
  /\ pqueue_size (rq_items (rl_unprocessed_rcds (record_checked layer3_next)))
     < 100
  /\ get_more_records_loop max_encrypted_length max_compressed_length
       max_encrypted_overhead max_md_size fixed_mac plain_cipher
       no_uncompress dgram_read_n setup_read_buffer_ok alloc_fails alloc_ok
       1 layer3_next
     = Some (OSSL_RECORD_RETURN_FATAL,
             RLAYERfatal (record_checked layer3_next)
               SSL_AD_INTERNAL_ERROR ERR_R_INTERNAL_ERROR).
Proof.
  assert (Hroute : dtls_get_bitmap (record_read layer3_next)
                     (rl_rrec (record_read layer3_next))
                   = (Some ref_next_bitmap, 1)) by (vm_compute; reflexivity).
  assert (Hreplay : (if negb (rl_is_sctp (record_read layer3_next))
                     then dtls_record_replay_check (record_read layer3_next)
                            ref_next_bitmap
                     else (1, record_read layer3_next))
                    = (1, record_checked layer3_next))
    by (vm_compute; reflexivity).
  assert (Hinit : rl_in_init (record_checked layer3_next) <> 0)
    by (vm_compute; discriminate).
  assert (Hlen : rr_length (rl_rrec (record_checked layer3_next)) <> 0)
    by (vm_compute; discriminate).
  assert (Hok : 1 <> 0) by discriminate.
  assert (Hsize : pqueue_size
                    (rq_items (rl_unprocessed_rcds (record_checked layer3_next)))
                  < 100) by (vm_compute; reflexivity).
  assert (Hfail : alloc_fails (record_checked layer3_next) = false
                  \/ alloc_ok (record_checked layer3_next) = false)
    by (left; reflexivity).
  split; [exact Hroute | split; [exact Hinit | split; [exact Hsize | ]]].
  apply (proj1 (next_epoch_enqueue_failure
                  max_encrypted_length max_compressed_length
                  max_encrypted_overhead max_md_size fixed_mac plain_cipher
                  no_uncompress dgram_read_n setup_read_buffer_ok alloc_fails
                  alloc_ok (record_read layer3_next)
                  (record_checked layer3_next) ref_next_bitmap 1
                  Hroute Hreplay Hok Hlen Hinit) Hsize Hfail).
  split; [vm_compute; reflexivity | ].
  exists (header_read layer3_next).
  split; vm_compute; reflexivity.
Defined.

(** C2 as the specification words it fails on a full queue: the
    unprocessed queue holds 100 items, the handshake is in progress, a
    next-epoch handshake record arrives and is not queued
    ([dtls_rlayer_buffer_record] returns 0); yet the call does not
    return fatal: the record is dropped, no alert is recorded, and the
    call ends with a retry once the transport has nothing more. *)
Lemma enqueue_on_full_queue_counterexample :
  pqueue_size (rq_items (rl_unprocessed_rcds layer3_full)) = 100
  /\ rl_in_init layer3_full = 1
  /\ dtls_get_bitmap (record_read layer3_full)
       (rl_rrec (record_read layer3_full)) = (Some ref_next_bitmap, 1)
  /\ fst (dtls_rlayer_buffer_record setup_read_buffer_ok alloc_ok alloc_ok
            (record_checked layer3_full) ref_unprocessed_rcds
            (rr_seq_num (rl_rrec (record_checked layer3_full)))) = 0
  /\ option_map fst
       (dtls_get_more_records max_encrypted_length max_compressed_length
          max_encrypted_overhead max_md_size fixed_mac plain_cipher
          no_uncompress dgram_read_n setup_read_buffer_ok alloc_ok alloc_ok
          2 layer3_full)
     = Some OSSL_RECORD_RETURN_RETRY
  /\ option_map (fun r => rl_alert (snd r))
       (dtls_get_more_records max_encrypted_length max_compressed_length
          max_encrypted_overhead max_md_size fixed_mac plain_cipher
          no_uncompress dgram_read_n setup_read_buffer_ok alloc_ok alloc_ok
          2 layer3_full)
     = Some SSL_AD_NO_ALERT
  /\ OSSL_RECORD_RETURN_RETRY <> OSSL_RECORD_RETURN_FATAL.
Proof.
  split; [vm_compute; reflexivity | ].
  split; [vm_compute; reflexivity | ].
  split; [vm_compute; reflexivity | ].
  split; [vm_compute; reflexivity | ].
  split; [vm_compute; reflexivity | ].
  split; [vm_compute; reflexivity | ].
  vm_compute. discriminate.
Qed.

(** Witness of [teardown_forwards_unprocessed]: records 9 and 5 were
    buffered in that order; the successor receives the three unread
    bytes, then record 5, then record 9. *)
Lemma teardown_forwards_unprocessed_witness :
  rq_q (rl_unprocessed_rcds layer3_closing) = Some (queue_of [9; 5])
  /\ pqueue_built (queue_of [9; 5])
  /\ length (queue_of [9; 5]) = 2%nat
  /\ rl_next (snd (dtls_free bio_takes_all tls_free_ok layer3_closing))
     = [[x11; x12; x13]; raw_packet (buffered_item 5);
        raw_packet (buffered_item 9)].
Proof.
  assert (Hb : pqueue_built (queue_of [9; 5])).
  { apply (built_insert (queue_of [9]) _ (buffered_item 5));
      [ | reflexivity].
    apply (built_insert pqueue_new _ (buffered_item 9));
      [constructor | reflexivity]. }
  split; [reflexivity | split; [exact Hb | split; [reflexivity | ]]].
  rewrite (proj1 (teardown_forwards_unprocessed bio_takes_all tls_free_ok
                    layer3_closing (queue_of [9; 5]) 2 eq_refl Hb eq_refl)).
  reflexivity.
Defined.

(** Witness of [version_mismatch_discarded]: with DTLS 1.2 negotiated, a
    handshake record carrying the DTLS 1.0 version is discarded, and an
    alert record carrying it passes the header checks. *)
Lemma version_mismatch_discarded_witness :
  get_more_records_pass max_encrypted_length max_compressed_length
    max_encrypted_overhead max_md_size fixed_mac plain_cipher no_uncompress
    dgram_read_n setup_read_buffer_ok alloc_ok alloc_ok
    (set_rl_bio [old_version_handshake] layer3)
  = Again (discarded
             (parse_header
                (set_rl_rstate SSL_ST_READ_BODY
                   (header_fetched (set_rl_bio [old_version_handshake] layer3)))))
  /\ check_header max_encrypted_length max_encrypted_overhead
       (parse_header
          (set_rl_rstate SSL_ST_READ_BODY
             (header_fetched (set_rl_bio [old_version_alert] layer3))))
     = inr (parse_header
              (set_rl_rstate SSL_ST_READ_BODY
                 (header_fetched (set_rl_bio [old_version_alert] layer3)))).
Proof.
  split.
  - apply (proj1 (proj2 (proj1 (version_mismatch_discarded
                    max_encrypted_length max_compressed_length
                    max_encrypted_overhead max_md_size fixed_mac plain_cipher
                    no_uncompress dgram_read_n setup_read_buffer_ok alloc_ok
                    alloc_ok
                    (header_fetched (set_rl_bio [old_version_handshake] layer3)))
                  eq_refl
                  ltac:(vm_compute; discriminate)
                  ltac:(vm_compute; discriminate)))
             (set_rl_bio [old_version_handshake] layer3) 1 13).
    + reflexivity.
    + left. vm_compute. discriminate.
    + reflexivity.
    + vm_compute. discriminate.
    + reflexivity.
  - apply (proj2 (version_mismatch_discarded
                    max_encrypted_length max_compressed_length
                    max_encrypted_overhead max_md_size fixed_mac plain_cipher
                    no_uncompress dgram_read_n setup_read_buffer_ok alloc_ok
                    alloc_ok
                    (header_fetched (set_rl_bio [old_version_alert] layer3)))).
    + right. reflexivity.
    + reflexivity.
    + vm_compute. discriminate.
    + vm_compute. discriminate.
Defined.

(** Witness of [write_retry_guard]: the retry with the memorized
    buffer, type and length is written out, and a retry with a shorter
    length is rejected. *)
Lemma write_retry_guard_witness :
  option_map w_ret
    (ssl3_write_pending false no_flush bio_write_all 3 conn_pending
       wbuf_pending SSL3_RT_APPLICATION_DATA 4096 5) = Some 1
  /\ ssl3_write_pending false no_flush bio_write_all 3 conn_pending
       wbuf_pending SSL3_RT_APPLICATION_DATA 4096 4
     = Some (mkWriteResult (-1) None
               (SSLfatal conn_pending SSL_AD_INTERNAL_ERROR
                  SSL_R_BAD_WRITE_RETRY) wbuf_pending).
Proof.
  split.
  - rewrite (proj1 (proj2 (proj2 (proj2
               (write_retry_guard false no_flush bio_write_all 3 conn_pending
                  wbuf_pending SSL3_RT_APPLICATION_DATA 4096 5))))
               eq_refl eq_refl eq_refl).
    reflexivity.
  - apply (proj1 (proj2 (write_retry_guard false no_flush bio_write_all 3
                           conn_pending wbuf_pending
                           SSL3_RT_APPLICATION_DATA 4096 4))).
    reflexivity.
Defined.

(** C9 as the specification words it fails: a retry whose length (9)
    differs from the memorized total (5) is not rejected but written
    out, and with SSL_MODE_ACCEPT_MOVING_WRITE_BUFFER a retry from
    another buffer is written out as well. *)
Lemma write_retry_mismatch_counterexample :
  (4096, SSL3_RT_APPLICATION_DATA, 9)
  <> (wpend_buf conn_pending, wpend_type conn_pending, wpend_tot conn_pending)
  /\ option_map w_ret
       (ssl3_write_pending false no_flush bio_write_all 3 conn_pending
          wbuf_pending SSL3_RT_APPLICATION_DATA 4096 9) = Some 1
  /\ option_map (fun r => s_reason (w_conn r))
       (ssl3_write_pending false no_flush bio_write_all 3 conn_pending
          wbuf_pending SSL3_RT_APPLICATION_DATA 4096 9) = Some R_NONE
  /\ (8192, SSL3_RT_APPLICATION_DATA, 5)
     <> (wpend_buf conn_pending_moving, wpend_type conn_pending_moving,
         wpend_tot conn_pending_moving)
  /\ option_map w_ret
       (ssl3_write_pending false no_flush bio_write_all 3 conn_pending_moving
          wbuf_pending SSL3_RT_APPLICATION_DATA 8192 5) = Some 1
  /\ option_map (fun r => s_reason (w_conn r))
       (ssl3_write_pending false no_flush bio_write_all 3 conn_pending_moving
          wbuf_pending SSL3_RT_APPLICATION_DATA 8192 5) = Some R_NONE.
Proof.
  repeat split; try (vm_compute; reflexivity); vm_compute; discriminate.
Qed.

(** * Further properties *)

(** ** The replay window over time *)

Lemma n2l8_firstn (c : list byte) : n2l8 (firstn SEQ_NUM_SIZE c) = n2l8 c.
Proof.
  unfold n2l8, byte_at, SEQ_NUM_SIZE. rewrite !nth_firstn. reflexivity.
Qed.

(** The exit of the replay check in terms of the two 64-bit values. *)
Lemma replay_check_exit_values (seq : list byte) (bm : DTLS_BITMAP) :
  replay_check_exit seq bm
  = if n2l8 (bm_max_seq_num bm) <? n2l8 seq then record_is_new
    else if 64 <=? n2l8 (bm_max_seq_num bm) - n2l8 seq then record_is_stale
    else if Z.testbit (bm_map bm) (n2l8 (bm_max_seq_num bm) - n2l8 seq)
    then record_previously_received
    else record_in_window_unseen.
Proof.
  unfold replay_check_exit, map_bits. cbv zeta.
  rewrite satsub64be_clamp. unfold clamp128.
  pose proof (n2l8_range seq) as Hs.
  pose proof (n2l8_range (bm_max_seq_num bm)) as Hm.
  set (T := n2l8 seq) in *. set (M := n2l8 (bm_max_seq_num bm)) in *.
  destruct (Z.ltb_spec M T) as [Hnew | Hold].
  - destruct (Z.ltb_spec 128 (T - M)); [reflexivity | ].
    replace (T - M <? -128) with false by (symmetry; apply Z.ltb_ge; lia).
    replace (0 <? T - M) with true by (symmetry; apply Z.ltb_lt; lia).
    reflexivity.
  - replace (128 <? T - M) with false by (symmetry; apply Z.ltb_ge; lia).
    destruct (Z.ltb_spec (T - M) (-128)) as [Hfar | Hnear].
    + cbn [Z.ltb Z.compare]. rewrite to_uint_small by lia.
      cbn [Z.leb Z.compare Z.opp Pos.compare Pos.compare_cont].
      replace (64 <=? M - T) with true by (symmetry; apply Z.leb_le; lia).
      reflexivity.
    + replace (0 <? T - M) with false by (symmetry; apply Z.ltb_ge; lia).
      rewrite to_uint_small by lia.
      replace (- (T - M)) with (M - T) by lia.
      destruct (Z.leb_spec 64 (M - T)); [reflexivity | ].
      rewrite land_bit64_testbit by lia. rewrite negb_involutive.
      reflexivity.
Qed.

Lemma bitmap_at_set (rl : OSSL_RECORD_LAYER) (b : bitmap_ref)
  (v : DTLS_BITMAP) :
  get_bitmap_at (set_bitmap_at b v rl) b = v.
Proof. destruct b; reflexivity. Qed.

(** The window after the update in terms of the two 64-bit values. *)
Lemma bitmap_update_values (rl : OSSL_RECORD_LAYER) (b : bitmap_ref) :
  let bm := get_bitmap_at rl b in
  let S := n2l8 (rl_sequence rl) in
  let M := n2l8 (bm_max_seq_num bm) in
  get_bitmap_at (dtls_record_bitmap_update rl b) b
  = if M <? S
    then mkBitmap
           (if S - M <? 64
            then Z.lor (to_uint64 (Z.shiftl (bm_map bm) (S - M))) 1
            else 1)
           (firstn SEQ_NUM_SIZE (rl_sequence rl))
    else if M - S <? 64
         then mkBitmap (Z.lor (bm_map bm) (2 ^ (M - S))) (bm_max_seq_num bm)
         else bm.
Proof.
  intros bm S M. unfold dtls_record_bitmap_update, map_bits. cbv zeta.
  fold bm. rewrite satsub64be_clamp. fold S. fold M. unfold clamp128.
  pose proof (n2l8_range (rl_sequence rl)) as Hs.
  pose proof (n2l8_range (bm_max_seq_num bm)) as Hm.
  fold S in Hs. fold M in Hm.
  destruct (Z.ltb_spec M S) as [Hnew | Hold].
  - destruct (Z.ltb_spec 128 (S - M)) as [Hfar | Hnear].
    + cbn [Z.ltb Z.compare]. rewrite to_uint_small by lia.
      cbn [Z.ltb Z.compare Pos.compare Pos.compare_cont].
      replace (S - M <? 64) with false by (symmetry; apply Z.ltb_ge; lia).
      apply bitmap_at_set.
    + replace (S - M <? -128) with false by (symmetry; apply Z.ltb_ge; lia).
      replace (0 <? S - M) with true by (symmetry; apply Z.ltb_lt; lia).
      rewrite to_uint_small by lia. apply bitmap_at_set.
  - replace (128 <? S - M) with false by (symmetry; apply Z.ltb_ge; lia).
    destruct (Z.ltb_spec (S - M) (-128)) as [Hfar | Hnear].
    + cbn [Z.ltb Z.compare]. rewrite to_uint_small by lia.
      cbn [Z.ltb Z.compare Z.opp Pos.compare Pos.compare_cont].
      replace (M - S <? 64) with false by (symmetry; apply Z.ltb_ge; lia).
      reflexivity.
    + replace (0 <? S - M) with false by (symmetry; apply Z.ltb_ge; lia).
      rewrite to_uint_small by lia.
      replace (- (S - M)) with (M - S) by lia.
      destruct (Z.ltb_spec (M - S) 64); [ | reflexivity].
      rewrite bit64_pow2 by lia. apply bitmap_at_set.
Qed.

Lemma testbit_one (j : Z) : Z.testbit 1 j = (j =? 0).
Proof.
  change 1 with (2 ^ 0). rewrite Z.pow2_bits_eqb by lia. apply Z.eqb_sym.
Qed.

(** The bits of a window slid by [d] places with bit 0 set. *)
Lemma slid_window_bit (m d j : Z) :
  0 <= d -> 0 <= j < 64 ->
  Z.testbit (Z.lor (to_uint64 (Z.shiftl m d)) 1) j
  = (Z.testbit m (j - d) || (j =? 0)).
Proof.
  intros Hd Hj. unfold to_uint64.
  rewrite Z.lor_spec, testbit_one, Z.mod_pow2_bits_low by lia.
  rewrite Z.shiftl_spec by lia. reflexivity.
Qed.

Lemma bitmap_update_sequence (rl : OSSL_RECORD_LAYER) (b : bitmap_ref) :
  rl_sequence (dtls_record_bitmap_update rl b) = rl_sequence rl.
Proof.
  unfold dtls_record_bitmap_update. cbv zeta.
  destruct b; break_branches; reflexivity.
Qed.

(** How the window classifies, after an update, the sequence number it
    was updated with. *)
Lemma exit_after_update (rl : OSSL_RECORD_LAYER) (b : bitmap_ref) :
  replay_check_exit (rl_sequence rl)
    (get_bitmap_at (dtls_record_bitmap_update rl b) b)
  = record_previously_received
  \/ replay_check_exit (rl_sequence rl)
       (get_bitmap_at (dtls_record_bitmap_update rl b) b)
     = record_is_stale
     /\ 64 <= n2l8 (bm_max_seq_num (get_bitmap_at rl b))
              - n2l8 (rl_sequence rl).
Proof.
  rewrite replay_check_exit_values, bitmap_update_values.
  cbv zeta.
  pose proof (n2l8_range (rl_sequence rl)) as Hs.
  pose proof (n2l8_range (bm_max_seq_num (get_bitmap_at rl b))) as Hm.
  set (S := n2l8 (rl_sequence rl)) in *.
  set (M := n2l8 (bm_max_seq_num (get_bitmap_at rl b))) in *.
  set (m := bm_map (get_bitmap_at rl b)).
  destruct (Z.ltb_spec M S) as [Hnew | Hold].
  - left. cbn [bm_max_seq_num bm_map]. rewrite n2l8_firstn. fold S.
    rewrite Z.ltb_irrefl, Z.sub_diag. cbn [Z.leb Z.compare].
    destruct (S - M <? 64).
    + rewrite slid_window_bit by lia. rewrite orb_true_r. reflexivity.
    + reflexivity.
  - destruct (Z.ltb_spec (M - S) 64) as [Hin | Hout].
    + left. cbn [bm_max_seq_num bm_map]. fold M.
      replace (M <? S) with false by (symmetry; apply Z.ltb_ge; lia).
      replace (64 <=? M - S) with false by (symmetry; apply Z.leb_gt; lia).
      rewrite Z.lor_spec, Z.pow2_bits_eqb, Z.eqb_refl by lia.
      rewrite orb_true_r. reflexivity.
    + right. fold M.
      replace (M <? S) with false by (symmetry; apply Z.ltb_ge; lia).
      replace (64 <=? M - S) with true by (symmetry; apply Z.leb_le; lia).
      split; [reflexivity | lia].
Qed.

(** X1: once a record has been marked as received, the replay check
    refuses its sequence number: it is then a duplicate, or stale when
    it was already behind the window. *)
Theorem marked_record_is_refused (rl : OSSL_RECORD_LAYER) (b : bitmap_ref) :
  let rl' := dtls_record_bitmap_update rl b in
  class_of_exit (replay_check_exit (rl_sequence rl) (get_bitmap_at rl' b))
  <> cls_fresh
  /\ fst (dtls_record_replay_check rl' b) = 0
  /\ (n2l8 (bm_max_seq_num (get_bitmap_at rl b)) - n2l8 (rl_sequence rl) < 64 ->
      replay_check_exit (rl_sequence rl) (get_bitmap_at rl' b)
      = record_previously_received).
Proof.
  intros rl'.
  pose proof (bitmap_update_sequence rl b) as Hseq. fold rl' in Hseq.
  pose proof (exit_after_update rl b) as Hexit. fold rl' in Hexit.
  split; [ | split].
  - destruct Hexit as [He | [He _]]; rewrite He; discriminate.
  - rewrite replay_check_returns, Hseq.
    destruct Hexit as [He | [He _]]; rewrite He; reflexivity.
  - intros Hin. destruct Hexit as [He | [_ Hfar]]; [exact He | lia].
Qed.

(** X2: the highest sequence number of a window never goes down: an
    update with a higher number installs it, any other update leaves
    the highest number as it is. *)
Theorem max_seq_num_never_decreases (rl : OSSL_RECORD_LAYER) (b : bitmap_ref) :
  let old_max := bm_max_seq_num (get_bitmap_at rl b) in
  let new_max :=
    bm_max_seq_num (get_bitmap_at (dtls_record_bitmap_update rl b) b) in
  n2l8 old_max <= n2l8 new_max
  /\ (n2l8 old_max < n2l8 (rl_sequence rl) ->
      new_max = firstn SEQ_NUM_SIZE (rl_sequence rl)
      /\ n2l8 new_max = n2l8 (rl_sequence rl))
  /\ (n2l8 (rl_sequence rl) <= n2l8 old_max -> new_max = old_max).
Proof.
  intros old_max new_max. subst new_max.
  rewrite bitmap_update_values. cbv zeta. fold old_max.
  destruct (Z.ltb_spec (n2l8 old_max) (n2l8 (rl_sequence rl))) as [Hnew | Hold].
  - cbn [bm_max_seq_num]. rewrite n2l8_firstn.
    split; [lia | split; [intros _; split; reflexivity | lia]].
  - assert (Hsame :
              bm_max_seq_num
                (if n2l8 old_max - n2l8 (rl_sequence rl) <? 64
                 then mkBitmap
                        (Z.lor (bm_map (get_bitmap_at rl b))
                               (2 ^ (n2l8 old_max - n2l8 (rl_sequence rl))))
                        old_max
                 else get_bitmap_at rl b) = old_max)
      by (destruct (n2l8 old_max - n2l8 (rl_sequence rl) <? 64); reflexivity).
    rewrite Hsame. split; [lia | split; [lia | reflexivity]].
Qed.

(** How a window classifies a sequence number, after an update, in
    terms of its classification before. *)
Lemma window_bits_after_update (rl : OSSL_RECORD_LAYER) (b : bitmap_ref)
  (seq' : list byte) :
  let bm := get_bitmap_at rl b in
  let bm' := get_bitmap_at (dtls_record_bitmap_update rl b) b in
  let S := n2l8 (rl_sequence rl) in
  let M := n2l8 (bm_max_seq_num bm) in
  let M' := n2l8 (bm_max_seq_num bm') in
  let T := n2l8 seq' in
  M' = Z.max M S
  /\ (0 <= M' - T < 64 ->
      Z.testbit (bm_map bm') (M' - T)
      = ((T =? S) && (M - S <? 64)
         || (0 <=? M - T) && (M - T <? 64) && Z.testbit (bm_map bm) (M - T))).
Proof.
  intros bm bm' S M M' T. subst bm' M'.
  rewrite bitmap_update_values. cbv zeta. fold bm. fold S. fold M.
  pose proof (n2l8_range (rl_sequence rl)) as Hs.
  pose proof (n2l8_range (bm_max_seq_num bm)) as Hm.
  pose proof (n2l8_range seq') as Ht.
  fold S in Hs. fold M in Hm. fold T in Ht.
  destruct (Z.ltb_spec M S) as [Hnew | Hold].
  - cbn [bm_max_seq_num bm_map]. rewrite n2l8_firstn. fold S.
    split; [lia | intros Hj].
    replace (M - S <? 64) with true by (symmetry; apply Z.ltb_lt; lia).
    rewrite andb_true_r.
    destruct (Z.ltb_spec (S - M) 64) as [Hd | Hd].
    + rewrite slid_window_bit by lia.
      replace (S - T - (S - M)) with (M - T) by lia.
      replace (S - T =? 0) with (T =? S)
        by (destruct (Z.eqb_spec T S); [symmetry; apply Z.eqb_eq; lia
                                       | symmetry; apply Z.eqb_neq; lia]).
      destruct (Z.leb_spec 0 (M - T)) as [Hin | Hneg].
      * replace (M - T <? 64) with true by (symmetry; apply Z.ltb_lt; lia).
        cbn [andb]. apply orb_comm.
      * rewrite Z.testbit_neg_r by lia. cbn [andb orb].
        rewrite orb_false_r. reflexivity.
    + rewrite testbit_one.
      replace (S - T =? 0) with (T =? S)
        by (destruct (Z.eqb_spec T S); [symmetry; apply Z.eqb_eq; lia
                                       | symmetry; apply Z.eqb_neq; lia]).
      replace (0 <=? M - T) with false by (symmetry; apply Z.leb_gt; lia).
      rewrite orb_false_r. reflexivity.
  - destruct (Z.ltb_spec (M - S) 64) as [Hin | Hout].
    + cbn [bm_max_seq_num bm_map]. fold M.
      split; [lia | intros Hj].
      rewrite Z.lor_spec, Z.pow2_bits_eqb by lia.
      replace (0 <=? M - T) with true by (symmetry; apply Z.leb_le; lia).
      replace (M - T <? 64) with true by (symmetry; apply Z.ltb_lt; lia).
      replace (M - S =? M - T) with (T =? S)
        by (destruct (Z.eqb_spec T S); [symmetry; apply Z.eqb_eq; lia
                                       | symmetry; apply Z.eqb_neq; lia]).
      rewrite andb_true_r. cbn [andb]. apply orb_comm.
    + fold M. split; [lia | intros Hj].
      replace (0 <=? M - T) with true by (symmetry; apply Z.leb_le; lia).
      replace (M - T <? 64) with true by (symmetry; apply Z.ltb_lt; lia).
      destruct (Z.eqb_spec T S); [lia | reflexivity].
Qed.

(** X3: a sequence number the window refuses stays refused after any
    update of the window: no record is accepted after it was refused
    as a duplicate or as stale. *)
Theorem refused_stays_refused (rl : OSSL_RECORD_LAYER) (b : bitmap_ref)
  (seq' : list byte)
  (Hrefused : class_of_exit (replay_check_exit seq' (get_bitmap_at rl b))
              <> cls_fresh) :
  class_of_exit
    (replay_check_exit seq'
       (get_bitmap_at (dtls_record_bitmap_update rl b) b))
  <> cls_fresh.
Proof.
  destruct (window_bits_after_update rl b seq') as [Hmax Hbit].
  cbv zeta in Hmax, Hbit.
  rewrite replay_check_exit_values in Hrefused |- *.
  pose proof (n2l8_range seq') as Ht.
  set (T := n2l8 seq') in *.
  set (M := n2l8 (bm_max_seq_num (get_bitmap_at rl b))) in *.
  set (S := n2l8 (rl_sequence rl)) in *.
  set (M' := n2l8 (bm_max_seq_num
                     (get_bitmap_at (dtls_record_bitmap_update rl b) b))) in *.
  destruct (Z.ltb_spec M T) as [Hnew | Hold];
    [exfalso; apply Hrefused; reflexivity | ].
  replace (M' <? T) with false by (symmetry; apply Z.ltb_ge; lia).
  destruct (Z.leb_spec 64 (M' - T)) as [Hfar' | Hin']; [discriminate | ].
  rewrite Hbit by lia.
  replace (64 <=? M - T) with false in Hrefused
    by (symmetry; apply Z.leb_gt; lia).
  replace (0 <=? M - T) with true by (symmetry; apply Z.leb_le; lia).
  replace (M - T <? 64) with true by (symmetry; apply Z.ltb_lt; lia).
  destruct (Z.testbit (bm_map (get_bitmap_at rl b)) (M - T));
    [ | exfalso; apply Hrefused; reflexivity].
  rewrite orb_true_r. discriminate.
Qed.

(** X4: an update marks only the sequence number it is given: a
    different sequence number that the window took for fresh is not
    turned into a duplicate by it. *)
Theorem update_marks_only_its_record (rl : OSSL_RECORD_LAYER)
  (b : bitmap_ref) (seq' : list byte)
  (Hother : n2l8 seq' <> n2l8 (rl_sequence rl))
  (Hfresh : class_of_exit (replay_check_exit seq' (get_bitmap_at rl b))
            = cls_fresh) :
  class_of_exit
    (replay_check_exit seq'
       (get_bitmap_at (dtls_record_bitmap_update rl b) b))
  <> cls_duplicate.
Proof.
  destruct (window_bits_after_update rl b seq') as [Hmax Hbit].
  cbv zeta in Hmax, Hbit.
  rewrite replay_check_exit_values in Hfresh |- *.
  pose proof (n2l8_range seq') as Ht.
  set (T := n2l8 seq') in *.
  set (M := n2l8 (bm_max_seq_num (get_bitmap_at rl b))) in *.
  set (S := n2l8 (rl_sequence rl)) in *.
  set (M' := n2l8 (bm_max_seq_num
                     (get_bitmap_at (dtls_record_bitmap_update rl b) b))) in *.
  destruct (Z.ltb_spec M' T) as [Hnew' | Hold']; [discriminate | ].
  destruct (Z.leb_spec 64 (M' - T)) as [Hfar' | Hin']; [discriminate | ].
  rewrite Hbit by lia.
  replace (T =? S) with false by (symmetry; apply Z.eqb_neq; exact Hother).
  cbn [andb orb].
  destruct (Z.ltb_spec M T) as [Hnew | Hold].
  - replace (0 <=? M - T) with false by (symmetry; apply Z.leb_gt; lia).
    discriminate.
  - replace (64 <=? M - T) with false in Hfresh
      by (symmetry; apply Z.leb_gt; lia).
    destruct (Z.testbit (bm_map (get_bitmap_at rl b)) (M - T));
      [discriminate Hfresh | ].
    rewrite !andb_false_r. discriminate.
Qed.

(** ** Sequence arithmetic *)

Lemma clamp128_opp (d : Z) : clamp128 (- d) = - clamp128 d.
Proof.
  unfold clamp128.
  destruct (Z.ltb_spec 128 (- d)); destruct (Z.ltb_spec d (-128));
    destruct (Z.ltb_spec 128 d); destruct (Z.ltb_spec (- d) (-128)); lia.
Qed.

(** X5: the saturating difference keeps the order of its arguments and
    is antisymmetric: it is positive, zero or negative exactly as the
    first 64-bit value is above, equal to or below the second, it lies
    in [-128, 128], and swapping the arguments negates it. *)
Theorem satsub64be_keeps_order (v1 v2 : list byte) :
  (0 < satsub64be v1 v2 <-> n2l8 v2 < n2l8 v1)
  /\ (satsub64be v1 v2 = 0 <-> n2l8 v1 = n2l8 v2)
  /\ (satsub64be v1 v2 < 0 <-> n2l8 v1 < n2l8 v2)
  /\ -128 <= satsub64be v1 v2 <= 128
  /\ satsub64be v2 v1 = - satsub64be v1 v2.
Proof.
  assert (Hanti : satsub64be v2 v1 = - satsub64be v1 v2).
  { rewrite !satsub64be_clamp, <- clamp128_opp. f_equal. lia. }
  pose proof (satsub64be_range v1 v2) as Hr.
  assert (Hc : satsub64be v1 v2 = clamp128 (n2l8 v1 - n2l8 v2))
    by apply satsub64be_clamp.
  split; [ | split; [ | split; [ | split; [exact Hr | exact Hanti]]]];
    rewrite Hc; unfold clamp128;
    destruct (Z.ltb_spec 128 (n2l8 v1 - n2l8 v2));
    destruct (Z.ltb_spec (n2l8 v1 - n2l8 v2) (-128));
    split; intros; lia.
Qed.

(** ** Outcomes of record processing *)

Lemma alert_eqb_eq (a b : alert_code) : alert_eqb a b = true <-> a = b.
Proof. destruct a, b; simpl; split; intros H; congruence. Qed.

Lemma bitmap_update_frame (rl : OSSL_RECORD_LAYER) (b : bitmap_ref) :
  rl_alert (dtls_record_bitmap_update rl b) = rl_alert rl
  /\ rl_rrec (dtls_record_bitmap_update rl b) = rl_rrec rl
  /\ rl_packet_length (dtls_record_bitmap_update rl b) = rl_packet_length rl
  /\ rl_max_frag_len (dtls_record_bitmap_update rl b) = rl_max_frag_len rl
  /\ rl_sequence (dtls_record_bitmap_update rl b) = rl_sequence rl.
Proof.
  unfold dtls_record_bitmap_update. cbv zeta.
  destruct b; break_branches; simpl; repeat split; reflexivity.
Qed.

Section RecordLayerOutcomes.

Variable SSL3_RT_MAX_ENCRYPTED_LENGTH : Z.
Variable SSL3_RT_MAX_COMPRESSED_LENGTH : Z.
Variable SSL3_RT_MAX_ENCRYPTED_OVERHEAD : Z.
Variable EVP_MAX_MD_SIZE : Z.
Variable mac : OSSL_RECORD_LAYER -> SSL3_RECORD -> Z -> Z * list byte.
Variable cipher :
  OSSL_RECORD_LAYER -> SSL3_RECORD -> Z -> Z -> Z -> cipher_result.
Variable tls_do_uncompress :
  OSSL_RECORD_LAYER -> SSL3_RECORD -> bool * SSL3_RECORD.
Variable read_n :
  OSSL_RECORD_LAYER -> Z -> Z -> Z -> Z -> Z * Z * OSSL_RECORD_LAYER.
Variable tls_setup_read_buffer :
  OSSL_RECORD_LAYER -> bool * OSSL_RECORD_LAYER.
Variable OPENSSL_malloc_ok : OSSL_RECORD_LAYER -> bool.
Variable pitem_new_ok : OSSL_RECORD_LAYER -> bool.

Local Abbreviation process_finish' :=
  (process_finish SSL3_RT_MAX_COMPRESSED_LENGTH tls_do_uncompress).
Local Abbreviation process_decrypt' :=
  (process_decrypt SSL3_RT_MAX_COMPRESSED_LENGTH mac cipher tls_do_uncompress).
Local Abbreviation dtls_process_record' :=
  (dtls_process_record SSL3_RT_MAX_ENCRYPTED_LENGTH
     SSL3_RT_MAX_COMPRESSED_LENGTH EVP_MAX_MD_SIZE mac cipher
     tls_do_uncompress).
Local Abbreviation process_and_deliver' :=
  (process_and_deliver SSL3_RT_MAX_ENCRYPTED_LENGTH
     SSL3_RT_MAX_COMPRESSED_LENGTH EVP_MAX_MD_SIZE mac cipher
     tls_do_uncompress).

Lemma process_finish_outcome (rl : OSSL_RECORD_LAYER) (b : bitmap_ref) :
  (fst (process_finish' rl b) = 1 ->
   processed_well rl (snd (process_finish' rl b)))
  /\ (fst (process_finish' rl b) = 0 ->
      rl_alert (snd (process_finish' rl b)) <> SSL_AD_NO_ALERT).
Proof.
  unfold process_finish, processed_well. cbv zeta.
  break_branches; cbn [fst snd]; split; intros H; try discriminate H;
    try (simpl; discriminate).
  all: match goal with
       | |- context [dtls_record_bitmap_update ?r ?bb] =>
           destruct (bitmap_update_frame r bb) as [_ [Hr [Hp _]]];
           rewrite Hr, Hp
       end; simpl;
    repeat split; try reflexivity;
    match goal with
    | H : (_ <? _) = false |- _ => apply Z.ltb_ge in H; simpl in H; exact H
    end.
Qed.

Lemma alert_set_or_not (a : alert_code) :
  a <> SSL_AD_NO_ALERT \/ a = SSL_AD_NO_ALERT.
Proof. destruct a; (right; reflexivity) || (left; discriminate). Qed.

Lemma reset_is_loud_or_reset (rl : OSSL_RECORD_LAYER) :
  failed_loudly_or_reset
    (set_rl_packet_length 0 (set_rl_rrec (set_rr_length 0 (rl_rrec rl)) rl)).
Proof.
  unfold failed_loudly_or_reset. simpl.
  destruct (alert_set_or_not (rl_alert rl)) as [H | H];
    [left; exact H | right; repeat split; [exact H | reflexivity ..]].
Qed.

Lemma process_decrypt_outcome (rl : OSSL_RECORD_LAYER) (b : bitmap_ref)
  (ms : Z) :
  (fst (process_decrypt' rl b ms) = 1 ->
   processed_well rl (snd (process_decrypt' rl b ms)))
  /\ (fst (process_decrypt' rl b ms) = 0 ->
      failed_loudly_or_reset (snd (process_decrypt' rl b ms))).
Proof.
  unfold process_decrypt. cbv zeta.
  set (rl2 := after_cipher rl (cipher rl (rl_rrec rl) 1 0 ms)).
  destruct (process_finish_outcome rl2 b) as [Hok Hfail].
  destruct (c_ret (cipher rl (rl_rrec rl) 1 0 ms) =? 0).
  - destruct (negb (alert_eqb (rl_alert rl2) SSL_AD_NO_ALERT)) eqn:Ha.
    + split; [discriminate | intros _]. left. cbn [snd].
      intros Hn. rewrite Hn in Ha. discriminate Ha.
    + split; [discriminate | intros _]. apply reset_is_loud_or_reset.
  - match goal with
    | |- context [if ?c =? 0 then _ else process_finish' rl2 b] =>
        destruct (c =? 0)
    end.
    + split; [discriminate | intros _]. apply reset_is_loud_or_reset.
    + split; [exact Hok | ].
      intros H. left. exact (Hfail H).
Qed.

Lemma process_record_outcome (rl : OSSL_RECORD_LAYER) (b : bitmap_ref) :
  (fst (dtls_process_record' rl b) = 1 ->
   processed_well rl (snd (dtls_process_record' rl b)))
  /\ (fst (dtls_process_record' rl b) = 0 ->
      failed_loudly_or_reset (snd (dtls_process_record' rl b))).
Proof.
  unfold dtls_process_record. cbv zeta.
  destruct (SSL3_RT_MAX_ENCRYPTED_LENGTH <? rr_length (rl_rrec (process_input rl)));
    [split; [discriminate | intros _; left; simpl; discriminate] | ].
  destruct (process_mac_size EVP_MAX_MD_SIZE (process_prepare (process_input rl)))
    as [ms | ];
    [ | split; [discriminate | intros _; left; simpl; discriminate]].
  destruct (etm_active (process_prepare (process_input rl))).
  - destruct (rr_orig_len (rl_rrec (process_prepare (process_input rl))) <? ms);
      [split; [discriminate | intros _; left; simpl; discriminate] | ].
    match goal with
    | |- context [if ?c then _ else _] => destruct c
    end; [split; [discriminate | intros _; left; simpl; discriminate] | ].
    exact (process_decrypt_outcome
             (process_strip_mac (process_prepare (process_input rl)) ms) b 0).
  - exact (process_decrypt_outcome (process_prepare (process_input rl)) b ms).
Qed.

(** X6: what becomes of a record handed to processing is one of three
    things. It is delivered: the call returns success with one record
    available, read from offset 0, no longer than the fragment limit,
    and the packet consumed. Or it is fatal: an alert is recorded and
    both replay windows are as before. Or it is dropped: no alert, the
    record and packet lengths reset, both replay windows as before, and
    the loop goes on. *)
Theorem process_and_deliver_outcomes (rl : OSSL_RECORD_LAYER)
  (b : bitmap_ref) :
  (exists rl', process_and_deliver' rl b
               = Return OSSL_RECORD_RETURN_SUCCESS rl'
               /\ rl_num_recs rl' = 1 /\ processed_well rl rl')
  \/ (exists rl', process_and_deliver' rl b
                  = Return OSSL_RECORD_RETURN_FATAL rl'
                  /\ rl_alert rl' <> SSL_AD_NO_ALERT
                  /\ same_windows rl rl')
  \/ (exists rl', process_and_deliver' rl b = Again rl'
                  /\ rl_alert rl' = SSL_AD_NO_ALERT
                  /\ rr_length (rl_rrec rl') = 0
                  /\ rl_packet_length rl' = 0
                  /\ same_windows rl rl').
Proof.
  unfold process_and_deliver.
  destruct (process_record_outcome rl b) as [Hok Hfail].
  destruct (process_record_windows SSL3_RT_MAX_ENCRYPTED_LENGTH
              SSL3_RT_MAX_COMPRESSED_LENGTH EVP_MAX_MD_SIZE mac cipher
              tls_do_uncompress rl b) as [Hv Hw].
  destruct (dtls_process_record' rl b) as [ok rl1]. cbn [fst snd] in *.
  destruct Hv as [H0 | H1]; subst ok; cbn [Z.eqb].
  - specialize (Hfail eq_refl). specialize (Hw eq_refl).
    destruct (alert_eqb (rl_alert rl1) SSL_AD_NO_ALERT) eqn:Ha; cbn [negb].
    + right. right. exists (discarded rl1).
      apply alert_eqb_eq in Ha.
      split; [reflexivity | ].
      split; [exact Ha | ].
      split; [reflexivity | split; [reflexivity | ]].
      destruct Hw as [Hw1 Hw2]. split; assumption.
    + right. left. exists rl1.
      split; [reflexivity | split; [ | exact Hw]].
      intros Hn. rewrite Hn in Ha. discriminate Ha.
  - left. exists (set_rl_num_recs 1 rl1).
    split; [reflexivity | split; [reflexivity | ]].
    exact (Hok eq_refl).
Qed.

End RecordLayerOutcomes.

(** ** The deferred queues *)

Lemma pqueue_insert_length (pq : pqueue) :
  forall (item : pitem) (pq' : pqueue),
    pqueue_insert pq item = Some pq' -> length pq' = S (length pq).
Proof.
  induction pq as [| next rest IH]; intros item pq' Hi; simpl in Hi.
  - inversion Hi. reflexivity.
  - destruct (n2l8 (priority item) <? n2l8 (priority next));
      [inversion Hi; reflexivity | ].
    destruct (n2l8 (priority next) =? n2l8 (priority item));
      [discriminate Hi | ].
    destruct (pqueue_insert rest item) as [rest' | ] eqn:Hr;
      [ | discriminate Hi].
    inversion Hi; subst. simpl. f_equal. exact (IH item rest' Hr).
Qed.

(** In a queue in increasing order, an item whose priority is already
    there is refused. *)
Lemma pqueue_insert_duplicate (pq : pqueue) :
  forall (item : pitem),
    StronglySorted (fun a b => priority_value a < priority_value b) pq ->
    (exists x, In x pq /\ priority_value x = priority_value item) ->
    pqueue_insert pq item = None.
Proof.
  induction pq as [| next rest IH]; intros item Hs [x [Hin Heq]];
    [destruct Hin | ].
  simpl. fold (priority_value item). fold (priority_value next).
  inversion Hs as [| ? ? Hrest Hall]; subst.
  rewrite Forall_forall in Hall.
  destruct Hin as [-> | Hin].
  - replace (priority_value item <? priority_value x) with false
      by (symmetry; apply Z.ltb_ge; lia).
    replace (priority_value x =? priority_value item) with true
      by (symmetry; apply Z.eqb_eq; exact Heq).
    reflexivity.
  - specialize (Hall x Hin). simpl in Hall.
    replace (priority_value item <? priority_value next) with false
      by (symmetry; apply Z.ltb_ge; lia).
    replace (priority_value next =? priority_value item) with false
      by (symmetry; apply Z.eqb_neq; lia).
    rewrite (IH item Hrest); [reflexivity | ].
    exists x. split; assumption.
Qed.

Lemma pqueue_insert_front (pq : pqueue) (item : pitem) :
  Forall (fun x => priority_value item < priority_value x) pq ->
  pqueue_insert pq item = Some (item :: pq).
Proof.
  intros Hall. destruct pq as [| next rest]; [reflexivity | ].
  simpl. fold (priority_value item). fold (priority_value next).
  inversion Hall; subst.
  replace (priority_value item <? priority_value next) with true
    by (symmetry; apply Z.ltb_lt; assumption).
  reflexivity.
Qed.

Lemma queue_at_set (rl : OSSL_RECORD_LAYER) (q : queue_ref)
  (v : record_pqueue) :
  get_queue_at (set_queue_at q v rl) q = v.
Proof. destruct q; reflexivity. Qed.

Section DeferredQueue.

Variable tls_setup_read_buffer :
  OSSL_RECORD_LAYER -> bool * OSSL_RECORD_LAYER.
Variable OPENSSL_malloc_ok : OSSL_RECORD_LAYER -> bool.
Variable pitem_new_ok : OSSL_RECORD_LAYER -> bool.

Local Abbreviation dtls_rlayer_buffer_record' :=
  (dtls_rlayer_buffer_record tls_setup_read_buffer OPENSSL_malloc_ok
     pitem_new_ok).

(** X7: buffering never lets a deferred queue grow past 100 items: a
    queue of 100 or more is left as it is and the call returns 0, a
    shorter one grows by at most one item. The new read buffer is set
    up by a collaborator, taken not to touch the queue. *)
Theorem buffer_record_keeps_bound (rl : OSSL_RECORD_LAYER) (queue : queue_ref)
  (prio : list byte)
  (Hsetup : forall r, get_queue_at (snd (tls_setup_read_buffer r)) queue
                      = get_queue_at r queue) :
  let size r := pqueue_size (rq_items (get_queue_at r queue)) in
  let res := dtls_rlayer_buffer_record' rl queue prio in
  (100 <= size rl -> res = (0, rl))
  /\ (size rl < 100 -> fst res <> 0)
  /\ size (snd res) <= size rl + 1
  /\ (size rl <= 100 -> size (snd res) <= 100)
  /\ (fst res = 0 \/ fst res = 1 \/ fst res = -1).
Proof.
  intros size res.
  assert (Hcases :
            (100 <= size rl /\ res = (0, rl))
            \/ (size rl < 100 /\ fst res <> 0
                /\ (fst res = 1 \/ fst res = -1)
                /\ size (snd res) <= size rl + 1)).
  { subst res. unfold dtls_rlayer_buffer_record.
    fold (size rl).
    destruct (Z.leb_spec 100 (size rl)) as [Hfull | Hroom];
      [left; split; [exact Hfull | reflexivity] | right].
    split; [exact Hroom | ].
    destruct (negb (OPENSSL_malloc_ok rl) || negb (pitem_new_ok rl)).
    { cbn [fst snd]. split; [discriminate | ].
      split; [right; reflexivity | ].
      unfold size. destruct queue; simpl; lia. }
    cbv zeta.
    pose proof (Hsetup (buffer_handed_over rl)) as Hq.
    destruct (tls_setup_read_buffer (buffer_handed_over rl)) as [ok rl1].
    cbn [snd] in Hq.
    assert (Hsame : size rl1 = size rl).
    { unfold size. rewrite Hq. destruct queue; reflexivity. }
    destruct ok; cbn [negb].
    - destruct (pqueue_insert (rq_items (get_queue_at rl1 queue)) _)
        as [pq | ] eqn:Hins; cbn [fst snd].
      + split; [discriminate | ]. split; [left; reflexivity | ].
        unfold size at 1. rewrite queue_at_set. unfold set_rq_items.
        cbn [rq_items rq_q]. unfold pqueue_size.
        rewrite (pqueue_insert_length _ _ _ Hins).
        rewrite <- Hsame. unfold size, pqueue_size. lia.
      + split; [discriminate | ]. split; [left; reflexivity | lia].
    - cbn [fst snd]. split; [discriminate | ].
      split; [right; reflexivity | lia]. }
  destruct Hcases as [[Hfull Hres] | [Hroom [Hnz [Hret Hsize]]]].
  - rewrite Hres. cbn [fst snd].
    split; [intros _; reflexivity | ].
    split; [lia | ]. split; [lia | ]. split; [lia | left; reflexivity].
  - split; [lia | ]. split; [intros _; exact Hnz | ].
    split; [exact Hsize | ]. split; [lia | right; exact Hret].
Qed.

(** X8: a record that is buffered ahead of everything already queued is
    the next one retrieved, intact: its packet, packet length, read
    buffer and parsed record come back as they were stored, the
    sequence number is taken again from the packet, and the queue is as
    it was before the record was buffered. *)
Theorem buffered_record_comes_back (rl rl1 : OSSL_RECORD_LAYER)
  (queue : queue_ref) (prio : list byte)
  (Hroom : pqueue_size (rq_items (get_queue_at rl queue)) < 100)
  (Hmalloc : OPENSSL_malloc_ok rl = true)
  (Hpitem : pitem_new_ok rl = true)
  (Hsetup : tls_setup_read_buffer (buffer_handed_over rl) = (true, rl1))
  (Hfirst : Forall (fun x => n2l8 prio < priority_value x)
                   (rq_items (get_queue_at rl1 queue))) :
  let stored := dtls_rlayer_buffer_record' rl queue prio in
  let back := dtls_retrieve_rlayer_buffered_record (snd stored) queue in
  fst stored = 1
  /\ fst back = 1
  /\ rl_packet (snd back) = rl_packet rl
  /\ rl_packet_length (snd back) = rl_packet_length rl
  /\ rl_rbuf (snd back) = rl_rbuf rl
  /\ rl_rrec (snd back) = rl_rrec rl
  /\ rl_sequence (snd back)
     = firstn 2 (rl_sequence rl1) ++ firstn 6 (skipn 5 (rl_packet rl))
       ++ skipn 8 (rl_sequence rl1)
  /\ rq_items (get_queue_at (snd back) queue)
     = rq_items (get_queue_at rl1 queue).
Proof.
  intros stored back.
  assert (Hstored :
            stored
            = (1, set_queue_at queue
                    (set_rq_items
                       (pitem_new prio
                          (mkRecordData (rl_packet rl) (rl_packet_length rl)
                                        (rl_rbuf rl) (rl_rrec rl))
                        :: rq_items (get_queue_at rl1 queue))
                       (get_queue_at rl1 queue)) rl1)).
  { subst stored. unfold dtls_rlayer_buffer_record.
    replace (100 <=? pqueue_size (rq_items (get_queue_at rl queue)))
      with false by (symmetry; apply Z.leb_gt; exact Hroom).
    rewrite Hmalloc, Hpitem. cbn [negb orb]. cbv zeta.
    rewrite Hsetup. cbn [negb].
    rewrite pqueue_insert_front; [reflexivity | ].
    unfold priority_value at 1. unfold pitem_new. cbn [priority].
    change 8%nat with SEQ_NUM_SIZE. rewrite n2l8_firstn. exact Hfirst. }
  subst back. rewrite Hstored. cbn [fst snd].
  unfold dtls_retrieve_rlayer_buffered_record, dtls_copy_rlayer_record.
  destruct queue; cbn; repeat split; reflexivity.
Qed.

(** X9: a record whose priority is already in the queue is not queued a
    second time: the call still returns 1 and the queue is the one the
    new read buffer was set up with. *)
Theorem buffer_record_drops_duplicate (rl rl1 : OSSL_RECORD_LAYER)
  (queue : queue_ref) (prio : list byte)
  (Hroom : pqueue_size (rq_items (get_queue_at rl queue)) < 100)
  (Hmalloc : OPENSSL_malloc_ok rl = true)
  (Hpitem : pitem_new_ok rl = true)
  (Hsetup : tls_setup_read_buffer (buffer_handed_over rl) = (true, rl1))
  (Hbuilt : pqueue_built (rq_items (get_queue_at rl1 queue)))
  (Hdup : exists x, In x (rq_items (get_queue_at rl1 queue))
                    /\ priority_value x = n2l8 prio) :
  dtls_rlayer_buffer_record' rl queue prio = (1, rl1).
Proof.
  unfold dtls_rlayer_buffer_record.
  replace (100 <=? pqueue_size (rq_items (get_queue_at rl queue)))
    with false by (symmetry; apply Z.leb_gt; exact Hroom).
  rewrite Hmalloc, Hpitem. cbn [negb orb]. cbv zeta.
  rewrite Hsetup. cbn [negb].
  rewrite pqueue_insert_duplicate; [reflexivity | | ].
  - apply pqueue_built_sorted. exact Hbuilt.
  - destruct Hdup as [x [Hin Heq]]. exists x. split; [exact Hin | ].
    rewrite Heq. unfold priority_value, pitem_new. cbn [priority].
    change 8%nat with SEQ_NUM_SIZE. rewrite n2l8_firstn. reflexivity.
Qed.

End DeferredQueue.

(** ** The read path, pass by pass *)

Section ReadPath.

Variable SSL3_RT_MAX_ENCRYPTED_LENGTH : Z.
Variable SSL3_RT_MAX_COMPRESSED_LENGTH : Z.
Variable SSL3_RT_MAX_ENCRYPTED_OVERHEAD : Z.
Variable EVP_MAX_MD_SIZE : Z.
Variable mac : OSSL_RECORD_LAYER -> SSL3_RECORD -> Z -> Z * list byte.
Variable cipher :
  OSSL_RECORD_LAYER -> SSL3_RECORD -> Z -> Z -> Z -> cipher_result.
Variable tls_do_uncompress :
  OSSL_RECORD_LAYER -> SSL3_RECORD -> bool * SSL3_RECORD.
Variable read_n :
  OSSL_RECORD_LAYER -> Z -> Z -> Z -> Z -> Z * Z * OSSL_RECORD_LAYER.
Variable tls_setup_read_buffer :
  OSSL_RECORD_LAYER -> bool * OSSL_RECORD_LAYER.
Variable OPENSSL_malloc_ok : OSSL_RECORD_LAYER -> bool.
Variable pitem_new_ok : OSSL_RECORD_LAYER -> bool.

Local Abbreviation check_header' :=
  (check_header SSL3_RT_MAX_ENCRYPTED_LENGTH SSL3_RT_MAX_ENCRYPTED_OVERHEAD).
Local Abbreviation get_header' :=
  (get_header SSL3_RT_MAX_ENCRYPTED_LENGTH SSL3_RT_MAX_ENCRYPTED_OVERHEAD
     read_n).
Local Abbreviation get_body' := (get_body read_n).
Local Abbreviation process_and_deliver' :=
  (process_and_deliver SSL3_RT_MAX_ENCRYPTED_LENGTH
     SSL3_RT_MAX_COMPRESSED_LENGTH EVP_MAX_MD_SIZE mac cipher
     tls_do_uncompress).
Local Abbreviation dtls_rlayer_buffer_record' :=
  (dtls_rlayer_buffer_record tls_setup_read_buffer OPENSSL_malloc_ok
     pitem_new_ok).
Local Abbreviation dispatch_record' :=
  (dispatch_record SSL3_RT_MAX_ENCRYPTED_LENGTH SSL3_RT_MAX_COMPRESSED_LENGTH
     EVP_MAX_MD_SIZE mac cipher tls_do_uncompress tls_setup_read_buffer
     OPENSSL_malloc_ok pitem_new_ok).
Local Abbreviation get_more_records_pass' :=
  (get_more_records_pass SSL3_RT_MAX_ENCRYPTED_LENGTH
     SSL3_RT_MAX_COMPRESSED_LENGTH SSL3_RT_MAX_ENCRYPTED_OVERHEAD
     EVP_MAX_MD_SIZE mac cipher tls_do_uncompress read_n
     tls_setup_read_buffer OPENSSL_malloc_ok pitem_new_ok).
Local Abbreviation get_more_records_loop' :=
  (get_more_records_loop SSL3_RT_MAX_ENCRYPTED_LENGTH
     SSL3_RT_MAX_COMPRESSED_LENGTH SSL3_RT_MAX_ENCRYPTED_OVERHEAD
     EVP_MAX_MD_SIZE mac cipher tls_do_uncompress read_n
     tls_setup_read_buffer OPENSSL_malloc_ok pitem_new_ok).
Local Abbreviation dtls_get_more_records' :=
  (dtls_get_more_records SSL3_RT_MAX_ENCRYPTED_LENGTH
     SSL3_RT_MAX_COMPRESSED_LENGTH SSL3_RT_MAX_ENCRYPTED_OVERHEAD
     EVP_MAX_MD_SIZE mac cipher tls_do_uncompress read_n
     tls_setup_read_buffer OPENSSL_malloc_ok pitem_new_ok).

Lemma pass_with_empty_queue (rl : OSSL_RECORD_LAYER) :
  rq_items (rl_processed_rcds rl) = [] ->
  get_more_records_pass' rl
  = match get_header' rl with
    | inl r => r
    | inr rl =>
        match get_body' rl with
        | inl r => r
        | inr rl => dispatch_record' rl
        end
    end.
Proof.
  intros Hq. unfold get_more_records_pass, dtls_retrieve_rlayer_buffered_record.
  simpl get_queue_at. rewrite Hq. reflexivity.
Qed.

(** X10: a record waiting in the processed queue is served before
    anything is read from the transport: the call returns success with
    that record installed (packet, packet length, read buffer, parsed
    record), one record available, the item removed from the queue,
    and the transport and both replay windows untouched. *)
Theorem processed_record_served_first (rl : OSSL_RECORD_LAYER) (item : pitem)
  (rest : pqueue) (fuel : nat) (buf : list byte)
  (Hq : rq_items (rl_processed_rcds rl) = item :: rest)
  (Hbuf : sb_buf (rl_rbuf rl) = Some buf) :
  exists rl',
    dtls_get_more_records' (S fuel) rl
    = Some (OSSL_RECORD_RETURN_SUCCESS, rl')
    /\ rl_num_recs rl' = 1
    /\ rl_packet rl' = rd_packet (pi_data item)
    /\ rl_packet_length rl' = rd_packet_length (pi_data item)
    /\ rl_rbuf rl' = rd_rbuf (pi_data item)
    /\ rl_rrec rl' = rd_rrec (pi_data item)
    /\ rq_items (rl_processed_rcds rl') = rest
    /\ rl_unprocessed_rcds rl' = rl_unprocessed_rcds rl
    /\ rl_bio rl' = rl_bio rl
    /\ same_windows rl rl'.
Proof.
  unfold dtls_get_more_records. cbv zeta.
  simpl rl_rbuf. rewrite Hbuf. cbn [negb].
  cbn [get_more_records_loop].
  unfold get_more_records_pass, dtls_retrieve_rlayer_buffered_record.
  simpl get_queue_at. simpl rl_processed_rcds. rewrite Hq.
  cbn [pqueue_pop]. unfold dtls_copy_rlayer_record. cbv zeta.
  eexists. split; [reflexivity | ].
  simpl. repeat split; reflexivity.
Qed.

(** X11: what the transport reports when no header could be read is
    passed on unchanged: when [read_n] returns less than success (retry,
    end of file, an error), the call returns that very value with the
    layer as [read_n] left it. *)
Theorem transport_result_passed_on (rl0 rl1 : OSSL_RECORD_LAYER)
  (rret n : Z) (fuel : nat)
  (Hq : rq_items (rl_processed_rcds rl0) = [])
  (Hst : rl_rstate rl0 <> SSL_ST_READ_BODY
         \/ rl_packet_length rl0 < DTLS1_RT_HEADER_LENGTH)
  (Hread : read_n rl0 DTLS1_RT_HEADER_LENGTH (sb_len (rl_rbuf rl0)) 0 1
           = (rret, n, rl1))
  (Hret : rret < OSSL_RECORD_RETURN_SUCCESS) :
  get_more_records_pass' rl0 = Return rret rl1
  /\ get_more_records_loop' (S fuel) rl0 = Some (rret, rl1).
Proof.
  assert (Hpass : get_more_records_pass' rl0 = Return rret rl1).
  { rewrite (pass_with_empty_queue rl0 Hq). unfold get_header.
    replace (negb (rl_rstate rl0 =? SSL_ST_READ_BODY)
             || (rl_packet_length rl0 <? DTLS1_RT_HEADER_LENGTH)) with true.
    - rewrite Hread.
      replace (rret <? OSSL_RECORD_RETURN_SUCCESS) with true
        by (symmetry; apply Z.ltb_lt; exact Hret).
      reflexivity.
    - symmetry. apply orb_true_iff.
      destruct Hst as [H | H];
        [left; apply negb_true_iff, Z.eqb_neq; exact H
        | right; apply Z.ltb_lt; exact H]. }
  split; [exact Hpass | ].
  cbn [get_more_records_loop]. rewrite Hpass. reflexivity.
Qed.

(** The header branch once [read_n] has succeeded. *)
Lemma header_branch (rl0 rl1 : OSSL_RECORD_LAYER) (rret n : Z) :
  rl_rstate rl0 <> SSL_ST_READ_BODY
  \/ rl_packet_length rl0 < DTLS1_RT_HEADER_LENGTH ->
  read_n rl0 DTLS1_RT_HEADER_LENGTH (sb_len (rl_rbuf rl0)) 0 1
  = (rret, n, rl1) ->
  OSSL_RECORD_RETURN_SUCCESS <= rret ->
  get_header' rl0
  = if negb (rl_packet_length rl1 =? DTLS1_RT_HEADER_LENGTH)
    then inl (Again (set_rl_packet_length 0 rl1))
    else check_header'
           (parse_header (set_rl_rstate SSL_ST_READ_BODY rl1)).
Proof.
  intros Hst Hread Hret. unfold get_header.
  replace (negb (rl_rstate rl0 =? SSL_ST_READ_BODY)
           || (rl_packet_length rl0 <? DTLS1_RT_HEADER_LENGTH)) with true.
  - rewrite Hread.
    replace (rret <? OSSL_RECORD_RETURN_SUCCESS) with false
      by (symmetry; apply Z.ltb_ge; exact Hret).
    reflexivity.
  - symmetry. apply orb_true_iff.
    destruct Hst as [H | H];
      [left; apply negb_true_iff, Z.eqb_neq; exact H
      | right; apply Z.ltb_lt; exact H].
Qed.

(** X12: a datagram that does not hold a whole header, or whose header
    has the wrong major version byte or announces a length above the
    encrypted maximum or above the fragment limit plus overhead, is
    dropped on the header alone: the pass ends in [goto again] with the
    packet length reset, without a second read, and neither an alert
    nor a delivered record nor a change to the windows and queues. *)
Theorem bad_header_dropped (rl0 rl1 : OSSL_RECORD_LAYER) (rret n : Z)
  (Hq : rq_items (rl_processed_rcds rl0) = [])
  (Hst : rl_rstate rl0 <> SSL_ST_READ_BODY
         \/ rl_packet_length rl0 < DTLS1_RT_HEADER_LENGTH)
  (Hread : read_n rl0 DTLS1_RT_HEADER_LENGTH (sb_len (rl_rbuf rl0)) 0 1
           = (rret, n, rl1))
  (Hret : OSSL_RECORD_RETURN_SUCCESS <= rret) :
  let p := rl_packet rl1 in
  let rl2 := parse_header (set_rl_rstate SSL_ST_READ_BODY rl1) in
  (rl_packet_length rl1 <> DTLS1_RT_HEADER_LENGTH ->
   get_more_records_pass' rl0 = Again (set_rl_packet_length 0 rl1))
  /\ (rl_packet_length rl1 = DTLS1_RT_HEADER_LENGTH ->
      byte_at p 1 <> (if rl_version rl1 =? DTLS_ANY_VERSION
                      then DTLS1_VERSION_MAJOR
                      else Z.shiftr (rl_version rl1) 8)
      \/ SSL3_RT_MAX_ENCRYPTED_LENGTH < n2s (skipn 11 p)
      \/ rl_max_frag_len rl1 + SSL3_RT_MAX_ENCRYPTED_OVERHEAD
         < n2s (skipn 11 p) ->
      get_more_records_pass' rl0 = Again (discarded rl2)
      /\ rl_packet_length (discarded rl2) = 0
      /\ rr_length (rl_rrec (discarded rl2)) = 0
      /\ rl_alert (discarded rl2) = rl_alert rl1
      /\ rl_num_recs (discarded rl2) = rl_num_recs rl1
      /\ rl_unprocessed_rcds (discarded rl2) = rl_unprocessed_rcds rl1
      /\ rl_processed_rcds (discarded rl2) = rl_processed_rcds rl1
      /\ rl_bio (discarded rl2) = rl_bio rl1
      /\ same_windows rl1 (discarded rl2)).
Proof.
  intros p rl2.
  pose proof (header_branch rl0 rl1 rret n Hst Hread Hret) as Hh.
  split.
  - intros Hlen. rewrite (pass_with_empty_queue rl0 Hq), Hh.
    replace (rl_packet_length rl1 =? DTLS1_RT_HEADER_LENGTH) with false
      by (symmetry; apply Z.eqb_neq; exact Hlen).
    reflexivity.
  - intros Hlen Hbad.
    split; [ | repeat split; reflexivity].
    rewrite (pass_with_empty_queue rl0 Hq), Hh.
    rewrite Hlen, Z.eqb_refl. cbn [negb]. fold rl2.
    assert (Hchk : check_header' rl2 = inl (discard rl2));
      [ | rewrite Hchk; reflexivity].
    unfold check_header. cbv zeta.
    change (rl_packet rl2) with p.
    change (rl_version rl2) with (rl_version rl1).
    change (rl_max_frag_len rl2) with (rl_max_frag_len rl1).
    change (rr_length (rl_rrec rl2)) with (n2s (skipn 11 p)).
    destruct (negb (rl_is_first_record rl2)
              && negb (rr_type (rl_rrec rl2) =? SSL3_RT_ALERT)
              && negb (header_version p =? rl_version rl1));
      [reflexivity | ].
    destruct (Z.eqb_spec (byte_at p 1)
                (if rl_version rl1 =? DTLS_ANY_VERSION
                 then DTLS1_VERSION_MAJOR
                 else Z.shiftr (rl_version rl1) 8)) as [Hmaj | Hmaj];
      [ | reflexivity].
    cbn [negb].
    destruct (Z.ltb_spec SSL3_RT_MAX_ENCRYPTED_LENGTH (n2s (skipn 11 p)));
      [reflexivity | ].
    destruct (Z.ltb_spec (rl_max_frag_len rl1 + SSL3_RT_MAX_ENCRYPTED_OVERHEAD)
                (n2s (skipn 11 p))); [reflexivity | ].
    destruct Hbad as [H1 | [H1 | H1]]; [contradiction | lia | lia].
Qed.

(** X13: a body that cannot be read in full is not processed: when the
    second [read_n] fails or delivers fewer bytes than the header
    announced, the call returns fatal if [read_n] recorded an alert, and
    otherwise drops the record and goes on to the next datagram. *)
Theorem short_body_dropped (rl0 rlh rl1 : OSSL_RECORD_LAYER) (rret n : Z)
  (Hq : rq_items (rl_processed_rcds rl0) = [])
  (Hh : get_header' rl0 = inr rlh)
  (Hmore : to_uint64 (rl_packet_length rlh - DTLS1_RT_HEADER_LENGTH)
           < rr_length (rl_rrec rlh))
  (Hread : read_n rlh (rr_length (rl_rrec rlh)) (rr_length (rl_rrec rlh)) 1 1
           = (rret, n, rl1))
  (Hshort : rret < OSSL_RECORD_RETURN_SUCCESS \/ n <> rr_length (rl_rrec rlh)) :
  (rl_alert rl1 <> SSL_AD_NO_ALERT ->
   get_more_records_pass' rl0 = Return OSSL_RECORD_RETURN_FATAL rl1)
  /\ (rl_alert rl1 = SSL_AD_NO_ALERT ->
      get_more_records_pass' rl0 = Again (discarded rl1)
      /\ forall fuel,
          get_more_records_loop' (S fuel) rl0
          = get_more_records_loop' fuel (discarded rl1)).
Proof.
  assert (Hbody :
            get_body' rlh
            = if negb (alert_eqb (rl_alert rl1) SSL_AD_NO_ALERT)
              then inl (Return OSSL_RECORD_RETURN_FATAL rl1)
              else inl (discard rl1)).
  { unfold get_body. cbv zeta.
    replace (to_uint64 (rl_packet_length rlh - DTLS1_RT_HEADER_LENGTH)
             <? rr_length (rl_rrec rlh)) with true
      by (symmetry; apply Z.ltb_lt; exact Hmore).
    rewrite Hread.
    replace ((rret <? OSSL_RECORD_RETURN_SUCCESS)
             || negb (n =? rr_length (rl_rrec rlh))) with true.
    - destruct (negb (alert_eqb (rl_alert rl1) SSL_AD_NO_ALERT)); reflexivity.
    - symmetry. apply orb_true_iff.
      destruct Hshort as [H | H];
        [left; apply Z.ltb_lt; exact H
        | right; apply negb_true_iff, Z.eqb_neq; exact H]. }
  rewrite (pass_with_empty_queue rl0 Hq), Hh, Hbody.
  split.
  - intros Ha.
    replace (alert_eqb (rl_alert rl1) SSL_AD_NO_ALERT) with false;
      [reflexivity | ].
    symmetry. apply not_true_iff_false. rewrite alert_eqb_eq. exact Ha.
  - intros Ha. rewrite Ha. cbn [alert_eqb negb].
    split; [reflexivity | ].
    intros fuel. cbn [get_more_records_loop].
    rewrite (pass_with_empty_queue rl0 Hq), Hh, Hbody, Ha. reflexivity.
Qed.

(** X14: a record that belongs neither to the current epoch nor, by the
    router's rule, to the next one is dropped as it is: no replay
    check, no processing, no queuing, no alert; only the record and
    packet lengths are reset. This covers old epochs, epochs further
    ahead, and records of the next epoch other than handshake and
    alert. *)
Theorem unroutable_record_dropped (rl : OSSL_RECORD_LAYER)
  (Hep : 0 <= rl_epoch rl < 65536)
  (Hcur : rr_epoch (rl_rrec rl) <> rl_epoch rl)
  (Hnext : ~ routes_to_next rl (rl_rrec rl)) :
  dispatch_record' rl = Again (discarded rl)
  /\ rl_alert (discarded rl) = rl_alert rl
  /\ rl_unprocessed_rcds (discarded rl) = rl_unprocessed_rcds rl
  /\ rl_processed_rcds (discarded rl) = rl_processed_rcds rl
  /\ rr_seq_num (rl_rrec (discarded rl)) = rr_seq_num (rl_rrec rl)
  /\ same_windows rl (discarded rl).
Proof.
  split; [ | repeat split; reflexivity].
  unfold dispatch_record.
  assert (Hroute : dtls_get_bitmap rl (rl_rrec rl) = (None, 0)).
  { pose proof (get_bitmap_next_iff rl (rl_rrec rl) Hep) as Hiff.
    unfold dtls_get_bitmap in *.
    replace (rr_epoch (rl_rrec rl) =? rl_epoch rl) with false in *
      by (symmetry; apply Z.eqb_neq; exact Hcur).
    match goal with
    | |- (if ?c then _ else _) = _ => destruct c
    end; [exfalso; apply Hnext, Hiff; reflexivity | reflexivity]. }
  rewrite Hroute. reflexivity.
Qed.

(** What [dispatch_record] does with a record of the current epoch. *)
Lemma dispatch_current_epoch (rl : OSSL_RECORD_LAYER) :
  rr_epoch (rl_rrec rl) = rl_epoch rl ->
  dispatch_record' rl
  = let '(seen_ok, rl1) :=
      if negb (rl_is_sctp rl)
      then dtls_record_replay_check rl ref_bitmap
      else (1, rl) in
    if seen_ok =? 0 then discard rl1
    else if rr_length (rl_rrec rl1) =? 0 then Again rl1
    else process_and_deliver' rl1 ref_bitmap.
Proof.
  intros Hcur. unfold dispatch_record, dtls_get_bitmap.
  replace (rr_epoch (rl_rrec rl) =? rl_epoch rl) with true
    by (symmetry; apply Z.eqb_eq; exact Hcur).
  destruct (if negb (rl_is_sctp rl)
            then dtls_record_replay_check rl ref_bitmap
            else (1, rl)) as [seen_ok rl1].
  reflexivity.
Qed.

(** X15: a record of the current epoch that the replay window refuses
    (a duplicate or a stale one) is dropped before any decryption: no
    alert, windows and queues as they were. On a transport flagged as
    SCTP the replay check is skipped and the same record goes to
    processing. *)
Theorem refused_record_dropped (rl : OSSL_RECORD_LAYER)
  (Hcur : rr_epoch (rl_rrec rl) = rl_epoch rl)
  (Hrefused : class_of_exit (replay_check_exit (rl_sequence rl) (rl_bitmap rl))
              <> cls_fresh) :
  (rl_is_sctp rl = false ->
   dispatch_record' rl = Again (discarded rl)
   /\ rl_alert (discarded rl) = rl_alert rl
   /\ rl_unprocessed_rcds (discarded rl) = rl_unprocessed_rcds rl
   /\ same_windows rl (discarded rl))
  /\ (rl_is_sctp rl = true -> rr_length (rl_rrec rl) <> 0 ->
      dispatch_record' rl = process_and_deliver' rl ref_bitmap).
Proof.
  rewrite (dispatch_current_epoch rl Hcur).
  split.
  - intros Hsctp. split; [ | repeat split; reflexivity].
    rewrite Hsctp. cbn [negb]. rewrite replay_check_returns.
    simpl get_bitmap_at.
    destruct (class_of_exit (replay_check_exit (rl_sequence rl) (rl_bitmap rl)));
      [exfalso; apply Hrefused; reflexivity | reflexivity | reflexivity].
  - intros Hsctp Hlen. rewrite Hsctp. cbn [negb Z.eqb].
    replace (rr_length (rl_rrec rl) =? 0) with false
      by (symmetry; apply Z.eqb_neq; exact Hlen).
    reflexivity.
Qed.

(** X16: a record that was delivered is dropped when it arrives again:
    whenever the current window is the one left by the replay update
    for a sequence number, a record of the current epoch carrying that
    sequence number is discarded by the next pass. *)
Theorem delivered_record_not_delivered_again (rl0 rl : OSSL_RECORD_LAYER)
  (Hwindow : rl_bitmap rl
             = rl_bitmap (dtls_record_bitmap_update rl0 ref_bitmap))
  (Hseq : rl_sequence rl = rl_sequence rl0)
  (Hcur : rr_epoch (rl_rrec rl) = rl_epoch rl)
  (Hsctp : rl_is_sctp rl = false) :
  dispatch_record' rl = Again (discarded rl)
  /\ same_windows rl (discarded rl)
  /\ rl_alert (discarded rl) = rl_alert rl.
Proof.
  split; [ | split; [split; reflexivity | reflexivity]].
  rewrite (dispatch_current_epoch rl Hcur). rewrite Hsctp. cbn [negb].
  rewrite replay_check_returns. simpl get_bitmap_at.
  rewrite Hwindow, Hseq.
  destruct (exit_after_update rl0 ref_bitmap) as [He | [He _]];
    simpl get_bitmap_at in He; rewrite He; reflexivity.
Qed.

(** X17: outside the handshake a record of the next epoch is not
    queued: with [in_init] clear it is dropped, and the unprocessed
    queue, the alert and both replay windows stay as they are. *)
Theorem next_epoch_record_outside_handshake (rl rl1 : OSSL_RECORD_LAYER)
  (b : bitmap_ref) (seen_ok : Z)
  (Hroute : dtls_get_bitmap rl (rl_rrec rl) = (Some b, 1))
  (Hreplay : (if negb (rl_is_sctp rl)
              then dtls_record_replay_check rl b else (1, rl))
             = (seen_ok, rl1))
  (Hok : seen_ok <> 0)
  (Hlen : rr_length (rl_rrec rl1) <> 0)
  (Hinit : rl_in_init rl1 = 0) :
  dispatch_record' rl = Again (discarded rl1)
  /\ rl_unprocessed_rcds (discarded rl1) = rl_unprocessed_rcds rl
  /\ rl_alert (discarded rl1) = rl_alert rl
  /\ same_windows rl (discarded rl1).
Proof.
  assert (Hrl1 : rl1 = rl \/ rl1 = SSL3_RECORD_set_seq_num (rl_sequence rl) rl).
  { destruct (negb (rl_is_sctp rl)).
    - rewrite replay_check_returns in Hreplay.
      destruct (class_of_exit _); inversion Hreplay; auto.
    - inversion Hreplay; auto. }
  split.
  - unfold dispatch_record. rewrite Hroute, Hreplay.
    replace (seen_ok =? 0) with false by (symmetry; apply Z.eqb_neq; exact Hok).
    replace (rr_length (rl_rrec rl1) =? 0) with false
      by (symmetry; apply Z.eqb_neq; exact Hlen).
    rewrite Hinit. reflexivity.
  - destruct Hrl1 as [-> | ->]; repeat split; reflexivity.
Qed.

(** What a pass leaves of the replay windows, and what it returns. The
    transport and the buffer allocator are collaborators, taken not to
    touch the windows. *)
Lemma pass_windows
  (Hread : forall r n m e c, same_windows r (snd (read_n r n m e c)))
  (Hsetup : forall r, same_windows r (snd (tls_setup_read_buffer r)))
  (rl : OSSL_RECORD_LAYER) :
  match get_more_records_pass' rl with
  | Again rl' => same_windows rl rl'
  | Return ret rl' =>
      ret <= OSSL_RECORD_RETURN_SUCCESS
      /\ (ret = OSSL_RECORD_RETURN_SUCCESS -> rl_num_recs rl' = 1)
      /\ (ret <> OSSL_RECORD_RETURN_SUCCESS -> same_windows rl rl')
  end.
Proof.
  unfold get_more_records_pass.
  assert (Hretr : forall q,
             same_windows rl (snd (dtls_retrieve_rlayer_buffered_record rl q))).
  { intros q. unfold dtls_retrieve_rlayer_buffered_record.
    destruct (pqueue_pop (rq_items (get_queue_at rl q))) as [[item rest] | ];
      [ | apply same_windows_refl].
    destruct q; split; reflexivity. }
  specialize (Hretr ref_processed_rcds).
  destruct (dtls_retrieve_rlayer_buffered_record rl ref_processed_rcds)
    as [r rla]. cbn [snd] in Hretr.
  assert (Hserved :
            match Return OSSL_RECORD_RETURN_SUCCESS (set_rl_num_recs 1 rla) with
            | Again rl' => same_windows rl rl'
            | Return ret rl' =>
                ret <= OSSL_RECORD_RETURN_SUCCESS
                /\ (ret = OSSL_RECORD_RETURN_SUCCESS -> rl_num_recs rl' = 1)
                /\ (ret <> OSSL_RECORD_RETURN_SUCCESS -> same_windows rl rl')
            end).
  { split; [reflexivity | split; [reflexivity | ]].
    intros H. exfalso. apply H. reflexivity. }
  destruct r as [| r | r]; try exact Hserved.
  (* the header *)
  assert (Hhdr :
            match get_header' rla with
            | inl (Again rl') => same_windows rl rl'
            | inl (Return ret rl') =>
                ret < OSSL_RECORD_RETURN_SUCCESS /\ same_windows rl rl'
            | inr rl' => same_windows rl rl'
            end).
  { unfold get_header.
    destruct (negb (rl_rstate rla =? SSL_ST_READ_BODY)
              || (rl_packet_length rla <? DTLS1_RT_HEADER_LENGTH));
      [ | exact Hretr].
    pose proof (Hread rla DTLS1_RT_HEADER_LENGTH (sb_len (rl_rbuf rla)) 0 1)
      as Hr.
    destruct (read_n rla DTLS1_RT_HEADER_LENGTH (sb_len (rl_rbuf rla)) 0 1)
      as [[rret n] rlb]. cbn [snd] in Hr.
    pose proof (same_windows_trans _ _ _ Hretr Hr) as Hb.
    destruct (Z.ltb_spec rret OSSL_RECORD_RETURN_SUCCESS);
      [split; assumption | ].
    destruct (negb (rl_packet_length rlb =? DTLS1_RT_HEADER_LENGTH));
      [apply (same_windows_trans _ _ _ Hb); split; reflexivity | ].
    assert (Hp : same_windows rl
                   (parse_header (set_rl_rstate SSL_ST_READ_BODY rlb)))
      by (apply (same_windows_trans _ _ _ Hb); split; reflexivity).
    assert (Hd : same_windows rl
                   (discarded
                      (parse_header (set_rl_rstate SSL_ST_READ_BODY rlb))))
      by (apply (same_windows_trans _ _ _ Hp); split; reflexivity).
    unfold check_header, discard. cbv zeta.
    repeat match goal with
           | |- context [if ?c then inl _ else _] => destruct c
           end; assumption. }
  destruct (get_header' rla) as [[rlh | ret rlh] | rlh].
  { exact Hhdr. }
  { destruct Hhdr as [Hlt Hw]. unfold OSSL_RECORD_RETURN_SUCCESS in *.
    split; [lia | split; [lia | intros _; exact Hw]]. }
  (* the body *)
  assert (Hbody :
            match get_body' rlh with
            | inl (Again rl') => same_windows rl rl'
            | inl (Return ret rl') =>
                ret = OSSL_RECORD_RETURN_FATAL /\ same_windows rl rl'
            | inr rl' => same_windows rl rl'
            end).
  { unfold get_body. cbv zeta.
    destruct (to_uint64 (rl_packet_length rlh - DTLS1_RT_HEADER_LENGTH)
              <? rr_length (rl_rrec rlh));
      [ | apply (same_windows_trans _ _ _ Hhdr); split; reflexivity].
    pose proof (Hread rlh (rr_length (rl_rrec rlh)) (rr_length (rl_rrec rlh))
                  1 1) as Hr.
    destruct (read_n rlh (rr_length (rl_rrec rlh)) (rr_length (rl_rrec rlh))
                1 1) as [[rret n] rlb]. cbn [snd] in Hr.
    pose proof (same_windows_trans _ _ _ Hhdr Hr) as Hb.
    destruct ((rret <? OSSL_RECORD_RETURN_SUCCESS)
              || negb (n =? rr_length (rl_rrec rlh)));
      [ | apply (same_windows_trans _ _ _ Hb); split; reflexivity].
    destruct (negb (alert_eqb (rl_alert rlb) SSL_AD_NO_ALERT));
      [split; [reflexivity | exact Hb]
      | apply (same_windows_trans _ _ _ Hb); split; reflexivity]. }
  destruct (get_body' rlh) as [[rlc | ret rlc] | rlc].
  { exact Hbody. }
  { destruct Hbody as [-> Hw].
    split; [discriminate | split; [discriminate | intros _; exact Hw]]. }
  (* the record *)
  unfold dispatch_record.
  destruct (dtls_get_bitmap rlc (rl_rrec rlc)) as [[bitmap | ] is_next];
    [ | apply (same_windows_trans _ _ _ Hbody); split; reflexivity].
  assert (Hchk : forall seen_ok rld,
             (if negb (rl_is_sctp rlc)
              then dtls_record_replay_check rlc bitmap else (1, rlc))
             = (seen_ok, rld) -> same_windows rl rld).
  { intros seen_ok rld Heq.
    apply (same_windows_trans _ _ _ Hbody).
    destruct (negb (rl_is_sctp rlc)).
    - rewrite replay_check_returns in Heq.
      destruct (class_of_exit _); inversion Heq; split; reflexivity.
    - inversion Heq. apply same_windows_refl. }
  destruct (if negb (rl_is_sctp rlc)
            then dtls_record_replay_check rlc bitmap else (1, rlc))
    as [seen_ok rld] eqn:Heq.
  specialize (Hchk seen_ok rld eq_refl).
  destruct (seen_ok =? 0);
    [apply (same_windows_trans _ _ _ Hchk); split; reflexivity | ].
  destruct (rr_length (rl_rrec rld) =? 0); [exact Hchk | ].
  destruct (negb (is_next =? 0)).
  - assert (Hbuf : forall prio,
               same_windows rl
                 (snd (dtls_rlayer_buffer_record' rld ref_unprocessed_rcds prio))).
    { intros prio. apply (same_windows_trans _ _ _ Hchk).
      unfold dtls_rlayer_buffer_record.
      destruct (100 <=? _); [apply same_windows_refl | ].
      destruct (negb (OPENSSL_malloc_ok rld) || negb (pitem_new_ok rld));
        [split; reflexivity | ].
      cbv zeta.
      pose proof (Hsetup (buffer_handed_over rld)) as Hs.
      destruct (tls_setup_read_buffer (buffer_handed_over rld)) as [ok rle].
      cbn [snd] in Hs.
      assert (Hrle : same_windows rld rle)
        by (apply (same_windows_trans _ (buffer_handed_over rld));
            [split; reflexivity | exact Hs]).
      destruct (negb ok); [exact Hrle | ].
      destruct (pqueue_insert _ _); [ | exact Hrle].
      apply (same_windows_trans _ _ _ Hrle). split; reflexivity. }
    destruct (negb (rl_in_init rld =? 0)).
    + specialize (Hbuf (rr_seq_num (rl_rrec rld))).
      destruct (dtls_rlayer_buffer_record' rld ref_unprocessed_rcds
                  (rr_seq_num (rl_rrec rld))) as [r rle].
      cbn [snd] in Hbuf. cbn [andb].
      destruct (r <? 0).
      * split; [discriminate | split; [discriminate | intros _; exact Hbuf]].
      * apply (same_windows_trans _ _ _ Hbuf). split; reflexivity.
    + cbn [andb]. apply (same_windows_trans _ _ _ Hchk). split; reflexivity.
  - unfold process_and_deliver.
    destruct (process_record_windows SSL3_RT_MAX_ENCRYPTED_LENGTH
                SSL3_RT_MAX_COMPRESSED_LENGTH EVP_MAX_MD_SIZE mac cipher
                tls_do_uncompress rld bitmap) as [Hv Hw].
    destruct (dtls_process_record SSL3_RT_MAX_ENCRYPTED_LENGTH
                SSL3_RT_MAX_COMPRESSED_LENGTH EVP_MAX_MD_SIZE mac cipher
                tls_do_uncompress rld bitmap) as [ok rle].
    cbn [fst snd] in Hv, Hw.
    destruct Hv as [-> | ->]; cbn [Z.eqb].
    + specialize (Hw eq_refl).
      pose proof (same_windows_trans _ _ _ Hchk Hw) as He.
      destruct (negb (alert_eqb (rl_alert rle) SSL_AD_NO_ALERT)).
      * split; [discriminate | split; [discriminate | intros _; exact He]].
      * apply (same_windows_trans _ _ _ He). split; reflexivity.
    + split; [reflexivity | split; [reflexivity | ]].
      intros H. exfalso. apply H. reflexivity.
Qed.

Lemma loop_windows
  (Hread : forall r n m e c, same_windows r (snd (read_n r n m e c)))
  (Hsetup : forall r, same_windows r (snd (tls_setup_read_buffer r)))
  (fuel : nat) :
  forall (rl rl' : OSSL_RECORD_LAYER) (ret : Z),
    get_more_records_loop' fuel rl = Some (ret, rl') ->
    ret <= OSSL_RECORD_RETURN_SUCCESS
    /\ (ret = OSSL_RECORD_RETURN_SUCCESS -> rl_num_recs rl' = 1)
    /\ (ret <> OSSL_RECORD_RETURN_SUCCESS -> same_windows rl rl').
Proof.
  induction fuel as [| fuel IH]; intros rl rl' ret Hloop;
    [discriminate | ].
  cbn [get_more_records_loop] in Hloop.
  pose proof (pass_windows Hread Hsetup rl) as Hpass.
  destruct (get_more_records_pass' rl) as [rla | r rla].
  - destruct (IH _ _ _ Hloop) as [Hle [Hone Hw]].
    split; [exact Hle | split; [exact Hone | ]].
    intros Hne. apply (same_windows_trans _ _ _ Hpass). apply Hw, Hne.
  - inversion Hloop; subst. exact Hpass.
Qed.

(** X18: whatever [dtls_get_more_records] returns is at most
    [OSSL_RECORD_RETURN_SUCCESS]; a success comes with exactly one record
    to hand out; and a return other than success leaves both replay
    windows as they were on entry, however many records were read and
    dropped on the way. The transport and the buffer allocator are
    collaborators taken not to touch the windows. *)
Theorem windows_move_only_on_success
  (Hread : forall r n m e c, same_windows r (snd (read_n r n m e c)))
  (Hsetup : forall r, same_windows r (snd (tls_setup_read_buffer r)))
  (fuel : nat) (rl rl' : OSSL_RECORD_LAYER) (ret : Z)
  (Hret : dtls_get_more_records' fuel rl = Some (ret, rl')) :
  ret <= OSSL_RECORD_RETURN_SUCCESS
  /\ (ret = OSSL_RECORD_RETURN_SUCCESS -> rl_num_recs rl' = 1)
  /\ (ret <> OSSL_RECORD_RETURN_SUCCESS -> same_windows rl rl').
Proof.
  unfold dtls_get_more_records in Hret. cbv zeta in Hret.
  set (rl0 := set_rl_num_released 0 (set_rl_curr_rec 0 (set_rl_num_recs 0 rl)))
    in *.
  assert (H0 : same_windows rl rl0) by (split; reflexivity).
  assert (Hs : forall ok rl1,
             match sb_buf (rl_rbuf rl0) with
             | None => tls_setup_read_buffer rl0
             | Some _ => (true, rl0)
             end = (ok, rl1) -> same_windows rl rl1).
  { intros ok rl1 Heq. apply (same_windows_trans _ _ _ H0).
    destruct (sb_buf (rl_rbuf rl0)).
    - inversion Heq. apply same_windows_refl.
    - pose proof (Hsetup rl0) as Hs. rewrite Heq in Hs. exact Hs. }
  destruct (match sb_buf (rl_rbuf rl0) with
            | None => tls_setup_read_buffer rl0
            | Some _ => (true, rl0)
            end) as [ok rl1].
  specialize (Hs ok rl1 eq_refl).
  destruct ok; cbn [negb] in Hret.
  - destruct (loop_windows Hread Hsetup fuel _ _ _ Hret) as [Hle [Hone Hw]].
    split; [exact Hle | split; [exact Hone | ]].
    intros Hne. apply (same_windows_trans _ _ _ Hs). apply Hw, Hne.
  - inversion Hret; subst.
    split; [discriminate | split; [discriminate | intros _; exact Hs]].
Qed.

End ReadPath.

(** ** Teardown and construction, as a caller sees them *)

Section TeardownResult.

Variable BIO_write_ex_ok : list (list byte) -> list byte -> bool.
Variable tls_free : OSSL_RECORD_LAYER -> Z.

Local Abbreviation free_unprocessed' := (free_unprocessed BIO_write_ex_ok).
Local Abbreviation dtls_free' := (dtls_free BIO_write_ex_ok tls_free).

Lemma free_unprocessed_result (pq : pqueue) :
  forall (ret : Z) (rl : OSSL_RECORD_LAYER),
    ret = 0 \/ ret = 1 ->
    fst (free_unprocessed' pq ret rl)
    = if (ret =? 1)
         && all_accepted BIO_write_ex_ok (rl_next rl) (List.map raw_packet pq)
      then 1 else 0.
Proof.
  induction pq as [| item rest IH]; intros ret rl Hret.
  - cbn. rewrite andb_true_r. destruct Hret as [-> | ->]; reflexivity.
  - cbn [free_unprocessed List.map all_accepted].
    unfold BIO_write_ex_next. cbv zeta. fold (raw_packet item).
    rewrite IH.
    + cbn [rl_next set_rl_next].
      destruct (BIO_write_ex_ok (rl_next rl) (raw_packet item));
        destruct Hret as [-> | ->]; cbn; reflexivity.
    + destruct (BIO_write_ex_ok (rl_next rl) (raw_packet item));
        destruct Hret as [-> | ->]; cbn; auto.
Qed.

(** X19: [dtls_free] returns 1 exactly when [tls_free] succeeded and the
    successor accepted every hand-over, the unread bytes of the read
    buffer and each queued packet in turn, and returns 0 otherwise;
    whatever it returns, both queues are gone afterwards. *)
Theorem teardown_reports_refused_handover (rl : OSSL_RECORD_LAYER) :
  let rbuf := rl_rbuf rl in
  let leftover :=
    if 0 <? sb_left rbuf
    then [firstn (Z.to_nat (sb_left rbuf))
            (skipn (Z.to_nat (sb_offset rbuf))
                   (match sb_buf rbuf with Some b => b | None => [] end))]
    else [] in
  let queued :=
    match rq_q (rl_unprocessed_rcds rl) with
    | Some pq => List.map raw_packet pq
    | None => []
    end in
  let r := dtls_free' rl in
  fst r = (if negb (tls_free (snd r) =? 0)
              && all_accepted BIO_write_ex_ok (rl_next rl) (leftover ++ queued)
           then 1 else 0)
  /\ rq_q (rl_unprocessed_rcds (snd r)) = None
  /\ rq_q (rl_processed_rcds (snd r)) = None.
Proof.
  intros rbuf leftover queued r. subst r leftover queued.
  unfold dtls_free. cbv zeta. fold rbuf.
  assert (Hfin : forall (ret : Z) (rl1 : OSSL_RECORD_LAYER) (acc : bool),
             ret = (if acc then 1 else 0) ->
             rq_q (rl_unprocessed_rcds rl1) = rq_q (rl_unprocessed_rcds rl) ->
             let r :=
               (let '(ret, rl2) :=
                  match rq_q (rl_unprocessed_rcds rl1) with
                  | Some pq =>
                      let '(ret, rl2) := free_unprocessed' pq ret rl1 in
                      (ret, set_rl_unprocessed_rcds
                              (mkRecordPqueue
                                 (rq_epoch (rl_unprocessed_rcds rl2)) None) rl2)
                  | None => (ret, rl1)
                  end in
                let rl3 :=
                  match rq_q (rl_processed_rcds rl2) with
                  | Some pq =>
                      set_rl_processed_rcds
                        (mkRecordPqueue (rq_epoch (rl_processed_rcds rl2)) None)
                        rl2
                  | None => rl2
                  end in
                (if negb (tls_free rl3 =? 0) && negb (ret =? 0) then 1 else 0,
                 rl3)) in
             fst r = (if negb (tls_free (snd r) =? 0)
                         && (acc && all_accepted BIO_write_ex_ok (rl_next rl1)
                                      match rq_q (rl_unprocessed_rcds rl) with
                                      | Some pq => List.map raw_packet pq
                                      | None => []
                                      end)
                      then 1 else 0)
             /\ rq_q (rl_unprocessed_rcds (snd r)) = None
             /\ rq_q (rl_processed_rcds (snd r)) = None).
  { intros ret rl1 acc Hret Hq. cbv zeta. rewrite <- Hq.
    destruct (rq_q (rl_unprocessed_rcds rl1)) as [pq | ] eqn:Hpq.
    - pose proof (free_unprocessed_result pq ret rl1) as Hres.
      pose proof (free_unprocessed_log BIO_write_ex_ok pq ret rl1)
        as [_ [_ Hp]].
      destruct (free_unprocessed' pq ret rl1) as [ret2 rl2].
      cbn [fst snd] in Hres, Hp.
      rewrite Hres by (destruct acc; subst ret; auto).
      assert (Hacc : (ret =? 1) = acc) by (destruct acc; subst ret; reflexivity).
      rewrite Hacc.
      destruct (rq_q (rl_processed_rcds
                        (set_rl_unprocessed_rcds
                           (mkRecordPqueue (rq_epoch (rl_unprocessed_rcds rl2))
                              None) rl2))) eqn:Hpr;
        cbn [fst snd];
        (split; [ | split; [reflexivity | first [reflexivity | exact Hpr]]]);
        destruct (negb (tls_free _ =? 0));
        destruct (acc && all_accepted _ _ _); reflexivity.
    - destruct (rq_q (rl_processed_rcds rl1)) eqn:Hpr; cbn [fst snd];
        (split; [ | split; [first [reflexivity | exact Hpq]
                           | first [reflexivity | exact Hpr]]]);
        cbn [all_accepted]; rewrite andb_true_r;
        destruct (negb (tls_free _ =? 0)); destruct acc; subst ret;
        reflexivity. }
  destruct (0 <? sb_left rbuf).
  - unfold BIO_write_ex_next. cbv zeta.
    cbn [app all_accepted].
    match goal with
    | |- context [BIO_write_ex_ok (rl_next rl) ?d] =>
        set (d0 := d);
        exact (Hfin (if BIO_write_ex_ok (rl_next rl) d0 then 1 else 0)
                 (set_rl_rbuf
                    (set_sb_left 0
                       (rl_rbuf (set_rl_next (rl_next rl ++ [d0]) rl)))
                    (set_rl_next (rl_next rl ++ [d0]) rl))
                 (BIO_write_ex_ok (rl_next rl) d0) eq_refl eq_refl)
    end.
  - cbn [app]. exact (Hfin 1 rl true eq_refl eq_refl).
Qed.

End TeardownResult.

Section ConstructionResult.

Variable tls_int_new_record_layer : Z -> Z * OSSL_RECORD_LAYER.
Variable pqueue_new_result : nat -> option pqueue.
Variable set_crypto_state : OSSL_RECORD_LAYER -> Z.

Local Abbreviation dtls_new_record_layer' :=
  (dtls_new_record_layer tls_int_new_record_layer pqueue_new_result
     set_crypto_state).

(** X20: [dtls_new_record_layer] hands out a layer exactly when it
    returns [OSSL_RECORD_RETURN_SUCCESS]. A layer handed out is for one
    of the four DTLS versions, has both queues allocated, is marked as in
    the handshake, carries the requested epoch on itself and on its
    processed queue and the following epoch, as a 16-bit value, on its
    unprocessed queue, and has had its crypto state set. *)
Theorem new_record_layer_on_success (vers epoch : Z) :
  let r := dtls_new_record_layer' vers epoch in
  (fst r = OSSL_RECORD_RETURN_SUCCESS <-> snd r <> None)
  /\ (forall rl, snd r = Some rl ->
        (vers = DTLS_ANY_VERSION \/ vers = DTLS1_2_VERSION
         \/ vers = DTLS1_VERSION \/ vers = DTLS1_BAD_VER)
        /\ rq_q (rl_unprocessed_rcds rl) <> None
        /\ rq_q (rl_processed_rcds rl) <> None
        /\ rl_in_init rl = 1
        /\ rl_epoch rl = epoch
        /\ rq_epoch (rl_processed_rcds rl) = epoch
        /\ rq_epoch (rl_unprocessed_rcds rl) = to_ushort (epoch + 1)
        /\ set_crypto_state rl = OSSL_RECORD_RETURN_SUCCESS).
Proof.
  intros r. subst r. unfold dtls_new_record_layer.
  destruct (tls_int_new_record_layer vers) as [ret0 rl0].
  destruct (Z.eqb_spec ret0 OSSL_RECORD_RETURN_SUCCESS) as [Hr0 | Hr0];
    cbn [negb].
  2: { cbn [fst snd]. split; [ | discriminate].
       split; [contradiction | intros H; exfalso; apply H; reflexivity]. }
  cbv zeta. cbn [rl_unprocessed_rcds rl_processed_rcds
                   set_rl_unprocessed_rcds set_rl_processed_rcds rq_q].
  assert (Hfatal : (OSSL_RECORD_RETURN_FATAL = OSSL_RECORD_RETURN_SUCCESS
                    <-> @None OSSL_RECORD_LAYER <> None))
    by (split; [discriminate | intros H; exfalso; apply H; reflexivity]).
  destruct (pqueue_new_result 0) as [q0 | ];
    [ | cbn [fst snd]; split; [exact Hfatal | discriminate]].
  destruct (pqueue_new_result 1) as [q1 | ];
    [ | cbn [fst snd]; split; [exact Hfatal | discriminate]].
  destruct ((vers =? DTLS_ANY_VERSION) || (vers =? DTLS1_2_VERSION)
            || (vers =? DTLS1_VERSION) || (vers =? DTLS1_BAD_VER)) eqn:Hv;
    [ | cbn [fst snd]; split; [exact Hfatal | discriminate]].
  assert (Hvers : vers = DTLS_ANY_VERSION \/ vers = DTLS1_2_VERSION
                  \/ vers = DTLS1_VERSION \/ vers = DTLS1_BAD_VER).
  { rewrite !orb_true_iff, !Z.eqb_eq in Hv. tauto. }
  match goal with
  | |- context [negb (set_crypto_state ?l =? _)] => set (rl1 := l)
  end.
  destruct (Z.eqb_spec (set_crypto_state rl1) OSSL_RECORD_RETURN_SUCCESS)
    as [Hc | Hc]; cbn [negb fst snd].
  - split; [split; [discriminate | intros _; exact Hc] | ].
    intros rl Hrl. inversion Hrl; subst rl.
    split; [exact Hvers | ].
    subst rl1. cbn. repeat split; try discriminate; exact Hc.
  - split; [ | discriminate].
    split; [contradiction | intros H; exfalso; apply H; reflexivity].
Qed.

End ConstructionResult.

(** ** The pending write, as a caller sees it *)

Section WritePending.

Variable BIO_get_ktls_send : bool.
Variable BIO_flush : SSL_CONNECTION -> Z.
Variable BIO_write : list (list byte) -> list byte -> Z.

Local Abbreviation write_pending_loop' :=
  (write_pending_loop BIO_get_ktls_send BIO_flush BIO_write).
Local Abbreviation ssl3_write_pending' :=
  (ssl3_write_pending BIO_get_ktls_send BIO_flush BIO_write).
Local Abbreviation dtls_write_records_flush' :=
  (dtls_write_records_flush BIO_get_ktls_send BIO_flush BIO_write).

(** What a return of the write loop leaves behind. *)
Lemma write_pending_loop_outcome (fuel : nat) :
  forall (s : SSL_CONNECTION) (wb : SSL3_BUFFER) (type tmpwrit : Z)
         (r : write_result),
    write_pending_loop' fuel s wb type tmpwrit = Some r ->
    (w_ret r = 1 ->
     w_written r = Some (wpend_ret s) /\ sb_left (w_wb r) = 0
     /\ s_rwstate (w_conn r) = SSL_NOTHING)
    /\ (w_ret r <> 1 -> w_ret r <= 0 /\ w_written r = None)
    /\ (wpend_tot (w_conn r) = wpend_tot s
        /\ wpend_buf (w_conn r) = wpend_buf s
        /\ wpend_type (w_conn r) = wpend_type s
        /\ wpend_ret (w_conn r) = wpend_ret s)
    /\ (s_is_dtls s = true ->
        BIO_get_ktls_send && negb (type =? SSL3_RT_APPLICATION_DATA) = false ->
        sb_left (w_wb r) = 0).
Proof.
  induction fuel as [| fuel IH]; intros s wb type tmpwrit r Hr;
    [discriminate Hr | ].
  cbn [write_pending_loop] in Hr. cbv zeta in Hr.
  assert (Hdone : forall i tw s1,
             wpend_tot s1 = wpend_tot s -> wpend_buf s1 = wpend_buf s ->
             wpend_type s1 = wpend_type s -> wpend_ret s1 = wpend_ret s ->
             s_is_dtls s1 = s_is_dtls s ->
             (if (0 <=? i) && (tw =? sb_left wb)
              then Some (mkWriteResult 1
                           (Some (wpend_ret (set_s_rwstate SSL_NOTHING s1)))
                           (set_s_rwstate SSL_NOTHING s1)
                           (set_sb_offset
                              (sb_offset (set_sb_left 0 wb) + tw)
                              (set_sb_left 0 wb)))
              else if i <=? 0
                   then Some (mkWriteResult i None s1
                                (if s_is_dtls s1
                                 then set_sb_left 0 wb else wb))
                   else write_pending_loop' fuel s1
                          (set_sb_left
                             (to_uint64
                                (sb_left
                                   (set_sb_offset (sb_offset wb + tw) wb)
                                 - tw))
                             (set_sb_offset (sb_offset wb + tw) wb))
                          type tw) = Some r ->
             (w_ret r = 1 ->
              w_written r = Some (wpend_ret s) /\ sb_left (w_wb r) = 0
              /\ s_rwstate (w_conn r) = SSL_NOTHING)
             /\ (w_ret r <> 1 -> w_ret r <= 0 /\ w_written r = None)
             /\ (wpend_tot (w_conn r) = wpend_tot s
                 /\ wpend_buf (w_conn r) = wpend_buf s
                 /\ wpend_type (w_conn r) = wpend_type s
                 /\ wpend_ret (w_conn r) = wpend_ret s)
             /\ (s_is_dtls s = true ->
                 BIO_get_ktls_send
                 && negb (type =? SSL3_RT_APPLICATION_DATA) = false ->
                 sb_left (w_wb r) = 0)).
  { intros i tw s1 Ht Hb Hty Hre Hd Hres.
    destruct ((0 <=? i) && (tw =? sb_left wb)).
    - inversion Hres; subst r; cbn.
      split; [intros _; rewrite Hre; auto | ].
      split; [intros H; exfalso; apply H; reflexivity | ].
      split; [auto | auto].
    - destruct (Z.leb_spec i 0) as [Hi | Hi].
      + inversion Hres; subst r; cbn.
        split; [intros ->; lia | ].
        split; [intros _; split; [exact Hi | reflexivity] | ].
        split; [auto | ].
        intros Hdtls _. rewrite Hd, Hdtls. reflexivity.
      + destruct (IH _ _ _ _ _ Hres) as [H1 [H2 [[Ha [Hb' [Hc Hd']]] H4]]].
        split; [intros Hw; rewrite <- Hre; apply H1, Hw | ].
        split; [exact H2 | ].
        split; [repeat split; congruence | ].
        intros Hdtls Hk. apply H4; [congruence | exact Hk]. }
  destruct (s_wbio s).
  - destruct (BIO_get_ktls_send && negb (type =? SSL3_RT_APPLICATION_DATA))
      eqn:Hk.
    + cbn [andb] in Hr.
      destruct (Z.leb_spec (BIO_flush (set_s_rwstate SSL_WRITING s)) 0)
        as [Hf | Hf].
      * inversion Hr; subst r; cbn.
        split; [intros Hw; lia | ].
        split; [intros _; split; [exact Hf | reflexivity] | ].
        split; [auto | discriminate].
      * eapply Hdone; cycle 5; [exact Hr | reflexivity ..].
    + cbn [andb] in Hr.
      eapply Hdone; cycle 5; [exact Hr | reflexivity ..].
  - apply (Hdone (-1) tmpwrit
             (SSLfatal s SSL_AD_INTERNAL_ERROR SSL_R_BIO_NOT_SET));
      [reflexivity .. | exact Hr].
Qed.

(** X21: what a return of [ssl3_write_pending] tells the caller. A
    return of 1 comes with the write buffer emptied, the connection back
    in the state [SSL_NOTHING] and [*written] set to the memorized
    [wpend_ret]; any other return is zero or negative and leaves
    [*written] unset. The memorized arguments themselves are never
    changed, so the retry the caller may make is judged against the same
    values. *)
Theorem write_pending_report (fuel : nat) (s : SSL_CONNECTION)
  (wb : SSL3_BUFFER) (type buf len : Z) (r : write_result)
  (Hret : ssl3_write_pending' fuel s wb type buf len = Some r) :
  (w_ret r = 1 ->
   w_written r = Some (wpend_ret s) /\ sb_left (w_wb r) = 0
   /\ s_rwstate (w_conn r) = SSL_NOTHING)
  /\ (w_ret r <> 1 -> w_ret r <= 0 /\ w_written r = None)
  /\ (wpend_tot (w_conn r) = wpend_tot s
      /\ wpend_buf (w_conn r) = wpend_buf s
      /\ wpend_type (w_conn r) = wpend_type s
      /\ wpend_ret (w_conn r) = wpend_ret s).
Proof.
  unfold ssl3_write_pending in Hret.
  destruct (bad_write_retry s type buf len).
  - inversion Hret; subst r; cbn.
    split; [discriminate | ].
    split; [intros _; split; [lia | reflexivity] | auto].
  - destruct (write_pending_loop_outcome fuel _ _ _ _ _ Hret)
      as [H1 [H2 [H3 _]]].
    auto.
Qed.

(** X22: a DTLS record is sent or dropped, never kept for later. When
    the connection is a DTLS one and no KTLS flush stands in the way,
    the write that ends [dtls_write_records] leaves the write buffer
    empty whatever it returns, it is never turned down as a bad retry,
    and on success [*written] is the [buflen] of the template. *)
Theorem dtls_record_sent_or_dropped (fuel : nat) (s : SSL_CONNECTION)
  (wb : SSL3_BUFFER) (wr_length type buf buflen : Z) (r : write_result)
  (Hdtls : s_is_dtls s = true)
  (Hktls : BIO_get_ktls_send && negb (type =? SSL3_RT_APPLICATION_DATA)
           = false)
  (Hret : dtls_write_records_flush' fuel s wb wr_length type buf buflen
          = Some r) :
  sb_left (w_wb r) = 0
  /\ (w_ret r = 1 -> w_written r = Some buflen)
  /\ (s_reason s <> SSL_R_BAD_WRITE_RETRY ->
      s_reason (w_conn r) <> SSL_R_BAD_WRITE_RETRY)
  /\ wpend_tot (w_conn r) = buflen
  /\ wpend_buf (w_conn r) = buf
  /\ wpend_type (w_conn r) = type.
Proof.
  unfold dtls_write_records_flush, ssl3_write_pending in Hret.
  cbv zeta in Hret.
  assert (Hguard : bad_write_retry (set_wpend buflen buf type buflen s)
                     type buf buflen = false).
  { apply not_true_iff_false. rewrite (bad_write_retry_iff BIO_flush). cbn.
    intros [H | [[_ H] | H]]; [lia | apply H; reflexivity
                                | apply H; reflexivity]. }
  rewrite Hguard in Hret.
  destruct (write_pending_loop_outcome fuel _ _ _ _ _ Hret)
    as [H1 [_ [[Ht [Hb [Hty _]]] H4]]].
  split; [apply H4; [exact Hdtls | exact Hktls] | ].
  split; [intros Hw; apply H1, Hw | ].
  split; [ | auto].
  intros Hs Hbad. apply Hs.
  exact (write_pending_loop_reason BIO_get_ktls_send BIO_flush BIO_write
           fuel _ _ _ _ _ Hret Hbad).
Qed.

End WritePending.

(** ** The record written: [dtls_write_records] *)

Lemma to_uchar_val (z : Z) : byte_val (to_uchar z) = z mod 256.
Proof.
  unfold to_uchar, byte_val.
  assert (Hr : 0 <= z mod 256 < 256) by (apply Z.mod_pos_bound; lia).
  destruct (Byte.of_N (Z.to_N (z mod 256))) as [b | ] eqn:Hb.
  - apply Byte.to_of_N in Hb. rewrite Hb. apply Z2N.id. lia.
  - apply Byte.of_N_None_iff in Hb. lia.
Qed.

Lemma two_bytes_value (s : Z) :
  Z.lor (Z.shiftl ((s / 256) mod 256) 8) (s mod 256) = to_ushort s.
Proof.
  rewrite Z.shiftl_mul_pow2 by lia.
  rewrite lor_high_low; [ | lia | change (2 ^ 8) with 256; apply Z.mod_pos_bound; lia].
  unfold to_ushort. change (2 ^ 16) with (256 * 256). change (2 ^ 8) with 256.
  rewrite Z.rem_mul_r by lia. lia.
Qed.

Lemma land_255 (s : Z) : Z.land s 255 = s mod 256.
Proof. change 255 with (Z.ones 8). rewrite Z.land_ones by lia. reflexivity. Qed.

Lemma n2s_s2n (s : Z) (rest : list byte) : n2s (s2n s ++ rest) = to_ushort s.
Proof.
  unfold n2s, s2n, byte_at. cbn [app nth].
  rewrite !to_uchar_val, !land_255, Z.shiftr_div_pow2 by lia.
  change (2 ^ 8) with 256. rewrite !Z.mod_mod by lia.
  apply two_bytes_value.
Qed.

Lemma n2s_firstn (l : list byte) : n2s l = n2s (firstn 2 l).
Proof.
  unfold n2s, byte_at. rewrite !nth_firstn. reflexivity.
Qed.

Lemma store_length (buf : list byte) (off : Z) (bytes buf' : list byte) :
  store buf off bytes = Ok buf' -> length buf' = length buf.
Proof.
  unfold store.
  destruct (Z.leb_spec 0 off) as [Ho | Ho]; [ | discriminate].
  destruct (Z.leb_spec (off + Z.of_nat (length bytes)) (Z.of_nat (length buf)))
    as [Hl | Hl]; [ | discriminate].
  cbn [andb]. intros H. inversion H; subst buf'.
  rewrite !length_app, length_firstn, length_skipn. lia.
Qed.

Lemma store_nth (buf : list byte) (off : Z) (bytes buf' : list byte)
  (i : nat) (d : byte) :
  store buf off bytes = Ok buf' ->
  nth i buf' d
  = if (Z.to_nat off <=? i)%nat && (i <? Z.to_nat off + length bytes)%nat
    then nth (i - Z.to_nat off) bytes d else nth i buf d.
Proof.
  unfold store.
  destruct (Z.leb_spec 0 off) as [Ho | Ho]; [ | discriminate].
  destruct (Z.leb_spec (off + Z.of_nat (length bytes)) (Z.of_nat (length buf)))
    as [Hl | Hl]; [ | discriminate].
  cbn [andb]. intros H. inversion H; subst buf'. clear H.
  assert (Hf : length (firstn (Z.to_nat off) buf) = Z.to_nat off)
    by (rewrite length_firstn; lia).
  destruct (Nat.leb_spec (Z.to_nat off) i) as [Hi | Hi]; cbn [andb].
  - rewrite app_nth2 by lia. rewrite Hf.
    destruct (Nat.ltb_spec i (Z.to_nat off + length bytes)) as [Hj | Hj].
    + rewrite app_nth1 by lia. reflexivity.
    + rewrite app_nth2 by lia. rewrite nth_skipn. f_equal. lia.
  - rewrite app_nth1 by lia. rewrite nth_firstn.
    destruct (Nat.ltb_spec i (Z.to_nat off)); [reflexivity | lia].
Qed.

Lemma store_below (buf : list byte) (off : Z) (bytes buf' : list byte)
  (k : nat) :
  store buf off bytes = Ok buf' -> (k <= Z.to_nat off)%nat ->
  firstn k buf' = firstn k buf.
Proof.
  intros Hs Hk. apply nth_ext with (d := x00) (d' := x00).
  - rewrite !length_firstn, (store_length _ _ _ _ Hs). reflexivity.
  - intros n Hn. rewrite length_firstn in Hn. rewrite !nth_firstn.
    destruct (Nat.ltb_spec n k); [ | reflexivity].
    rewrite (store_nth _ _ _ _ _ _ Hs).
    destruct (Nat.leb_spec (Z.to_nat off) n); [lia | reflexivity].
Qed.

Lemma store_fits (buf : list byte) (off : Z) (bytes buf' : list byte) :
  store buf off bytes = Ok buf' ->
  0 <= off /\ off + Z.of_nat (length bytes) <= Z.of_nat (length buf).
Proof.
  unfold store.
  destruct (Z.leb_spec 0 off) as [Ho | Ho]; [ | discriminate].
  destruct (Z.leb_spec (off + Z.of_nat (length bytes)) (Z.of_nat (length buf)))
    as [Hl | Hl]; [ | discriminate].
  auto.
Qed.

Lemma store_read (buf : list byte) (off : Z) (bytes buf' : list byte) :
  store buf off bytes = Ok buf' ->
  firstn (length bytes) (skipn (Z.to_nat off) buf') = bytes.
Proof.
  intros Hs. destruct (store_fits _ _ _ _ Hs) as [Ho Hl].
  pose proof (store_length _ _ _ _ Hs) as Hlen.
  apply nth_ext with (d := x00) (d' := x00).
  - rewrite length_firstn, length_skipn. lia.
  - intros n Hn. rewrite length_firstn, length_skipn in Hn.
    rewrite nth_firstn, nth_skipn.
    destruct (Nat.ltb_spec n (length bytes)); [ | lia].
    rewrite (store_nth _ _ _ _ _ _ Hs).
    destruct (Nat.leb_spec (Z.to_nat off) (Z.to_nat off + n)); [ | lia].
    destruct (Nat.ltb_spec (Z.to_nat off + n) (Z.to_nat off + length bytes));
      [ | lia].
    cbn [andb]. f_equal. lia.
Qed.

Lemma store_above (buf : list byte) (off : Z) (bytes buf' : list byte)
  (k : nat) :
  store buf off bytes = Ok buf' -> (Z.to_nat off + length bytes <= k)%nat ->
  skipn k buf' = skipn k buf.
Proof.
  intros Hs Hk. apply nth_ext with (d := x00) (d' := x00).
  - rewrite !length_skipn, (store_length _ _ _ _ Hs). reflexivity.
  - intros n _. rewrite !nth_skipn, (store_nth _ _ _ _ _ _ Hs).
    destruct (Nat.ltb_spec (k + n) (Z.to_nat off + length bytes)); [lia | ].
    rewrite andb_false_r. reflexivity.
Qed.

Lemma header_split (p : list byte) :
  (13 <= length p)%nat ->
  firstn 13 p
  = [nth 0 p x00; nth 1 p x00; nth 2 p x00]
    ++ firstn 2 (skipn 3 p) ++ firstn 6 (skipn 5 p) ++ firstn 2 (skipn 11 p).
Proof.
  intros Hp.
  do 13 (destruct p as [| ? p]; [cbn in Hp; lia | ]).
  reflexivity.
Qed.

Lemma window_eq (a b : list byte) (k off n : nat) :
  firstn k a = firstn k b -> (off + n <= k)%nat ->
  firstn n (skipn off a) = firstn n (skipn off b).
Proof.
  intros He Hk.
  assert (Hw : forall l : list byte,
             firstn n (skipn off l) = firstn n (skipn off (firstn k l))).
  { intros l. rewrite skipn_firstn_comm, firstn_firstn.
    f_equal. lia. }
  rewrite (Hw a), (Hw b), He. reflexivity.
Qed.

Lemma firstn_shorter (a b : list byte) (k j : nat) :
  firstn k a = firstn k b -> (j <= k)%nat -> firstn j a = firstn j b.
Proof.
  intros He Hj.
  replace j with (Nat.min j k) by lia.
  rewrite <- !firstn_firstn, He. reflexivity.
Qed.

Lemma firstn_nth (a b : list byte) (k i : nat) (d : byte) :
  firstn k a = firstn k b -> (i < k)%nat -> nth i a d = nth i b d.
Proof.
  intros He Hi.
  assert (H : nth i (firstn k a) d = nth i (firstn k b) d) by (rewrite He; reflexivity).
  rewrite !nth_firstn in H.
  destruct (Nat.ltb_spec i k); [exact H | lia].
Qed.

Lemma load_ok (buf : list byte) (off len : Z) (bytes : list byte) :
  load buf off len = Ok bytes ->
  0 <= off /\ 0 <= len /\ off + len <= Z.of_nat (length buf)
  /\ bytes = firstn (Z.to_nat len) (skipn (Z.to_nat off) buf).
Proof.
  unfold load.
  destruct (Z.leb_spec 0 off) as [Ho | Ho]; [ | discriminate].
  destruct (Z.leb_spec 0 len) as [Hl | Hl]; [ | discriminate].
  destruct (Z.leb_spec (off + len) (Z.of_nat (length buf))) as [Hb | Hb];
    [ | discriminate].
  cbn [andb]. intros H. inversion H. auto.
Qed.

(** Inversion of a chain of [let*] that ends in [Ok]. *)
Ltac invert_prepared H :=
  repeat match type of H with
         | prepared_bind ?m _ = Ok _ =>
             let E := fresh "E" in
             destruct m as [? | ? | ] eqn:E; cbn [prepared_bind] in H;
             [ | discriminate H | discriminate H]
         | context [let '(_, _) := ?a in _] => is_var a; destruct a
         | context [let '(_, _) := ?a in _] => destruct a eqn:?
         end.

Section WriteRecordsProperties.

Variable allocate_write_buffers : OSSL_RECORD_TEMPLATE -> option SSL3_BUFFER.
Variable ssl3_do_compress : list byte -> option (list byte).
Variable mac : Z -> list byte -> option (list byte).
Variable enc : Z -> list byte -> Z -> Z * list byte.
Variable ossl_statem_in_error : bool.
Variable ssl3_record_sequence_update : list byte -> list byte.
Variable BIO_get_ktls_send : bool.
Variable BIO_flush : SSL_CONNECTION -> Z.
Variable BIO_write : list (list byte) -> list byte -> Z.

Local Abbreviation write_mac' := (write_mac mac).
Local Abbreviation dtls_write_records_prepare' :=
  (dtls_write_records_prepare allocate_write_buffers ssl3_do_compress mac enc
     ossl_statem_in_error).
Local Abbreviation dtls_write_records' :=
  (dtls_write_records allocate_write_buffers ssl3_do_compress mac enc
     ossl_statem_in_error ssl3_record_sequence_update BIO_get_ktls_send
     BIO_flush BIO_write).

Lemma explicit_iv_length_nonneg (sc : WRITE_STATE) (eivlen : Z) :
  explicit_iv_length sc = Ok eivlen -> 0 <= eivlen.
Proof.
  unfold explicit_iv_length.
  destruct (ws_enc_write_ctx sc) as [[[ | | | ] iv] | ]; intros H;
    try (inversion H; subst; unfold EVP_GCM_TLS_EXPLICIT_IV_LEN,
           EVP_CCM_TLS_EXPLICIT_IV_LEN; lia).
  destruct (Z.ltb_spec iv 0); [discriminate | ].
  inversion H. destruct (Z.leb_spec iv 1); lia.
Qed.

Lemma write_mac_frame (templates : OSSL_RECORD_TEMPLATE) (mac_size : Z)
  (p : list byte) (data length md : Z) (p' : list byte) (l' : Z) :
  write_mac' templates mac_size p data length md = Ok (p', l') ->
  13 <= md ->
  firstn 13 p' = firstn 13 p /\ l' = length + mac_size /\ 0 <= length.
Proof.
  unfold write_mac. intros H Hmd.
  invert_prepared H.
  destruct (load_ok _ _ _ _ E) as [_ [Hl _]].
  destruct (mac (ot_type templates) a) as [tag | ]; [ | discriminate H].
  invert_prepared H. inversion H; subst.
  split; [ | split; [reflexivity | exact Hl]].
  apply (store_below _ _ _ _ 13%nat E0). lia.
Qed.

Lemma prepared_header (sc : WRITE_STATE) (templates : OSSL_RECORD_TEMPLATE)
  (numtempl : Z) (wb : SSL3_BUFFER) (len : Z) :
  dtls_write_records_prepare' sc templates numtempl = Ok (wb, len) ->
  exists p,
    sb_buf wb = Some p
    /\ 13 <= len
    /\ (13 <= length p)%nat
    /\ nth 0 p x00 = to_uchar (Z.land (ot_type templates) 255)
    /\ nth 1 p x00 = to_uchar (Z.shiftr (ot_version templates) 8)
    /\ nth 2 p x00 = to_uchar (Z.land (ot_version templates) 255)
    /\ firstn 2 (skipn 3 p) = s2n (ws_w_epoch sc)
    /\ firstn 6 (skipn 5 p) = firstn 6 (skipn 2 (ws_write_sequence sc))
    /\ firstn 2 (skipn 11 p) = s2n (len - 13).
Proof.
  unfold dtls_write_records_prepare. cbv zeta.
  set (clear := negb (ws_session sc)
                || match ws_enc_write_ctx sc with
                   | Some _ => false
                   | None => true
                   end
                || negb (ws_write_hash_md sc)).
  set (mac_size := if clear then 0 else ws_write_hash_size sc).
  intros H.
  destruct (negb clear && (mac_size <? 0)) eqn:Hms; [discriminate H | ].
  assert (Hmac : 0 <= mac_size).
  { subst mac_size. destruct clear; [lia | ].
    cbn [negb andb] in Hms. apply Z.ltb_ge in Hms. exact Hms. }
  destruct (negb (numtempl =? 1)); [discriminate H | ].
  destruct (allocate_write_buffers templates) as [wb0 | ]; [ | discriminate H].
  destruct (sb_buf wb0) as [p0 | ]; [ | discriminate H].
  invert_prepared H.
  rename a into p1, a0 into p2, a1 into p3, a2 into eivlen, a3 into input,
    l into p4, z into len4, l0 into p5, z0 into len5, a4 into bytes,
    z1 into ret, l1 into out.
  destruct (ret <? 1); [discriminate H | ].
  invert_prepared H.
  rename a into p6, l into p7, z into len7, a0 into p8, a1 into seq,
    a2 into p9, a3 into p10.
  inversion H; subst wb len. clear H.
  pose proof (explicit_iv_length_nonneg _ _ E2) as Hiv.
  destruct (load_ok _ _ _ _ E3) as [_ [Hbuflen _]].
  (* the stores after the header leave its first three bytes alone *)
  assert (F4 : firstn 13 p4 = firstn 13 p3 /\ 0 <= len4).
  { destruct (ws_compress sc).
    - destruct (ssl3_do_compress input) as [cout | ]; [ | discriminate E4].
      invert_prepared E4. inversion E4; subst.
      split; [ | lia].
      match goal with
      | Hs : store _ (13 + eivlen) _ = Ok _ |- _ =>
          apply (store_below _ _ _ _ 13%nat Hs); lia
      end.
    - invert_prepared E4. inversion E4; subst.
      split; [ | lia].
      match goal with
      | Hs : store _ (13 + eivlen) _ = Ok _ |- _ =>
          apply (store_below _ _ _ _ 13%nat Hs); lia
      end. }
  destruct F4 as [F4 Hlen4].
  assert (F5 : firstn 13 p5 = firstn 13 p4).
  { destruct (negb (ws_write_etm sc) && negb (mac_size =? 0)).
    - apply write_mac_frame in E5; [ | lia]. apply E5.
    - inversion E5; subst. reflexivity. }
  assert (F6 : firstn 13 p6 = firstn 13 p5)
    by (apply (store_below _ _ _ _ 13%nat E7); lia).
  assert (F7 : firstn 13 p7 = firstn 13 p6 /\ 0 <= len7).
  { destruct (ws_write_etm sc && negb (mac_size =? 0)).
    - apply write_mac_frame in E8; [ | lia].
      destruct E8 as [Hf [-> _]]. split; [exact Hf | lia].
    - inversion E8; subst. split; [reflexivity | lia]. }
  destruct F7 as [F7 Hlen7].
  assert (F3 : firstn 3 p7 = firstn 3 p3).
  { apply firstn_shorter with (k := 13%nat); [ | lia].
    rewrite F7, F6, F5, F4. reflexivity. }
  assert (G8 : firstn 3 p8 = firstn 3 p7)
    by (apply (store_below _ _ _ _ 3%nat E9); lia).
  assert (G9 : firstn 5 p9 = firstn 5 p8)
    by (apply (store_below _ _ _ _ 5%nat E11); lia).
  assert (G10 : firstn 11 p10 = firstn 11 p9)
    by (apply (store_below _ _ _ _ 11%nat E12); lia).
  assert (Hhead : firstn 3 p10 = firstn 3 p3).
  { rewrite <- F3, <- G8.
    rewrite <- (firstn_shorter _ _ 5%nat 3%nat G9) by lia.
    apply firstn_shorter with (k := 11%nat); [exact G10 | lia]. }
  destruct (load_ok _ _ _ _ E10) as [_ [_ [Hws Hseq]]].
  change (Z.to_nat 6) with 6%nat in Hseq.
  change (Z.to_nat 2) with 2%nat in Hseq.
  assert (Hseqlen : length seq = 6%nat).
  { rewrite Hseq, length_firstn, length_skipn. lia. }
  exists p10. cbn [sb_buf set_sb_buf].
  split; [reflexivity | ].
  split; [unfold DTLS1_RT_HEADER_LENGTH; lia | ].
  split.
  { destruct (store_fits _ _ _ _ E12) as [_ Hfit].
    rewrite (store_length _ _ _ _ E12). cbn [length s2n] in Hfit. lia. }
  split.
  { rewrite (firstn_nth _ _ 3%nat 0%nat x00 Hhead) by lia.
    rewrite (store_nth _ _ _ _ _ _ E1), (store_nth _ _ _ _ _ _ E0),
      (store_nth _ _ _ _ _ _ E). reflexivity. }
  split.
  { rewrite (firstn_nth _ _ 3%nat 1%nat x00 Hhead) by lia.
    rewrite (store_nth _ _ _ _ _ _ E1), (store_nth _ _ _ _ _ _ E0).
    reflexivity. }
  split.
  { rewrite (firstn_nth _ _ 3%nat 2%nat x00 Hhead) by lia.
    rewrite (store_nth _ _ _ _ _ _ E1). reflexivity. }
  split.
  { rewrite (window_eq _ _ 11%nat 3%nat 2%nat G10) by lia.
    rewrite (window_eq _ _ 5%nat 3%nat 2%nat G9) by lia.
    exact (store_read _ _ _ _ E9). }
  split.
  { rewrite (window_eq _ _ 11%nat 5%nat 6%nat G10) by lia.
    rewrite <- Hseq. rewrite <- Hseqlen at 1.
    exact (store_read _ _ _ _ E11). }
  replace (len7 + DTLS1_RT_HEADER_LENGTH - 13) with len7
    by (unfold DTLS1_RT_HEADER_LENGTH; lia).
  exact (store_read _ _ _ _ E12).
Qed.

Local Abbreviation write_pending_loop' :=
  (write_pending_loop BIO_get_ktls_send BIO_flush BIO_write).

Lemma write_pending_loop_appends (fuel : nat) :
  forall (s : SSL_CONNECTION) (wb : SSL3_BUFFER) (type tmpwrit : Z)
         (r : write_result),
    write_pending_loop' fuel s wb type tmpwrit = Some r ->
    exists extra, s_wbio_out (w_conn r) = s_wbio_out s ++ extra.
Proof.
  induction fuel as [| fuel IH]; intros s wb type tmpwrit r Hr;
    [discriminate Hr | ].
  cbn [write_pending_loop] in Hr. cbv zeta in Hr.
  destruct (s_wbio s).
  - destruct (BIO_get_ktls_send && negb (type =? SSL3_RT_APPLICATION_DATA)
              && (_ <=? 0)).
    + inversion Hr; subst r. exists []. cbn. rewrite app_nil_r. reflexivity.
    + match type of Hr with
      | context [BIO_write ?log ?data] =>
          set (d := data) in *; set (i := BIO_write log d) in *
      end.
      destruct ((0 <=? i) && (_ =? sb_left wb)).
      * inversion Hr; subst r. exists [d]. reflexivity.
      * destruct (i <=? 0).
        -- inversion Hr; subst r. exists [d]. reflexivity.
        -- destruct (IH _ _ _ _ _ Hr) as [extra He].
           exists (d :: extra). rewrite He. cbn.
           rewrite <- app_assoc. reflexivity.
  - cbn in Hr. inversion Hr; subst r. exists []. cbn.
    rewrite app_nil_r. reflexivity.
Qed.

Lemma write_pending_loop_first (fuel : nat) (s : SSL_CONNECTION)
  (wb : SSL3_BUFFER) (type tmpwrit : Z) (r : write_result) :
  s_wbio s = true ->
  BIO_get_ktls_send && negb (type =? SSL3_RT_APPLICATION_DATA) = false ->
  write_pending_loop' fuel s wb type tmpwrit = Some r ->
  exists rest,
    s_wbio_out (w_conn r)
    = s_wbio_out s
      ++ firstn (Z.to_nat (to_uint (sb_left wb)))
           (skipn (Z.to_nat (sb_offset wb))
                  (match sb_buf wb with Some b => b | None => [] end))
         :: rest.
Proof.
  intros Hbio Hktls Hr. destruct fuel as [| fuel]; [discriminate Hr | ].
  cbn [write_pending_loop] in Hr. cbv zeta in Hr.
  rewrite Hbio, Hktls in Hr. cbn [andb] in Hr.
  match type of Hr with
  | context [BIO_write ?log ?data] =>
      set (d := data) in *; set (i := BIO_write log d) in *
  end.
  destruct ((0 <=? i) && (_ =? sb_left wb)).
  - inversion Hr; subst r. exists []. reflexivity.
  - destruct (i <=? 0).
    + inversion Hr; subst r. exists []. reflexivity.
    + destruct (write_pending_loop_appends _ _ _ _ _ _ Hr) as [extra He].
      exists extra. rewrite He. cbn. rewrite <- app_assoc. reflexivity.
Qed.

(** X23: the header [dtls_write_records] puts on the wire is the one
    the read path parses. When the record is built and the write reaches
    the BIO, the first piece handed to [BIO_write] is the datagram, and
    [parse_header] on a layer holding that datagram as its packet finds
    the type of the template (its low 8 bits), the version of the
    template, the write epoch and the record length as 16-bit values,
    and bytes 2 to 7 of the write sequence number. *)
Theorem written_header_parses_back (fuel : nat) (s : SSL_CONNECTION)
  (sc sc' : WRITE_STATE) (templates : OSSL_RECORD_TEMPLATE) (numtempl : Z)
  (wb : SSL3_BUFFER) (len : Z) (r : write_result)
  (Hprep : dtls_write_records_prepare' sc templates numtempl = Ok (wb, len))
  (Hsize : len < 2 ^ 32)
  (Hbio : s_wbio s = true)
  (Hktls : BIO_get_ktls_send
           && negb (ot_type templates =? SSL3_RT_APPLICATION_DATA) = false)
  (Hret : dtls_write_records' fuel s sc templates numtempl
          = Ok (sc', Some r)) :
  exists datagram rest,
    s_wbio_out (w_conn r) = s_wbio_out s ++ datagram :: rest
    /\ forall rl, rl_packet rl = datagram ->
         rr_type (rl_rrec (parse_header rl)) = Z.land (ot_type templates) 255
         /\ header_version datagram = to_ushort (ot_version templates)
         /\ rr_epoch (rl_rrec (parse_header rl)) = to_ushort (ws_w_epoch sc)
         /\ rl_sequence (parse_header rl)
            = firstn 2 (rl_sequence rl)
              ++ firstn 6 (skipn 2 (ws_write_sequence sc))
              ++ skipn 8 (rl_sequence rl)
         /\ rr_length (rl_rrec (parse_header rl)) = to_ushort (len - 13).
Proof.
  unfold dtls_write_records in Hret. rewrite Hprep in Hret.
  cbn [prepared_bind] in Hret. inversion Hret as [[Hsc Hflush]]. clear Hret.
  unfold dtls_write_records_flush, ssl3_write_pending in Hflush.
  cbv zeta in Hflush.
  assert (Hguard : bad_write_retry
                     (set_wpend (ot_buflen templates) (ot_buf templates)
                        (ot_type templates) (ot_buflen templates) s)
                     (ot_type templates) (ot_buf templates)
                     (ot_buflen templates) = false).
  { apply not_true_iff_false. rewrite (bad_write_retry_iff BIO_flush). cbn.
    intros [H | [[_ H] | H]]; [lia | apply H; reflexivity
                                | apply H; reflexivity]. }
  rewrite Hguard in Hflush.
  apply write_pending_loop_first in Hflush; [ | exact Hbio | exact Hktls].
  destruct Hflush as [rest Hout].
  destruct (prepared_header _ _ _ _ _ Hprep)
    as [p [Hp [Hlen [Hplen [H0 [H1 [H2 [Hep [Hsq Hl]]]]]]]]].
  cbn in Hout. rewrite Hp in Hout.
  unfold to_uint in Hout. rewrite Z.mod_small in Hout by lia.
  exists (firstn (Z.to_nat len) p), rest.
  split; [exact Hout | ].
  intros rl Hpkt.
  set (d := firstn (Z.to_nat len) p) in *.
  assert (Hd13 : firstn 13 d = firstn 13 p).
  { subst d. rewrite firstn_firstn. f_equal. lia. }
  assert (Hnth : forall i, (i < 13)%nat -> byte_at d i = byte_at p i).
  { intros i Hi. unfold byte_at. f_equal.
    apply (firstn_nth _ _ 13%nat i x00 Hd13 Hi). }
  change (rr_type (rl_rrec (parse_header rl)))
    with (byte_at (rl_packet rl) 0).
  change (rr_epoch (rl_rrec (parse_header rl)))
    with (n2s (skipn 3 (rl_packet rl))).
  change (rr_length (rl_rrec (parse_header rl)))
    with (n2s (skipn 11 (rl_packet rl))).
  change (rl_sequence (parse_header rl))
    with (firstn 2 (rl_sequence rl) ++ firstn 6 (skipn 5 (rl_packet rl))
          ++ skipn 8 (rl_sequence rl)).
  rewrite Hpkt.
  split.
  { rewrite Hnth by lia. unfold byte_at. rewrite H0, to_uchar_val, land_255.
    apply Z.mod_mod. lia. }
  split.
  { unfold header_version. rewrite !Hnth by lia. unfold byte_at.
    rewrite H1, H2, !to_uchar_val, land_255, Z.shiftr_div_pow2 by lia.
    change (2 ^ 8) with 256. rewrite Z.mod_mod by lia.
    rewrite two_bytes_value. unfold to_ushort. apply Z.mod_mod. lia. }
  split.
  { rewrite n2s_firstn, (window_eq _ _ 13%nat 3%nat 2%nat Hd13) by lia.
    rewrite Hep, <- (app_nil_r (s2n _)). apply n2s_s2n. }
  split.
  { rewrite (window_eq _ _ 13%nat 5%nat 6%nat Hd13) by lia.
    rewrite Hsq. reflexivity. }
  rewrite n2s_firstn, (window_eq _ _ 13%nat 11%nat 2%nat Hd13) by lia.
  rewrite Hl, <- (app_nil_r (s2n _)). apply n2s_s2n.
Qed.

(** X24: the record as it leaves in the clear. Without a cipher
    context, without compression and with a cipher call that leaves the
    record as it is, the record built by [dtls_write_records] is 13
    bytes longer than the payload and consists of the header (type,
    version, epoch, the six low bytes of the write sequence number,
    payload length) followed by the payload, byte for byte. *)
Theorem cleartext_record_on_the_wire (sc : WRITE_STATE)
  (templates : OSSL_RECORD_TEMPLATE) (numtempl : Z) (wb : SSL3_BUFFER)
  (len : Z)
  (Hctx : ws_enc_write_ctx sc = None)
  (Hcomp : ws_compress sc = false)
  (Henc : forall data, enc (ot_type templates) data 0 = (1, data))
  (Hprep : dtls_write_records_prepare' sc templates numtempl = Ok (wb, len)) :
  len = 13 + ot_buflen templates
  /\ firstn (Z.to_nat len) (match sb_buf wb with Some b => b | None => [] end)
     = [to_uchar (Z.land (ot_type templates) 255);
        to_uchar (Z.shiftr (ot_version templates) 8);
        to_uchar (Z.land (ot_version templates) 255)]
       ++ s2n (ws_w_epoch sc)
       ++ firstn 6 (skipn 2 (ws_write_sequence sc))
       ++ s2n (ot_buflen templates)
       ++ firstn (Z.to_nat (ot_buflen templates)) (ot_data templates).
Proof.
  destruct (prepared_header _ _ _ _ _ Hprep)
    as [p [Hp [Hlen [Hplen [H0 [H1 [H2 [Hep [Hsq Hl]]]]]]]]].
  revert Hprep. unfold dtls_write_records_prepare. cbv zeta.
  rewrite Hctx, Hcomp. rewrite orb_true_r. cbn [orb negb andb].
  unfold explicit_iv_length. rewrite Hctx. cbn [prepared_bind Z.eqb negb].
  intros H.
  destruct (negb (numtempl =? 1)); [discriminate H | ].
  destruct (allocate_write_buffers templates) as [wb0 | ]; [ | discriminate H].
  destruct (sb_buf wb0) as [p0 | ]; [ | discriminate H].
  invert_prepared H.
  rename a into p1, a0 into p2, a1 into p3, a2 into input, l into p4,
    z into len4, l0 into p5, z0 into len5, a3 into bytes, z1 into ret,
    l1 into out.
  match goal with
  | Heq : enc _ _ _ = (ret, out) |- _ =>
      rewrite Henc in Heq; inversion Heq; subst ret out; clear Heq
  end.
  change (1 <? 1) with false in H. cbv iota in H.
  rewrite andb_false_r in E4, H.
  inversion E4; subst p5 len5. clear E4.
  invert_prepared E3. inversion E3; subst p4 len4. clear E3.
  invert_prepared H.
  rename a into p4, a0 into p6, a1 into p8, a2 into seq, a3 into p9,
    a4 into p10.
  inversion H; subst wb len. clear H.
  cbn [sb_buf set_sb_buf] in Hp |- *. inversion Hp; subst p. clear Hp.
  destruct (load_ok _ _ _ _ E2) as [_ [Hn [Hdata Hinput]]].
  cbn [Z.to_nat skipn] in Hinput.
  assert (Hinlen : length input = Z.to_nat (ot_buflen templates)).
  { rewrite Hinput, length_firstn. lia. }
  assert (Hbytes : bytes = input).
  { destruct (load_ok _ _ _ _ E5) as [_ [_ [_ Hb]]].
    rewrite Hb, <- Hinlen.
    match goal with
    | Hs : store p3 _ input = Ok p4 |- _ => exact (store_read _ _ _ _ Hs)
    end. }
  subst bytes.
  assert (Hlen' : Z.of_nat (length input) + DTLS1_RT_HEADER_LENGTH
                  = 13 + ot_buflen templates)
    by (unfold DTLS1_RT_HEADER_LENGTH; lia).
  split; [exact Hlen' | ].
  rewrite Hlen'.
  replace (Z.to_nat (13 + ot_buflen templates))
    with (13 + length input)%nat by lia.
  rewrite <- (firstn_skipn 13 (firstn (13 + length input) p10)).
  rewrite firstn_firstn, skipn_firstn_comm.
  replace (Nat.min 13 (13 + length input)) with 13%nat by lia.
  replace (13 + length input - 13)%nat with (length input) by lia.
  rewrite (header_split p10 Hplen), H0, H1, H2, Hep, Hsq, Hl.
  replace (Z.of_nat (length input) + DTLS1_RT_HEADER_LENGTH - 13)
    with (ot_buflen templates) by lia.
  assert (Hbody : firstn (length input) (skipn 13 p10) = input).
  { match goal with
    | Ha : store p6 3 _ = Ok p8, Hb : store p8 5 _ = Ok p9,
      Hc : store p9 11 _ = Ok p10, Hd : store p4 _ input = Ok p6,
      Hq : load _ 2 6 = Ok seq |- _ =>
        rewrite (store_above _ _ _ _ 13%nat Hc) by (cbn; lia);
        rewrite (store_above _ _ _ _ 13%nat Hb)
          by (destruct (load_ok _ _ _ _ Hq) as [_ [_ [_ ->]]];
              rewrite length_firstn; cbn; lia);
        rewrite (store_above _ _ _ _ 13%nat Ha) by (cbn; lia);
        exact (store_read _ _ _ _ Hd)
    end. }
  rewrite Hbody, <- Hinput.
  rewrite <- !app_assoc. reflexivity.
Qed.

End WriteRecordsProperties.

(** ** The record read back: the read path on what was written *)

Section DeliveredRecord.

Variable SSL3_RT_MAX_ENCRYPTED_LENGTH : Z.
Variable SSL3_RT_MAX_COMPRESSED_LENGTH : Z.
Variable SSL3_RT_MAX_ENCRYPTED_OVERHEAD : Z.
Variable EVP_MAX_MD_SIZE : Z.
Variable mac : OSSL_RECORD_LAYER -> SSL3_RECORD -> Z -> Z * list byte.
Variable cipher :
  OSSL_RECORD_LAYER -> SSL3_RECORD -> Z -> Z -> Z -> cipher_result.
Variable tls_do_uncompress :
  OSSL_RECORD_LAYER -> SSL3_RECORD -> bool * SSL3_RECORD.
Variable tls_setup_read_buffer :
  OSSL_RECORD_LAYER -> bool * OSSL_RECORD_LAYER.
Variable OPENSSL_malloc_ok : OSSL_RECORD_LAYER -> bool.
Variable pitem_new_ok : OSSL_RECORD_LAYER -> bool.

Local Abbreviation get_header' :=
  (get_header SSL3_RT_MAX_ENCRYPTED_LENGTH SSL3_RT_MAX_ENCRYPTED_OVERHEAD
     dgram_read_n).
Local Abbreviation get_body' := (get_body dgram_read_n).
Local Abbreviation dispatch_record' :=
  (dispatch_record SSL3_RT_MAX_ENCRYPTED_LENGTH SSL3_RT_MAX_COMPRESSED_LENGTH
     EVP_MAX_MD_SIZE mac cipher tls_do_uncompress tls_setup_read_buffer
     OPENSSL_malloc_ok pitem_new_ok).
Local Abbreviation get_more_records_pass' :=
  (get_more_records_pass SSL3_RT_MAX_ENCRYPTED_LENGTH
     SSL3_RT_MAX_COMPRESSED_LENGTH SSL3_RT_MAX_ENCRYPTED_OVERHEAD
     EVP_MAX_MD_SIZE mac cipher tls_do_uncompress dgram_read_n
     tls_setup_read_buffer OPENSSL_malloc_ok pitem_new_ok).
Local Abbreviation dtls_get_more_records' :=
  (dtls_get_more_records SSL3_RT_MAX_ENCRYPTED_LENGTH
     SSL3_RT_MAX_COMPRESSED_LENGTH SSL3_RT_MAX_ENCRYPTED_OVERHEAD
     EVP_MAX_MD_SIZE mac cipher tls_do_uncompress dgram_read_n
     tls_setup_read_buffer OPENSSL_malloc_ok pitem_new_ok).

(** X25: a well-formed record in the clear is delivered. When the next
    datagram of the transport is a 13-byte header (type, version,
    epoch, six sequence bytes, payload length) followed by a non-empty
    payload, the layer is idle, has that version and epoch, uses neither
    digest nor compression, its cipher call leaves records as they are,
    the payload fits the limits and the sequence number is fresh in the
    current window (or the transport is SCTP), then
    [dtls_get_more_records] returns success with one record: the type,
    the epoch and the length of the header, read from offset 0, with
    the payload as its data, and the datagram taken off the
    transport. *)
Theorem cleartext_record_delivered (rl : OSSL_RECORD_LAYER)
  (type version epoch : Z) (seq6 payload : list byte) (rest : list (list byte))
  (buf : list byte) (fuel : nat)
  (Hbio : rl_bio rl
          = ([to_uchar (Z.land type 255); to_uchar (Z.shiftr version 8);
              to_uchar (Z.land version 255)]
             ++ s2n epoch ++ seq6 ++ s2n (Z.of_nat (length payload))
             ++ payload) :: rest)
  (Hseq6 : length seq6 = 6%nat)
  (Hpayload : payload <> [])
  (Hsize : Z.of_nat (length payload) <= SSL3_RT_MAX_ENCRYPTED_LENGTH
           /\ Z.of_nat (length payload) <= rl_max_frag_len rl
           /\ Z.of_nat (length payload) < 65536
           /\ 0 <= SSL3_RT_MAX_ENCRYPTED_OVERHEAD)
  (Hversion : rl_version rl = version /\ 0 <= version < 65536)
  (Hepoch : rl_epoch rl = epoch /\ 0 <= epoch < 65536)
  (Hidle : rq_items (rl_processed_rcds rl) = []
           /\ rl_rstate rl <> SSL_ST_READ_BODY
           /\ sb_left (rl_rbuf rl) = 0
           /\ sb_buf (rl_rbuf rl) = Some buf)
  (Hclear : rl_md_ctx rl = None /\ rl_compctx rl = false)
  (Hcipher : forall r rr, c_ret (cipher r rr 1 0 0) <> 0
                          /\ c_rec (cipher r rr 1 0 0) = rr)
  (Hfresh : rl_is_sctp rl = true
            \/ class_of_exit
                 (replay_check_exit
                    (firstn 2 (rl_sequence rl) ++ seq6
                     ++ skipn 8 (rl_sequence rl))
                    (rl_bitmap rl)) = cls_fresh) :
  exists rl',
    dtls_get_more_records' (S fuel) rl
    = Some (OSSL_RECORD_RETURN_SUCCESS, rl')
    /\ rl_num_recs rl' = 1
    /\ rr_type (rl_rrec rl') = Z.land type 255
    /\ rr_epoch (rl_rrec rl') = epoch
    /\ rr_length (rl_rrec rl') = Z.of_nat (length payload)
    /\ rr_off (rl_rrec rl') = 0
    /\ firstn (length payload) (rr_data (rl_rrec rl')) = payload
    /\ rl_bio rl' = rest.
Proof.
  destruct Hsize as [Hs1 [Hs2 [Hs3 Hs4]]].
  destruct Hversion as [Hv Hvr]. destruct Hepoch as [He Her].
  destruct Hidle as [Hq [Hst [Hleft Hbuf]]].
  destruct Hclear as [Hmd Hcomp].
  set (n := Z.of_nat (length payload)) in *.
  set (hdr := [to_uchar (Z.land type 255); to_uchar (Z.shiftr version 8);
               to_uchar (Z.land version 255)]
              ++ s2n epoch ++ seq6 ++ s2n n) in *.
  assert (Hd : rl_bio rl = (hdr ++ payload) :: rest).
  { rewrite Hbio. subst hdr. rewrite <- !app_assoc. reflexivity. }
  clear Hbio.
  assert (Hhl : length hdr = 13%nat).
  { subst hdr. rewrite !length_app, Hseq6. reflexivity. }
  assert (Hn : 0 < n).
  { subst n. destruct payload; [contradiction | cbn; lia]. }
  unfold dtls_get_more_records. cbv zeta.
  cbn [rl_rbuf set_rl_num_released set_rl_curr_rec set_rl_num_recs].
  rewrite Hbuf. cbn [negb].
  set (rl0 := set_rl_num_released 0 (set_rl_curr_rec 0 (set_rl_num_recs 0 rl))).
  cbn [get_more_records_loop].
  set (d := hdr ++ payload) in *.
  assert (Hdl : Z.of_nat (length d) = 13 + n).
  { subst d n. rewrite length_app, Hhl. lia. }
  (* the header *)
  set (rl1 := set_rl_bio rest
                (set_rl_rbuf
                   (mkBuffer (Some d) (sb_len (rl_rbuf rl0)) 13
                             (Z.of_nat (length d) - 13))
                   (set_rl_packet_length 13 (set_rl_packet d rl0)))).
  assert (Hread1 : dgram_read_n rl0 DTLS1_RT_HEADER_LENGTH
                     (sb_len (rl_rbuf rl0)) 0 1
                   = (OSSL_RECORD_RETURN_SUCCESS, 13, rl1)).
  { unfold dgram_read_n. cbv zeta.
    change (rl_rbuf rl0) with (rl_rbuf rl). change (rl_bio rl0) with (rl_bio rl).
    rewrite Hleft, Hd. cbn [Z.eqb andb].
    fold d. unfold DTLS1_RT_HEADER_LENGTH.
    replace (Z.min 13 (Z.of_nat (length d))) with 13 by lia.
    reflexivity. }
  set (rl2 := parse_header (set_rl_rstate SSL_ST_READ_BODY rl1)).
  assert (Hbytes : byte_at d 0 = Z.land type 255
                   /\ byte_at d 1 = Z.shiftr version 8
                   /\ header_version d = version
                   /\ n2s (skipn 3 d) = epoch
                   /\ firstn 6 (skipn 5 d) = seq6
                   /\ n2s (skipn 11 d) = n
                   /\ skipn 13 d = payload).
  { subst d hdr.
    destruct seq6 as [| s0 [| s1 [| s2 [| s3 [| s4 [| s5 [| s6 seq6]]]]]]];
      try discriminate Hseq6.
    assert (Hhi : version / 256 < 256)
      by (apply Z.div_lt_upper_bound; lia).
    assert (Hhi0 : 0 <= version / 256) by (apply Z.div_pos; lia).
    assert (Hu : forall z, 0 <= z < 65536 -> to_ushort z = z).
    { intros z Hz. apply Z.mod_small. change (2 ^ 16) with 65536. lia. }
    split.
    { unfold byte_at. cbn [app nth].
      rewrite to_uchar_val, land_255. apply Z.mod_mod. lia. }
    split.
    { unfold byte_at. cbn [app nth].
      rewrite to_uchar_val, Z.shiftr_div_pow2 by lia.
      change (2 ^ 8) with 256. apply Z.mod_small. lia. }
    split.
    { unfold header_version, byte_at. cbn [app nth].
      rewrite !to_uchar_val, land_255, Z.shiftr_div_pow2 by lia.
      change (2 ^ 8) with 256. rewrite Z.mod_mod by lia.
      rewrite two_bytes_value. unfold to_ushort.
      rewrite Z.mod_mod by lia. apply Hu. lia. }
    split.
    { change (skipn 3 (([to_uchar (Z.land type 255);
                         to_uchar (Z.shiftr version 8);
                         to_uchar (Z.land version 255)]
                        ++ s2n epoch ++ [s0; s1; s2; s3; s4; s5] ++ s2n n)
                       ++ payload))
        with (s2n epoch ++ [s0; s1; s2; s3; s4; s5] ++ s2n n ++ payload).
      rewrite n2s_s2n. apply Hu. lia. }
    split; [reflexivity | ].
    split; [ | reflexivity].
    change (skipn 11 (([to_uchar (Z.land type 255);
                        to_uchar (Z.shiftr version 8);
                        to_uchar (Z.land version 255)]
                       ++ s2n epoch ++ [s0; s1; s2; s3; s4; s5] ++ s2n n)
                      ++ payload))
      with (s2n n ++ payload).
    rewrite n2s_s2n. apply Hu. lia. }
  destruct Hbytes as [Hb0 [Hb1 [Hhv [Hbe [Hbs [Hbn Hbp]]]]]].
  assert (Hhdr : get_header' rl0 = inr rl2).
  { unfold get_header.
    replace (negb (rl_rstate rl0 =? SSL_ST_READ_BODY)) with true
      by (symmetry; apply negb_true_iff, Z.eqb_neq; exact Hst).
    cbn [orb]. rewrite Hread1.
    change (OSSL_RECORD_RETURN_SUCCESS <? OSSL_RECORD_RETURN_SUCCESS)
      with false.
    change (rl_packet_length rl1) with 13.
    change (13 =? DTLS1_RT_HEADER_LENGTH) with true. cbn [negb].
    fold rl2. unfold check_header. cbv zeta.
    change (rl_packet rl2) with d.
    change (rl_version rl2) with (rl_version rl).
    change (rl_max_frag_len rl2) with (rl_max_frag_len rl).
    change (rr_length (rl_rrec rl2)) with (n2s (skipn 11 d)).
    rewrite Hhv, Hv, Hb1, Hbn, Z.eqb_refl.
    cbn [negb]. rewrite !andb_false_r.
    replace (version =? DTLS_ANY_VERSION) with false
      by (symmetry; apply Z.eqb_neq; unfold DTLS_ANY_VERSION; lia).
    rewrite Z.eqb_refl. cbn [negb].
    replace (SSL3_RT_MAX_ENCRYPTED_LENGTH <? n) with false
      by (symmetry; apply Z.ltb_ge; exact Hs1).
    replace (rl_max_frag_len rl + SSL3_RT_MAX_ENCRYPTED_OVERHEAD <? n)
      with false by (symmetry; apply Z.ltb_ge; lia).
    reflexivity. }
  (* the body *)
  set (rl3 := set_rl_rbuf
                (mkBuffer (Some d) (sb_len (rl_rbuf rl0)) (13 + n)
                          (Z.of_nat (length d) - 13 - n))
                (set_rl_packet_length (13 + n) rl2)).
  set (rl4 := set_rl_rstate SSL_ST_READ_HEADER rl3).
  assert (Hbody : get_body' rl2 = inr rl4).
  { unfold get_body. cbv zeta.
    change (rl_packet_length rl2) with 13.
    change (rr_length (rl_rrec rl2)) with (n2s (skipn 11 d)).
    rewrite Hbn.
    change (to_uint64 (13 - DTLS1_RT_HEADER_LENGTH)) with 0.
    replace (0 <? n) with true by (symmetry; apply Z.ltb_lt; exact Hn).
    unfold dgram_read_n. cbv zeta.
    change (1 =? 0) with false. cbn [andb].
    change (sb_left (rl_rbuf rl2)) with (Z.of_nat (length d) - 13).
    replace (Z.of_nat (length d) - 13) with n by lia.
    replace (n =? 0) with false by (symmetry; apply Z.eqb_neq; lia).
    rewrite Z.min_id.
    change (OSSL_RECORD_RETURN_SUCCESS <? OSSL_RECORD_RETURN_SUCCESS)
      with false.
    rewrite Z.eqb_refl. cbn [orb negb].
    subst rl4 rl3. f_equal. f_equal.
    change (rl_packet_length rl2) with 13.
    change (rl_rbuf rl2)
      with (mkBuffer (Some d) (sb_len (rl_rbuf rl0)) 13
                     (Z.of_nat (length d) - 13)).
    cbn [sb_buf sb_len sb_offset].
    replace (Z.of_nat (length d) - 13 - n) with (n - n) by lia.
    reflexivity. }
  (* routing and the replay check *)
  set (rl5 := if rl_is_sctp rl then rl4
              else SSL3_RECORD_set_seq_num (rl_sequence rl4) rl4).
  assert (Hreplay : (if negb (rl_is_sctp rl4)
                     then dtls_record_replay_check rl4 ref_bitmap
                     else (1, rl4)) = (1, rl5)).
  { change (rl_is_sctp rl4) with (rl_is_sctp rl). subst rl5.
    destruct (rl_is_sctp rl); [reflexivity | ].
    destruct Hfresh as [Hf | Hf]; [discriminate Hf | ].
    cbn [negb]. rewrite replay_check_returns.
    change (get_bitmap_at rl4 ref_bitmap) with (rl_bitmap rl).
    change (rl_sequence rl4)
      with (firstn 2 (rl_sequence rl) ++ firstn 6 (skipn 5 d)
            ++ skipn 8 (rl_sequence rl)).
    rewrite Hbs, Hf. reflexivity. }
  assert (Hrr5 : rr_type (rl_rrec rl5) = Z.land type 255
                 /\ rr_epoch (rl_rrec rl5) = epoch
                 /\ rr_length (rl_rrec rl5) = n
                 /\ rl_packet rl5 = d
                 /\ rl_md_ctx rl5 = None
                 /\ rl_compctx rl5 = false
                 /\ rl_max_frag_len rl5 = rl_max_frag_len rl
                 /\ rl_bio rl5 = rest).
  { subst rl5. rewrite <- Hb0, <- Hbe, <- Hbn, <- Hmd, <- Hcomp.
    destruct (rl_is_sctp rl); repeat split; reflexivity. }
  destruct Hrr5 as [Ht5 [He5 [Hn5 [Hp5 [Hmd5 [Hc5 [Hf5 Hbio5]]]]]]].
  (* processing *)
  set (rlp := process_prepare (process_input rl5)).
  set (c := cipher rlp (rl_rrec rlp) 1 0 0).
  destruct (Hcipher rlp (rl_rrec rlp)) as [Hcret Hcrec]. fold c in Hcret, Hcrec.
  set (rlc := after_cipher rlp c).
  set (rl6 := dtls_record_bitmap_update
                (set_rl_packet_length 0
                   (set_rl_rrec (set_rr_off 0 (rl_rrec rlc)) rlc))
                ref_bitmap).
  assert (Hrrp : rl_rrec rlp
                 = set_rr_orig_len n
                     (set_rr_data payload
                        (set_rr_input payload (rl_rrec rl5)))).
  { subst rlp. unfold process_prepare, process_input. cbv zeta.
    cbn [rl_rrec set_rl_rrec rr_length set_rr_input rr_input].
    rewrite Hp5, Hn5.
    change (Z.to_nat DTLS1_RT_HEADER_LENGTH) with 13%nat.
    rewrite Hbp. reflexivity. }
  assert (Hproc : dtls_process_record SSL3_RT_MAX_ENCRYPTED_LENGTH
                    SSL3_RT_MAX_COMPRESSED_LENGTH EVP_MAX_MD_SIZE mac cipher
                    tls_do_uncompress rl5 ref_bitmap = (1, rl6)).
  { unfold dtls_process_record. cbv zeta.
    change (rr_length (rl_rrec (process_input rl5)))
      with (rr_length (rl_rrec rl5)).
    rewrite Hn5.
    replace (SSL3_RT_MAX_ENCRYPTED_LENGTH <? n) with false
      by (symmetry; apply Z.ltb_ge; exact Hs1).
    fold rlp.
    assert (Hmdp : rl_md_ctx rlp = None) by exact Hmd5.
    unfold process_mac_size, etm_active. rewrite Hmdp, andb_false_r.
    unfold process_decrypt. cbv zeta. fold c. fold rlc.
    replace (c_ret c =? 0) with false
      by (symmetry; apply Z.eqb_neq; exact Hcret).
    assert (Hmte : mte_active rlc = false).
    { unfold mte_active, md_present.
      change (rl_md_ctx rlc) with (rl_md_ctx rlp). rewrite Hmdp.
      rewrite andb_false_r. reflexivity. }
    rewrite Hmte.
    replace (c_ret c =? 0) with false
      by (symmetry; apply Z.eqb_neq; exact Hcret).
    unfold process_finish. cbv zeta.
    change (rl_compctx rlc) with (rl_compctx rl5). rewrite Hc5.
    change (rl_max_frag_len rlc) with (rl_max_frag_len rl5).
    change (rl_rrec rlc) with (c_rec c).
    rewrite Hf5, Hcrec, Hrrp.
    cbn [rr_length set_rr_orig_len set_rr_data set_rr_input]. rewrite Hn5.
    replace (rl_max_frag_len rl <? n) with false
      by (symmetry; apply Z.ltb_ge; exact Hs2).
    subst rl6. change (rl_rrec rlc) with (c_rec c). rewrite Hcrec, Hrrp.
    reflexivity. }
  assert (Hpass : get_more_records_pass' rl0
                  = Return OSSL_RECORD_RETURN_SUCCESS (set_rl_num_recs 1 rl6)).
  { unfold get_more_records_pass, dtls_retrieve_rlayer_buffered_record.
    change (get_queue_at rl0 ref_processed_rcds) with (rl_processed_rcds rl).
    rewrite Hq. cbn [pqueue_pop].
    rewrite Hhdr, Hbody.
    unfold dispatch_record, dtls_get_bitmap.
    change (rr_epoch (rl_rrec rl4)) with (n2s (skipn 3 d)).
    change (rl_epoch rl4) with (rl_epoch rl).
    rewrite Hbe, He, Z.eqb_refl, Hreplay.
    change (1 =? 0) with false. cbv iota.
    rewrite Hn5.
    replace (n =? 0) with false by (symmetry; apply Z.eqb_neq; lia).
    change (negb (0 =? 0)) with false. cbv iota.
    unfold process_and_deliver. rewrite Hproc. reflexivity. }
  rewrite Hpass.
  exists (set_rl_num_recs 1 rl6).
  assert (Hrr6 : rl_rrec rl6
                 = set_rr_off 0
                     (set_rr_orig_len n
                        (set_rr_data payload
                           (set_rr_input payload (rl_rrec rl5))))).
  { subst rl6.
    rewrite (proj1 (proj2 (bitmap_update_frame _ ref_bitmap))).
    cbn [rl_rrec set_rl_rrec set_rl_packet_length].
    change (rl_rrec rlc) with (c_rec c). rewrite Hcrec, Hrrp. reflexivity. }
  assert (Hbio6 : rl_bio rl6 = rest).
  { subst rl6. unfold dtls_record_bitmap_update. cbv zeta.
    repeat match goal with
           | |- context [if ?x then _ else _] => destruct x
           end; exact Hbio5. }
  cbn [rl_num_recs set_rl_num_recs rl_rrec rl_bio].
  rewrite Hrr6.
  cbn [rr_type rr_epoch rr_length rr_off rr_data set_rr_off set_rr_orig_len
         set_rr_data set_rr_input].
  split; [reflexivity | ].
  split; [reflexivity | ].
  split; [exact Ht5 | ].
  split; [exact He5 | ].
  split; [exact Hn5 | ].
  split; [reflexivity | ].
  split; [apply firstn_all | exact Hbio6].
Qed.

End DeliveredRecord.

(** * The further properties on the scenarios *)

(** Witness of [refused_stays_refused]: record 2 was accepted before;
    it is still refused once record 66 has been accepted. *)
Lemma refused_stays_refused_witness :
  class_of_exit
    (replay_check_exit (seq64 2) (get_bitmap_at (window_at 66) ref_bitmap))
  <> cls_fresh
  /\ class_of_exit
       (replay_check_exit (seq64 2)
          (get_bitmap_at (dtls_record_bitmap_update (window_at 66) ref_bitmap)
             ref_bitmap))
     <> cls_fresh.
Proof.
  assert (H : class_of_exit
                (replay_check_exit (seq64 2)
                   (get_bitmap_at (window_at 66) ref_bitmap))
              <> cls_fresh) by (vm_compute; discriminate).
  split; [exact H | ].
  exact (refused_stays_refused (window_at 66) ref_bitmap (seq64 2) H).
Defined.

(** Witness of [update_marks_only_its_record]: record 64 is fresh and
    stays so when record 66 is marked. *)
Lemma update_marks_only_its_record_witness :
  class_of_exit
    (replay_check_exit (seq64 64) (get_bitmap_at (window_at 66) ref_bitmap))
  = cls_fresh
  /\ class_of_exit
       (replay_check_exit (seq64 64)
          (get_bitmap_at (dtls_record_bitmap_update (window_at 66) ref_bitmap)
             ref_bitmap))
     <> cls_duplicate.
Proof.
  assert (Hother : n2l8 (seq64 64) <> n2l8 (rl_sequence (window_at 66)))
    by (vm_compute; discriminate).
  assert (Hfresh : class_of_exit
                     (replay_check_exit (seq64 64)
                        (get_bitmap_at (window_at 66) ref_bitmap))
                   = cls_fresh) by (vm_compute; reflexivity).
  split; [exact Hfresh | ].
  exact (update_marks_only_its_record (window_at 66) ref_bitmap (seq64 64)
           Hother Hfresh).
Defined.

(** Witness of [buffer_record_keeps_bound]: on the full queue the call
    returns 0 and leaves the layer as it is. *)
Lemma buffer_record_keeps_bound_witness :
  dtls_rlayer_buffer_record setup_read_buffer_ok alloc_ok alloc_ok
    (record_checked layer3_full) ref_unprocessed_rcds (seq64 0)
  = (0, record_checked layer3_full).
Proof.
  assert (Hsetup : forall r,
             get_queue_at (snd (setup_read_buffer_ok r)) ref_unprocessed_rcds
             = get_queue_at r ref_unprocessed_rcds)
    by (intros r; reflexivity).
  apply (proj1 (buffer_record_keeps_bound setup_read_buffer_ok alloc_ok
                  alloc_ok (record_checked layer3_full) ref_unprocessed_rcds
                  (seq64 0) Hsetup)).
  vm_compute. discriminate.
Defined.

(** Witness of [buffered_record_comes_back]: the next-epoch record
    buffered into the empty queue is the one retrieved. *)
Lemma buffered_record_comes_back_witness :
  rl_packet
    (snd (dtls_retrieve_rlayer_buffered_record
            (snd (dtls_rlayer_buffer_record setup_read_buffer_ok alloc_ok
                    alloc_ok (record_checked layer3_next)
                    ref_unprocessed_rcds (seq64 0)))
            ref_unprocessed_rcds))
  = next_epoch_datagram.
Proof.
  assert (Hroom : pqueue_size
                    (rq_items (get_queue_at (record_checked layer3_next)
                                 ref_unprocessed_rcds)) < 100)
    by (vm_compute; reflexivity).
  assert (Hsetup : setup_read_buffer_ok
                     (buffer_handed_over (record_checked layer3_next))
                   = (true,
                      snd (setup_read_buffer_ok
                             (buffer_handed_over (record_checked layer3_next)))))
    by reflexivity.
  assert (Hempty : rq_items
                     (get_queue_at
                        (snd (setup_read_buffer_ok
                                (buffer_handed_over
                                   (record_checked layer3_next))))
                        ref_unprocessed_rcds) = [])
    by (vm_compute; reflexivity).
  assert (Hfirst : Forall (fun x => n2l8 (seq64 0) < priority_value x)
                     (rq_items
                        (get_queue_at
                           (snd (setup_read_buffer_ok
                                   (buffer_handed_over
                                      (record_checked layer3_next))))
                           ref_unprocessed_rcds)))
    by (rewrite Hempty; constructor).
  rewrite (proj1 (proj2 (proj2
             (buffered_record_comes_back setup_read_buffer_ok alloc_ok
                alloc_ok (record_checked layer3_next) _ ref_unprocessed_rcds
                (seq64 0) Hroom eq_refl eq_refl Hsetup Hfirst)))).
  vm_compute. reflexivity.
Defined.

(** Witness of [buffer_record_drops_duplicate]: the queue already holds
    a record of sequence number 0 when the next-epoch record of that
    number arrives. *)
Lemma buffer_record_drops_duplicate_witness :
  dtls_rlayer_buffer_record setup_read_buffer_ok alloc_ok alloc_ok
    (record_checked layer3_next_queued) ref_unprocessed_rcds (seq64 0)
  = (1, snd (setup_read_buffer_ok
               (buffer_handed_over (record_checked layer3_next_queued)))).
Proof.
  assert (Hroom : pqueue_size
                    (rq_items (get_queue_at (record_checked layer3_next_queued)
                                 ref_unprocessed_rcds)) < 100)
    by (vm_compute; reflexivity).
  assert (Hq : rq_items
                 (get_queue_at
                    (snd (setup_read_buffer_ok
                            (buffer_handed_over
                               (record_checked layer3_next_queued))))
                    ref_unprocessed_rcds) = [buffered_item 0])
    by (vm_compute; reflexivity).
  assert (Hsetup : setup_read_buffer_ok
                     (buffer_handed_over (record_checked layer3_next_queued))
                   = (true,
                      snd (setup_read_buffer_ok
                             (buffer_handed_over
                                (record_checked layer3_next_queued)))))
    by reflexivity.
  apply (buffer_record_drops_duplicate setup_read_buffer_ok alloc_ok alloc_ok
           (record_checked layer3_next_queued)
           (snd (setup_read_buffer_ok
                   (buffer_handed_over (record_checked layer3_next_queued))))
           ref_unprocessed_rcds (seq64 0) Hroom eq_refl eq_refl Hsetup).
  - rewrite Hq.
    apply (built_insert pqueue_new _ (buffered_item 0));
      [constructor | vm_compute; reflexivity].
  - exists (buffered_item 0). rewrite Hq.
    split; [left; reflexivity | vm_compute; reflexivity].
Defined.

(** Witness of [processed_record_served_first]: the record waiting in
    the processed queue is returned without a read. *)
Lemma processed_record_served_first_witness :
  exists rl',
    dtls_get_more_records max_encrypted_length max_compressed_length
      max_encrypted_overhead max_md_size fixed_mac plain_cipher no_uncompress
      dgram_read_n setup_read_buffer_ok alloc_ok alloc_ok 1 layer3_processed
    = Some (OSSL_RECORD_RETURN_SUCCESS, rl')
    /\ rl_num_recs rl' = 1
    /\ rl_packet rl' = rd_packet (pi_data (buffered_item 5)).
Proof.
  assert (Hq : rq_items (rl_processed_rcds layer3_processed)
               = buffered_item 5 :: []) by (vm_compute; reflexivity).
  assert (Hbuf : sb_buf (rl_rbuf layer3_processed) = Some [])
    by (vm_compute; reflexivity).
  destruct (processed_record_served_first max_encrypted_length
              max_compressed_length max_encrypted_overhead max_md_size
              fixed_mac plain_cipher no_uncompress dgram_read_n
              setup_read_buffer_ok alloc_ok alloc_ok layer3_processed
              (buffered_item 5) [] 0 [] Hq Hbuf)
    as [rl' [Hret [Hnum [Hpkt _]]]].
  exists rl'. split; [exact Hret | split; [exact Hnum | exact Hpkt]].
Defined.

(** Witness of [transport_result_passed_on]: with nothing on the wire
    the call returns the retry of the transport. *)
Lemma transport_result_passed_on_witness :
  get_more_records_loop max_encrypted_length max_compressed_length
    max_encrypted_overhead max_md_size fixed_mac plain_cipher no_uncompress
    dgram_read_n setup_read_buffer_ok alloc_ok alloc_ok 1 layer3
  = Some (OSSL_RECORD_RETURN_RETRY, header_fetched layer3).
Proof.
  assert (Hq : rq_items (rl_processed_rcds layer3) = [])
    by (vm_compute; reflexivity).
  assert (Hst : rl_rstate layer3 <> SSL_ST_READ_BODY
                \/ rl_packet_length layer3 < DTLS1_RT_HEADER_LENGTH)
    by (left; vm_compute; discriminate).
  assert (Hread : dgram_read_n layer3 DTLS1_RT_HEADER_LENGTH
                    (sb_len (rl_rbuf layer3)) 0 1
                  = (OSSL_RECORD_RETURN_RETRY, 0, header_fetched layer3))
    by (vm_compute; reflexivity).
  assert (Hret : OSSL_RECORD_RETURN_RETRY < OSSL_RECORD_RETURN_SUCCESS)
    by (vm_compute; reflexivity).
  exact (proj2 (transport_result_passed_on max_encrypted_length
                  max_compressed_length max_encrypted_overhead max_md_size
                  fixed_mac plain_cipher no_uncompress dgram_read_n
                  setup_read_buffer_ok alloc_ok alloc_ok layer3
                  (header_fetched layer3) OSSL_RECORD_RETURN_RETRY 0 0%nat
                  Hq Hst Hread Hret)).
Defined.

(** Witness of [bad_header_dropped]: an alert record whose major version
    byte is that of TLS is dropped on its header. *)
Lemma bad_header_dropped_witness :
  get_more_records_pass max_encrypted_length max_compressed_length
    max_encrypted_overhead max_md_size fixed_mac plain_cipher no_uncompress
    dgram_read_n setup_read_buffer_ok alloc_ok alloc_ok
    (layer3_with wrong_major_datagram)
  = Again (discarded
             (parse_header
                (set_rl_rstate SSL_ST_READ_BODY
                   (header_fetched (layer3_with wrong_major_datagram))))).
Proof.
  assert (Hq : rq_items (rl_processed_rcds (layer3_with wrong_major_datagram))
               = []) by (vm_compute; reflexivity).
  assert (Hst : rl_rstate (layer3_with wrong_major_datagram)
                <> SSL_ST_READ_BODY
                \/ rl_packet_length (layer3_with wrong_major_datagram)
                   < DTLS1_RT_HEADER_LENGTH)
    by (left; vm_compute; discriminate).
  assert (Hread : dgram_read_n (layer3_with wrong_major_datagram)
                    DTLS1_RT_HEADER_LENGTH
                    (sb_len (rl_rbuf (layer3_with wrong_major_datagram))) 0 1
                  = (OSSL_RECORD_RETURN_SUCCESS, 13,
                     header_fetched (layer3_with wrong_major_datagram)))
    by (vm_compute; reflexivity).
  assert (Hret : OSSL_RECORD_RETURN_SUCCESS <= OSSL_RECORD_RETURN_SUCCESS)
    by (vm_compute; discriminate).
  assert (Hlen : rl_packet_length
                   (header_fetched (layer3_with wrong_major_datagram))
                 = DTLS1_RT_HEADER_LENGTH) by (vm_compute; reflexivity).
  apply (proj2 (bad_header_dropped max_encrypted_length
                  max_compressed_length max_encrypted_overhead max_md_size
                  fixed_mac plain_cipher no_uncompress dgram_read_n
                  setup_read_buffer_ok alloc_ok alloc_ok
                  (layer3_with wrong_major_datagram)
                  (header_fetched (layer3_with wrong_major_datagram))
                  OSSL_RECORD_RETURN_SUCCESS 13 Hq Hst Hread Hret) Hlen).
  left. vm_compute. discriminate.
Defined.

(** Witness of [short_body_dropped]: a record cut after 4 of its 10
    bytes is dropped. *)
Lemma short_body_dropped_witness :
  get_more_records_pass max_encrypted_length max_compressed_length
    max_encrypted_overhead max_md_size fixed_mac plain_cipher no_uncompress
    dgram_read_n setup_read_buffer_ok alloc_ok alloc_ok
    (layer3_with truncated_datagram)
  = Again (discarded (body_fetched (layer3_with truncated_datagram))).
Proof.
  assert (Hq : rq_items (rl_processed_rcds (layer3_with truncated_datagram))
               = []) by (vm_compute; reflexivity).
  assert (Hh : get_header max_encrypted_length max_encrypted_overhead
                 dgram_read_n (layer3_with truncated_datagram)
               = inr (header_read (layer3_with truncated_datagram)))
    by (vm_compute; reflexivity).
  assert (Hmore : to_uint64
                    (rl_packet_length
                       (header_read (layer3_with truncated_datagram))
                     - DTLS1_RT_HEADER_LENGTH)
                  < rr_length
                      (rl_rrec (header_read (layer3_with truncated_datagram))))
    by (vm_compute; reflexivity).
  assert (Hread : dgram_read_n (header_read (layer3_with truncated_datagram))
                    (rr_length
                       (rl_rrec (header_read (layer3_with truncated_datagram))))
                    (rr_length
                       (rl_rrec (header_read (layer3_with truncated_datagram))))
                    1 1
                  = (OSSL_RECORD_RETURN_SUCCESS, 4,
                     body_fetched (layer3_with truncated_datagram)))
    by (vm_compute; reflexivity).
  assert (Hshort : OSSL_RECORD_RETURN_SUCCESS < OSSL_RECORD_RETURN_SUCCESS
                   \/ 4 <> rr_length
                             (rl_rrec
                                (header_read (layer3_with truncated_datagram))))
    by (right; vm_compute; discriminate).
  apply (proj2 (short_body_dropped max_encrypted_length
                  max_compressed_length max_encrypted_overhead max_md_size
                  fixed_mac plain_cipher no_uncompress dgram_read_n
                  setup_read_buffer_ok alloc_ok alloc_ok
                  (layer3_with truncated_datagram)
                  (header_read (layer3_with truncated_datagram))
                  (body_fetched (layer3_with truncated_datagram))
                  OSSL_RECORD_RETURN_SUCCESS 4 Hq Hh Hmore Hread Hshort)).
  vm_compute. reflexivity.
Defined.

(** Witness of [unroutable_record_dropped]: a record of epoch 2 reaches
    the layer of epoch 3. *)
Lemma unroutable_record_dropped_witness :
  dispatch_record max_encrypted_length max_compressed_length max_md_size
    fixed_mac plain_cipher no_uncompress setup_read_buffer_ok alloc_ok
    alloc_ok (record_read (layer3_with old_epoch_datagram))
  = Again (discarded (record_read (layer3_with old_epoch_datagram))).
Proof.
  assert (Hep : 0 <= rl_epoch (record_read (layer3_with old_epoch_datagram))
                < 65536) by (vm_compute; split; [discriminate | reflexivity]).
  assert (Hcur : rr_epoch
                   (rl_rrec (record_read (layer3_with old_epoch_datagram)))
                 <> rl_epoch (record_read (layer3_with old_epoch_datagram)))
    by (vm_compute; discriminate).
  assert (Hnext : ~ routes_to_next
                      (record_read (layer3_with old_epoch_datagram))
                      (rl_rrec (record_read (layer3_with old_epoch_datagram)))).
  { intros [H _]. vm_compute in H. discriminate H. }
  exact (proj1 (unroutable_record_dropped max_encrypted_length
                  max_compressed_length max_md_size fixed_mac plain_cipher
                  no_uncompress setup_read_buffer_ok alloc_ok alloc_ok
                  (record_read (layer3_with old_epoch_datagram))
                  Hep Hcur Hnext)).
Defined.

(** Witness of [refused_record_dropped]: record 2 arrives after records
    1, 2 and 65 were accepted. *)
Lemma refused_record_dropped_witness :
  dispatch_record max_encrypted_length max_compressed_length max_md_size
    fixed_mac plain_cipher no_uncompress setup_read_buffer_ok alloc_ok
    alloc_ok
    (record_read (set_rl_bio [repeated_datagram] (accepted [1; 2; 65] layer3)))
  = Again (discarded
             (record_read
                (set_rl_bio [repeated_datagram] (accepted [1; 2; 65] layer3)))).
Proof.
  assert (Hcur : rr_epoch
                   (rl_rrec
                      (record_read
                         (set_rl_bio [repeated_datagram]
                            (accepted [1; 2; 65] layer3))))
                 = rl_epoch
                     (record_read
                        (set_rl_bio [repeated_datagram]
                           (accepted [1; 2; 65] layer3))))
    by (vm_compute; reflexivity).
  assert (Hrefused : class_of_exit
                       (replay_check_exit
                          (rl_sequence
                             (record_read
                                (set_rl_bio [repeated_datagram]
                                   (accepted [1; 2; 65] layer3))))
                          (rl_bitmap
                             (record_read
                                (set_rl_bio [repeated_datagram]
                                   (accepted [1; 2; 65] layer3)))))
                     <> cls_fresh) by (vm_compute; discriminate).
  apply (proj1 (refused_record_dropped max_encrypted_length
                  max_compressed_length max_md_size fixed_mac plain_cipher
                  no_uncompress setup_read_buffer_ok alloc_ok alloc_ok
                  (record_read
                     (set_rl_bio [repeated_datagram]
                        (accepted [1; 2; 65] layer3)))
                  Hcur Hrefused)).
  vm_compute. reflexivity.
Defined.

(** Witness of [delivered_record_not_delivered_again]: record 7 arrives
    again once the window was updated for it. *)
Lemma delivered_record_not_delivered_again_witness :
  dispatch_record max_encrypted_length max_compressed_length max_md_size
    fixed_mac plain_cipher no_uncompress setup_read_buffer_ok alloc_ok
    alloc_ok layer3_redelivered
  = Again (discarded layer3_redelivered).
Proof.
  assert (Hwindow : rl_bitmap layer3_redelivered
                    = rl_bitmap (dtls_record_bitmap_update layer3_delivering
                                   ref_bitmap)) by (vm_compute; reflexivity).
  assert (Hseq : rl_sequence layer3_redelivered
                 = rl_sequence layer3_delivering) by (vm_compute; reflexivity).
  assert (Hcur : rr_epoch (rl_rrec layer3_redelivered)
                 = rl_epoch layer3_redelivered) by (vm_compute; reflexivity).
  assert (Hsctp : rl_is_sctp layer3_redelivered = false)
    by (vm_compute; reflexivity).
  exact (proj1 (delivered_record_not_delivered_again max_encrypted_length
                  max_compressed_length max_md_size fixed_mac plain_cipher
                  no_uncompress setup_read_buffer_ok alloc_ok alloc_ok
                  layer3_delivering layer3_redelivered
                  Hwindow Hseq Hcur Hsctp)).
Defined.

(** Witness of [next_epoch_record_outside_handshake]: the next-epoch
    handshake record arrives once the handshake is over; the queue stays
    empty. *)
Lemma next_epoch_record_outside_handshake_witness :
  dispatch_record max_encrypted_length max_compressed_length max_md_size
    fixed_mac plain_cipher no_uncompress setup_read_buffer_ok alloc_ok
    alloc_ok (record_read layer3_next_established)
  = Again (discarded (record_checked layer3_next_established))
  /\ rl_unprocessed_rcds (discarded (record_checked layer3_next_established))
     = rl_unprocessed_rcds (record_read layer3_next_established).
Proof.
  assert (Hroute : dtls_get_bitmap (record_read layer3_next_established)
                     (rl_rrec (record_read layer3_next_established))
                   = (Some ref_next_bitmap, 1)) by (vm_compute; reflexivity).
  assert (Hreplay : (if negb (rl_is_sctp (record_read layer3_next_established))
                     then dtls_record_replay_check
                            (record_read layer3_next_established)
                            ref_next_bitmap
                     else (1, record_read layer3_next_established))
                    = (1, record_checked layer3_next_established))
    by (vm_compute; reflexivity).
  assert (Hok : 1 <> 0) by discriminate.
  assert (Hlen : rr_length (rl_rrec (record_checked layer3_next_established))
                 <> 0) by (vm_compute; discriminate).
  assert (Hinit : rl_in_init (record_checked layer3_next_established) = 0)
    by (vm_compute; reflexivity).
  destruct (next_epoch_record_outside_handshake max_encrypted_length
              max_compressed_length max_md_size fixed_mac plain_cipher
              no_uncompress setup_read_buffer_ok alloc_ok alloc_ok
              (record_read layer3_next_established)
              (record_checked layer3_next_established) ref_next_bitmap 1
              Hroute Hreplay Hok Hlen Hinit) as [Hd [Hq _]].
  split; [exact Hd | exact Hq].
Defined.

(** The datagram transport of the scenarios does not touch the replay
    windows. *)
Lemma dgram_read_n_windows (r : OSSL_RECORD_LAYER) (n m e c : Z) :
  same_windows r (snd (dgram_read_n r n m e c)).
Proof.
  unfold dgram_read_n. cbv zeta.
  destruct ((e =? 0) && (sb_left (rl_rbuf r) =? 0)).
  - destruct (rl_bio r); split; reflexivity.
  - destruct (sb_left (rl_rbuf r) =? 0); [split; reflexivity | ].
    destruct (e =? 0); split; reflexivity.
Qed.

(** Witness of [windows_move_only_on_success]: on the full queue the
    call ends in a retry, with both windows as they were. *)
Lemma windows_move_only_on_success_witness :
  dtls_get_more_records max_encrypted_length max_compressed_length
    max_encrypted_overhead max_md_size fixed_mac plain_cipher no_uncompress
    dgram_read_n setup_read_buffer_ok alloc_ok alloc_ok 2 layer3_full
  = Some full_queue_result
  /\ fst full_queue_result = OSSL_RECORD_RETURN_RETRY
  /\ same_windows layer3_full (snd full_queue_result).
Proof.
  assert (Hret : dtls_get_more_records max_encrypted_length
                   max_compressed_length max_encrypted_overhead max_md_size
                   fixed_mac plain_cipher no_uncompress dgram_read_n
                   setup_read_buffer_ok alloc_ok alloc_ok 2 layer3_full
                 = Some (fst full_queue_result, snd full_queue_result))
    by (vm_compute; reflexivity).
  assert (Hval : fst full_queue_result = OSSL_RECORD_RETURN_RETRY)
    by (vm_compute; reflexivity).
  assert (Hsetup : forall r, same_windows r (snd (setup_read_buffer_ok r)))
    by (intros r; split; reflexivity).
  split; [vm_compute; reflexivity | split; [exact Hval | ]].
  apply (proj2 (proj2 (windows_move_only_on_success max_encrypted_length
                         max_compressed_length max_encrypted_overhead
                         max_md_size fixed_mac plain_cipher no_uncompress
                         dgram_read_n setup_read_buffer_ok alloc_ok alloc_ok
                         dgram_read_n_windows Hsetup 2 layer3_full
                         (snd full_queue_result) (fst full_queue_result)
                         Hret))).
  vm_compute. discriminate.
Defined.

(** Witness of [write_pending_report]: the retry of the pending write is
    written out; the caller is told 5 bytes were written and the buffer
    is empty. *)
Lemma write_pending_report_witness :
  ssl3_write_pending false no_flush bio_write_all 3 conn_pending wbuf_pending
    SSL3_RT_APPLICATION_DATA 4096 5 = Some pending_written
  /\ w_ret pending_written = 1
  /\ w_written pending_written = Some 5
  /\ sb_left (w_wb pending_written) = 0
  /\ s_rwstate (w_conn pending_written) = SSL_NOTHING.
Proof.
  assert (Hret : ssl3_write_pending false no_flush bio_write_all 3
                   conn_pending wbuf_pending SSL3_RT_APPLICATION_DATA 4096 5
                 = Some pending_written) by (vm_compute; reflexivity).
  assert (Hone : w_ret pending_written = 1) by (vm_compute; reflexivity).
  split; [exact Hret | split; [exact Hone | ]].
  exact (proj1 (write_pending_report false no_flush bio_write_all 3
                  conn_pending wbuf_pending SSL3_RT_APPLICATION_DATA 4096 5
                  pending_written Hret) Hone).
Defined.

(** Witness of [dtls_record_sent_or_dropped]: the 18-byte record is
    written and nothing is left in the write buffer. *)
Lemma dtls_record_sent_or_dropped_witness :
  dtls_write_records_flush false no_flush bio_write_all 3 conn_pending
    wbuf_pending 18 SSL3_RT_APPLICATION_DATA 4096 5 = Some record_flushed
  /\ sb_left (w_wb record_flushed) = 0
  /\ wpend_tot (w_conn record_flushed) = 5.
Proof.
  assert (Hret : dtls_write_records_flush false no_flush bio_write_all 3
                   conn_pending wbuf_pending 18 SSL3_RT_APPLICATION_DATA
                   4096 5 = Some record_flushed) by (vm_compute; reflexivity).
  assert (Hdtls : s_is_dtls conn_pending = true) by (vm_compute; reflexivity).
  assert (Hktls : false && negb (SSL3_RT_APPLICATION_DATA
                                 =? SSL3_RT_APPLICATION_DATA) = false)
    by (vm_compute; reflexivity).
  destruct (dtls_record_sent_or_dropped false no_flush bio_write_all 3
              conn_pending wbuf_pending 18 SSL3_RT_APPLICATION_DATA 4096 5
              record_flushed Hdtls Hktls Hret) as [Hleft [_ [_ [Htot _]]]].
  split; [exact Hret | split; [exact Hleft | exact Htot]].
Defined.

(** Witness of [written_header_parses_back]: the handshake record built
    from [hello_template] is handed to the BIO, and its header parses
    back to a handshake record of epoch 0 and length 3. *)
Lemma written_header_parses_back_witness :
  exists datagram rest,
    s_wbio_out (w_conn hello_written) = s_wbio_out conn_idle ++ datagram :: rest
    /\ rr_type (rl_rrec (parse_header (set_rl_packet datagram layer3)))
       = SSL3_RT_HANDSHAKE
    /\ header_version datagram = DTLS1_2_VERSION
    /\ rr_epoch (rl_rrec (parse_header (set_rl_packet datagram layer3))) = 0
    /\ rr_length (rl_rrec (parse_header (set_rl_packet datagram layer3))) = 3.
Proof.
  assert (Hprep : dtls_write_records_prepare alloc_write_buffer compress_none
                    mac_none null_enc false write_state_clear hello_template 1
                  = Ok (fst hello_prepared, snd hello_prepared))
    by (vm_compute; reflexivity).
  assert (Hsize : snd hello_prepared < 2 ^ 32) by (vm_compute; reflexivity).
  assert (Hbio : s_wbio conn_idle = true) by (vm_compute; reflexivity).
  assert (Hktls : false && negb (ot_type hello_template
                                 =? SSL3_RT_APPLICATION_DATA) = false)
    by (vm_compute; reflexivity).
  assert (Hret : dtls_write_records alloc_write_buffer compress_none mac_none
                   null_enc false next_sequence false no_flush bio_write_all
                   3 conn_idle write_state_clear hello_template 1
                 = Ok (set_ws_write_sequence
                         (next_sequence (ws_write_sequence write_state_clear))
                         write_state_clear,
                       Some hello_written)) by (vm_compute; reflexivity).
  destruct (written_header_parses_back alloc_write_buffer compress_none
              mac_none null_enc false next_sequence false no_flush
              bio_write_all 3 conn_idle write_state_clear _ hello_template 1
              (fst hello_prepared) (snd hello_prepared) hello_written
              Hprep Hsize Hbio Hktls Hret) as [datagram [rest [Hout Hparse]]].
  exists datagram, rest.
  destruct (Hparse (set_rl_packet datagram layer3) eq_refl)
    as [Ht [Hv [He [_ Hl]]]].
  split; [exact Hout | ].
  split; [rewrite Ht; vm_compute; reflexivity | ].
  split; [rewrite Hv; vm_compute; reflexivity | ].
  split; [rewrite He; vm_compute; reflexivity | ].
  rewrite Hl. vm_compute. reflexivity.
Defined.

(** Witness of [cleartext_record_on_the_wire]: the record built from
    [hello_template] is the 13-byte header of a handshake record of
    epoch 0 and sequence number 5, followed by the three bytes. *)
Lemma cleartext_record_on_the_wire_witness :
  snd hello_prepared = 16
  /\ firstn 16 (match sb_buf (fst hello_prepared) with
                | Some b => b
                | None => []
                end)
     = dtls_datagram SSL3_RT_HANDSHAKE DTLS1_2_VERSION 0 5 [x01; x02; x03].
Proof.
  assert (Hprep : dtls_write_records_prepare alloc_write_buffer compress_none
                    mac_none null_enc false write_state_clear hello_template 1
                  = Ok (fst hello_prepared, snd hello_prepared))
    by (vm_compute; reflexivity).
  assert (Hctx : ws_enc_write_ctx write_state_clear = None)
    by (vm_compute; reflexivity).
  assert (Hcomp : ws_compress write_state_clear = false)
    by (vm_compute; reflexivity).
  assert (Henc : forall data,
             null_enc (ot_type hello_template) data 0 = (1, data))
    by (intros data; reflexivity).
  destruct (cleartext_record_on_the_wire alloc_write_buffer compress_none
              mac_none null_enc false write_state_clear hello_template 1
              (fst hello_prepared) (snd hello_prepared)
              Hctx Hcomp Henc Hprep) as [Hlen Hbytes].
  split; [rewrite Hlen; vm_compute; reflexivity | ].
  replace 16%nat with (Z.to_nat (snd hello_prepared))
    by (vm_compute; reflexivity).
  rewrite Hbytes. vm_compute. reflexivity.
Defined.

(** Witness of [cleartext_record_delivered]: the application-data record
    of three bytes is delivered by [layer3]. *)
Lemma cleartext_record_delivered_witness :
  exists rl',
    dtls_get_more_records max_encrypted_length max_compressed_length
      max_encrypted_overhead max_md_size fixed_mac plain_cipher no_uncompress
      dgram_read_n setup_read_buffer_ok alloc_ok alloc_ok 1
      (layer3_with app_data_datagram)
    = Some (OSSL_RECORD_RETURN_SUCCESS, rl')
    /\ rr_type (rl_rrec rl') = SSL3_RT_APPLICATION_DATA
    /\ rr_length (rl_rrec rl') = 3
    /\ firstn 3 (rr_data (rl_rrec rl')) = [x01; x02; x03].
Proof.
  assert (Hbio : rl_bio (layer3_with app_data_datagram)
                 = ([to_uchar (Z.land SSL3_RT_APPLICATION_DATA 255);
                     to_uchar (Z.shiftr DTLS1_2_VERSION 8);
                     to_uchar (Z.land DTLS1_2_VERSION 255)]
                    ++ s2n 3 ++ [x00; x00; x00; x00; x00; x09]
                    ++ s2n (Z.of_nat (length [x01; x02; x03]))
                    ++ [x01; x02; x03]) :: [])
    by (vm_compute; reflexivity).
  assert (Hsize : Z.of_nat (length [x01; x02; x03]) <= max_encrypted_length
                  /\ Z.of_nat (length [x01; x02; x03])
                     <= rl_max_frag_len (layer3_with app_data_datagram)
                  /\ Z.of_nat (length [x01; x02; x03]) < 65536
                  /\ 0 <= max_encrypted_overhead)
    by (vm_compute; repeat split; discriminate).
  assert (Hversion : rl_version (layer3_with app_data_datagram)
                     = DTLS1_2_VERSION
                     /\ 0 <= DTLS1_2_VERSION < 65536)
    by (vm_compute; repeat split; discriminate).
  assert (Hepoch : rl_epoch (layer3_with app_data_datagram) = 3
                   /\ 0 <= 3 < 65536)
    by (vm_compute; repeat split; discriminate).
  assert (Hidle : rq_items (rl_processed_rcds (layer3_with app_data_datagram))
                  = []
                  /\ rl_rstate (layer3_with app_data_datagram)
                     <> SSL_ST_READ_BODY
                  /\ sb_left (rl_rbuf (layer3_with app_data_datagram)) = 0
                  /\ sb_buf (rl_rbuf (layer3_with app_data_datagram))
                     = Some [])
    by (vm_compute; repeat split; discriminate).
  assert (Hclear : rl_md_ctx (layer3_with app_data_datagram) = None
                   /\ rl_compctx (layer3_with app_data_datagram) = false)
    by (vm_compute; split; reflexivity).
  assert (Hcipher : forall r rr,
             c_ret (plain_cipher r rr 1 0 0) <> 0
             /\ c_rec (plain_cipher r rr 1 0 0) = rr).
  { intros r rr. split; [discriminate | ].
    destruct rr. unfold plain_cipher. cbn. rewrite Z.sub_0_r. reflexivity. }
  assert (Hfresh : rl_is_sctp (layer3_with app_data_datagram) = true
                   \/ class_of_exit
                        (replay_check_exit
                           (firstn 2
                              (rl_sequence (layer3_with app_data_datagram))
                            ++ [x00; x00; x00; x00; x00; x09]
                            ++ skipn 8
                                 (rl_sequence (layer3_with app_data_datagram)))
                           (rl_bitmap (layer3_with app_data_datagram)))
                      = cls_fresh)
    by (right; vm_compute; reflexivity).
  destruct (cleartext_record_delivered max_encrypted_length
              max_compressed_length max_encrypted_overhead max_md_size
              fixed_mac plain_cipher no_uncompress setup_read_buffer_ok
              alloc_ok alloc_ok (layer3_with app_data_datagram)
              SSL3_RT_APPLICATION_DATA DTLS1_2_VERSION 3
              [x00; x00; x00; x00; x00; x09] [x01; x02; x03] [] [] 0
              Hbio eq_refl ltac:(discriminate) Hsize Hversion Hepoch Hidle
              Hclear Hcipher Hfresh)
    as [rl' [Hret [_ [Ht [_ [Hl [_ [Hd _]]]]]]]].
  exists rl'.
  split; [exact Hret | ].
  split; [rewrite Ht; vm_compute; reflexivity | ].
  split; [exact Hl | exact Hd].
Defined.
